(** * dzt-tourism-platform: the lookup, cache and request-handler layer

    A shallow embedding of
      - [src/lib/amadeus-flights.ts]   ([GERMAN_AIRPORTS], [getAirportCode],
                                        [getAccessToken], [amadeusRequest],
                                        [searchFlights], [searchAirports],
                                        [parseDuration], [getDurationMinutes],
                                        [getStops], [getAirlineName]),
      - [src/lib/db-transport.ts]      ([fetchWithCache], [formatDelay],
                                        [getJourneyDuration], [formatDuration],
                                        [getTransferCount], [getProductIcon]),
      - [src/pages/api/connections.ts] ([CITY_COORDS], [resolveLocation], [GET]),
      - [src/pages/api/flights/search.ts]       ([getMockFlights],
                                                 [transformFlightOffer], [GET]),
      - [src/pages/api/flights/airports.ts]     ([searchLocalAirports], [GET]),
      - [src/pages/api/transport/departures.ts] ([GET]),
      - [src/pages/api/transport/journeys.ts]   ([GET]),
      - [src/pages/api/transport/search.ts]     ([GET]),
    together with the statements of the specification that concern them.

    Conventions of the embedding.
      - A JavaScript string is the list of its UTF-16 code units;
        [toLowerCase] and [toUpperCase] are the case conversions of
        ECMAScript on the code points of the string.
      - A JavaScript number that the code only uses as an integer (seconds of
        delay, epoch milliseconds, counts) is a [Z]; [NaN] is [None] where it
        can arise.
      - [null] / [undefined] are [None] of an [option], or constructors of
        their own where the code tells them apart.
      - A thrown exception is the [Throw] constructor of [outcome].
      - Outbound calls are recorded in a trace of [event]s. *)

From Stdlib Require Import ZArith NArith Lia List Bool String Ascii.
From Stdlib Require Import Numbers.DecimalString Numbers.DecimalPos.
From stdpp Require Import base option list gmap.

Local Open Scope N_scope.

(** ** JavaScript strings *)

Module Js.

(** A string value: its UTF-16 code units. *)
Abbreviation jsstring := (list N).

(** Decoder used only to write string literals of this file: the literal
    between the quotes is UTF-8, the program's strings are UTF-16. All
    literals of the sources lie in the Basic Multilingual Plane. *)
Fixpoint utf16_of_utf8 (bs : list N) : jsstring :=
  match bs with
  | [] => []
  | b :: r =>
      if b <? 128 then b :: utf16_of_utf8 r
      else
        match r with
        | [] => [b]
        | b2 :: r2 =>
            if b <? 224 then ((b - 192) * 64 + (b2 - 128)) :: utf16_of_utf8 r2
            else
              match r2 with
              | [] => [b; b2]
              | b3 :: r3 =>
                  ((b - 224) * 4096 + (b2 - 128) * 64 + (b3 - 128))
                    :: utf16_of_utf8 r3
              end
        end
  end.

Definition js (s : string) : jsstring :=
  utf16_of_utf8 (List.map N_of_ascii (list_ascii_of_string s)).

(** *** Character classes *)

(** [\d] of a JavaScript regular expression: the ASCII digits. *)
Definition is_digit (c : N) : bool := (48 <=? c) && (c <=? 57).

(** [[A-Z]]. *)
Definition is_AZ (c : N) : bool := (65 <=? c) && (c <=? 90).

(** WhiteSpace and LineTerminator code points, the ones [trim] strips. *)
Definition is_space (c : N) : bool :=
  ((9 <=? c) && (c <=? 13)) || (c =? 32) || (c =? 160) || (c =? 5760)
  || ((8192 <=? c) && (c <=? 8202)) || (c =? 8232) || (c =? 8233)
  || (c =? 8239) || (c =? 8287) || (c =? 12288) || (c =? 65279).

(** *** Case mapping

    [toLowerCase] and [toUpperCase] convert the code points of the string by
    the Unicode Default Case Conversion, as ECMAScript prescribes: the
    mappings of UnicodeData.txt and the language-insensitive ones of
    SpecialCasing.txt, which are unconditional but for the capital sigma in
    final position. The tables are those of Unicode 14.0. *)

Definition is_high_surrogate (c : N) : bool := (55296 <=? c) && (c <=? 56319).
Definition is_low_surrogate (c : N) : bool := (56320 <=? c) && (c <=? 57343).

(** A surrogate pair is one code point; any other code unit, a surrogate that
    stands alone included, is its own. *)
Fixpoint StringToCodePoints (s : jsstring) : list N :=
  match s with
  | [] => []
  | h :: t =>
      match t with
      | l :: r =>
          if is_high_surrogate h && is_low_surrogate l
          then (65536 + (h - 55296) * 1024 + (l - 56320)) :: StringToCodePoints r
          else h :: StringToCodePoints t
      | [] => [h]
      end
  end.

Definition UTF16EncodeCodePoint (cp : N) : jsstring :=
  if cp <? 65536 then [cp]
  else [55296 + (cp - 65536) / 1024; 56320 + (cp - 65536) mod 1024].

Definition CodePointsToString (l : list N) : jsstring :=
  List.concat (List.map UTF16EncodeCodePoint l).

(** An entry [(lo, hi, step, to)] of a mapping table maps the code points
    [lo], [lo + step], ..., up to [hi], to [to], [to + step], ... *)
Fixpoint map_point (table : list (N * N * N * N)) (c : N) : option N :=
  match table with
  | [] => None
  | (lo, hi, step, to) :: rest =>
      if (lo <=? c) && (c <=? hi) && ((c - lo) mod step =? 0) then Some (to + (c - lo))
      else map_point rest c
  end.

(** An entry of a table of code points with more than one code point as
    their mapping. *)
Fixpoint special_point (table : list (N * list N)) (c : N) : option (list N) :=
  match table with
  | [] => None
  | (k, v) :: rest => if k =? c then Some v else special_point rest c
  end.

Definition in_ranges (table : list (N * N)) (c : N) : bool :=
  existsb (fun r => (r.1 <=? c) && (c <=? r.2)) table.

(** The lower-case mappings of one code point to one, up to U+00FF and from
    U+0100. *)
Definition lower_latin1 : list (N * N * N * N) :=
  [ (65, 90, 1, 97); (192, 214, 1, 224); (216, 222, 1, 248) ].

Definition lower_above : list (N * N * N * N) :=
  [
    (256, 302, 2, 257); (306, 310, 2, 307); (313, 327, 2, 314); (330, 374, 2, 331);
    (376, 376, 1, 255); (377, 381, 2, 378); (385, 385, 1, 595); (386, 388, 2, 387);
    (390, 390, 1, 596); (391, 391, 1, 392); (393, 394, 1, 598); (395, 395, 1, 396);
    (398, 398, 1, 477); (399, 399, 1, 601); (400, 400, 1, 603); (401, 401, 1, 402);
    (403, 403, 1, 608); (404, 404, 1, 611); (406, 406, 1, 617); (407, 407, 1, 616);
    (408, 408, 1, 409); (412, 412, 1, 623); (413, 413, 1, 626); (415, 415, 1, 629);
    (416, 420, 2, 417); (422, 422, 1, 640); (423, 423, 1, 424); (425, 425, 1, 643);
    (428, 428, 1, 429); (430, 430, 1, 648); (431, 431, 1, 432); (433, 434, 1, 650);
    (435, 437, 2, 436); (439, 439, 1, 658); (440, 440, 1, 441); (444, 444, 1, 445);
    (452, 452, 1, 454); (453, 453, 1, 454); (455, 455, 1, 457); (456, 456, 1, 457);
    (458, 458, 1, 460); (459, 475, 2, 460); (478, 494, 2, 479); (497, 497, 1, 499);
    (498, 500, 2, 499); (502, 502, 1, 405); (503, 503, 1, 447); (504, 542, 2, 505);
    (544, 544, 1, 414); (546, 562, 2, 547); (570, 570, 1, 11365); (571, 571, 1, 572);
    (573, 573, 1, 410); (574, 574, 1, 11366); (577, 577, 1, 578); (579, 579, 1, 384);
    (580, 580, 1, 649); (581, 581, 1, 652); (582, 590, 2, 583); (880, 882, 2, 881);
    (886, 886, 1, 887); (895, 895, 1, 1011); (902, 902, 1, 940); (904, 906, 1, 941);
    (908, 908, 1, 972); (910, 911, 1, 973); (913, 929, 1, 945); (931, 939, 1, 963);
    (975, 975, 1, 983); (984, 1006, 2, 985); (1012, 1012, 1, 952); (1015, 1015, 1, 1016);
    (1017, 1017, 1, 1010); (1018, 1018, 1, 1019); (1021, 1023, 1, 891); (1024, 1039, 1, 1104);
    (1040, 1071, 1, 1072); (1120, 1152, 2, 1121); (1162, 1214, 2, 1163); (1216, 1216, 1, 1231);
    (1217, 1229, 2, 1218); (1232, 1326, 2, 1233); (1329, 1366, 1, 1377); (4256, 4293, 1, 11520);
    (4295, 4295, 1, 11559); (4301, 4301, 1, 11565); (5024, 5103, 1, 43888); (5104, 5109, 1, 5112);
    (7312, 7354, 1, 4304); (7357, 7359, 1, 4349); (7680, 7828, 2, 7681); (7838, 7838, 1, 223);
    (7840, 7934, 2, 7841); (7944, 7951, 1, 7936); (7960, 7965, 1, 7952); (7976, 7983, 1, 7968);
    (7992, 7999, 1, 7984); (8008, 8013, 1, 8000); (8025, 8031, 2, 8017); (8040, 8047, 1, 8032);
    (8072, 8079, 1, 8064); (8088, 8095, 1, 8080); (8104, 8111, 1, 8096); (8120, 8121, 1, 8112);
    (8122, 8123, 1, 8048); (8124, 8124, 1, 8115); (8136, 8139, 1, 8050); (8140, 8140, 1, 8131);
    (8152, 8153, 1, 8144); (8154, 8155, 1, 8054); (8168, 8169, 1, 8160); (8170, 8171, 1, 8058);
    (8172, 8172, 1, 8165); (8184, 8185, 1, 8056); (8186, 8187, 1, 8060); (8188, 8188, 1, 8179);
    (8486, 8486, 1, 969); (8490, 8490, 1, 107); (8491, 8491, 1, 229); (8498, 8498, 1, 8526);
    (8544, 8559, 1, 8560); (8579, 8579, 1, 8580); (9398, 9423, 1, 9424); (11264, 11311, 1, 11312);
    (11360, 11360, 1, 11361); (11362, 11362, 1, 619); (11363, 11363, 1, 7549); (11364, 11364, 1, 637);
    (11367, 11371, 2, 11368); (11373, 11373, 1, 593); (11374, 11374, 1, 625); (11375, 11375, 1, 592);
    (11376, 11376, 1, 594); (11378, 11378, 1, 11379); (11381, 11381, 1, 11382); (11390, 11391, 1, 575);
    (11392, 11490, 2, 11393); (11499, 11501, 2, 11500); (11506, 11506, 1, 11507); (42560, 42604, 2, 42561);
    (42624, 42650, 2, 42625); (42786, 42798, 2, 42787); (42802, 42862, 2, 42803); (42873, 42875, 2, 42874);
    (42877, 42877, 1, 7545); (42878, 42886, 2, 42879); (42891, 42891, 1, 42892); (42893, 42893, 1, 613);
    (42896, 42898, 2, 42897); (42902, 42920, 2, 42903); (42922, 42922, 1, 614); (42923, 42923, 1, 604);
    (42924, 42924, 1, 609); (42925, 42925, 1, 620); (42926, 42926, 1, 618); (42928, 42928, 1, 670);
    (42929, 42929, 1, 647); (42930, 42930, 1, 669); (42931, 42931, 1, 43859); (42932, 42946, 2, 42933);
    (42948, 42948, 1, 42900); (42949, 42949, 1, 642); (42950, 42950, 1, 7566); (42951, 42953, 2, 42952);
    (42960, 42960, 1, 42961); (42966, 42968, 2, 42967); (42997, 42997, 1, 42998); (65313, 65338, 1, 65345);
    (66560, 66599, 1, 66600); (66736, 66771, 1, 66776); (66928, 66938, 1, 66967); (66940, 66954, 1, 66979);
    (66956, 66962, 1, 66995); (66964, 66965, 1, 67003); (68736, 68786, 1, 68800); (71840, 71871, 1, 71872);
    (93760, 93791, 1, 93792); (125184, 125217, 1, 125218) ].

(** The upper-case mappings of one code point to one. *)
Definition upper_latin1 : list (N * N * N * N) :=
  [ (97, 122, 1, 65); (181, 181, 1, 924); (224, 246, 1, 192); (248, 254, 1, 216); (255, 255, 1, 376) ].

Definition upper_above : list (N * N * N * N) :=
  [
    (257, 303, 2, 256); (305, 305, 1, 73); (307, 311, 2, 306); (314, 328, 2, 313);
    (331, 375, 2, 330); (378, 382, 2, 377); (383, 383, 1, 83); (384, 384, 1, 579);
    (387, 389, 2, 386); (392, 392, 1, 391); (396, 396, 1, 395); (402, 402, 1, 401);
    (405, 405, 1, 502); (409, 409, 1, 408); (410, 410, 1, 573); (414, 414, 1, 544);
    (417, 421, 2, 416); (424, 424, 1, 423); (429, 429, 1, 428); (432, 432, 1, 431);
    (436, 438, 2, 435); (441, 441, 1, 440); (445, 445, 1, 444); (447, 447, 1, 503);
    (453, 453, 1, 452); (454, 454, 1, 452); (456, 456, 1, 455); (457, 457, 1, 455);
    (459, 459, 1, 458); (460, 460, 1, 458); (462, 476, 2, 461); (477, 477, 1, 398);
    (479, 495, 2, 478); (498, 498, 1, 497); (499, 499, 1, 497); (501, 501, 1, 500);
    (505, 543, 2, 504); (547, 563, 2, 546); (572, 572, 1, 571); (575, 576, 1, 11390);
    (578, 578, 1, 577); (583, 591, 2, 582); (592, 592, 1, 11375); (593, 593, 1, 11373);
    (594, 594, 1, 11376); (595, 595, 1, 385); (596, 596, 1, 390); (598, 599, 1, 393);
    (601, 601, 1, 399); (603, 603, 1, 400); (604, 604, 1, 42923); (608, 608, 1, 403);
    (609, 609, 1, 42924); (611, 611, 1, 404); (613, 613, 1, 42893); (614, 614, 1, 42922);
    (616, 616, 1, 407); (617, 617, 1, 406); (618, 618, 1, 42926); (619, 619, 1, 11362);
    (620, 620, 1, 42925); (623, 623, 1, 412); (625, 625, 1, 11374); (626, 626, 1, 413);
    (629, 629, 1, 415); (637, 637, 1, 11364); (640, 640, 1, 422); (642, 642, 1, 42949);
    (643, 643, 1, 425); (647, 647, 1, 42929); (648, 648, 1, 430); (649, 649, 1, 580);
    (650, 651, 1, 433); (652, 652, 1, 581); (658, 658, 1, 439); (669, 669, 1, 42930);
    (670, 670, 1, 42928); (837, 837, 1, 921); (881, 883, 2, 880); (887, 887, 1, 886);
    (891, 893, 1, 1021); (940, 940, 1, 902); (941, 943, 1, 904); (945, 961, 1, 913);
    (962, 962, 1, 931); (963, 971, 1, 931); (972, 972, 1, 908); (973, 974, 1, 910);
    (976, 976, 1, 914); (977, 977, 1, 920); (981, 981, 1, 934); (982, 982, 1, 928);
    (983, 983, 1, 975); (985, 1007, 2, 984); (1008, 1008, 1, 922); (1009, 1009, 1, 929);
    (1010, 1010, 1, 1017); (1011, 1011, 1, 895); (1013, 1013, 1, 917); (1016, 1016, 1, 1015);
    (1019, 1019, 1, 1018); (1072, 1103, 1, 1040); (1104, 1119, 1, 1024); (1121, 1153, 2, 1120);
    (1163, 1215, 2, 1162); (1218, 1230, 2, 1217); (1231, 1231, 1, 1216); (1233, 1327, 2, 1232);
    (1377, 1414, 1, 1329); (4304, 4346, 1, 7312); (4349, 4351, 1, 7357); (5112, 5117, 1, 5104);
    (7296, 7296, 1, 1042); (7297, 7297, 1, 1044); (7298, 7298, 1, 1054); (7299, 7300, 1, 1057);
    (7301, 7301, 1, 1058); (7302, 7302, 1, 1066); (7303, 7303, 1, 1122); (7304, 7304, 1, 42570);
    (7545, 7545, 1, 42877); (7549, 7549, 1, 11363); (7566, 7566, 1, 42950); (7681, 7829, 2, 7680);
    (7835, 7835, 1, 7776); (7841, 7935, 2, 7840); (7936, 7943, 1, 7944); (7952, 7957, 1, 7960);
    (7968, 7975, 1, 7976); (7984, 7991, 1, 7992); (8000, 8005, 1, 8008); (8017, 8023, 2, 8025);
    (8032, 8039, 1, 8040); (8048, 8049, 1, 8122); (8050, 8053, 1, 8136); (8054, 8055, 1, 8154);
    (8056, 8057, 1, 8184); (8058, 8059, 1, 8170); (8060, 8061, 1, 8186); (8112, 8113, 1, 8120);
    (8126, 8126, 1, 921); (8144, 8145, 1, 8152); (8160, 8161, 1, 8168); (8165, 8165, 1, 8172);
    (8526, 8526, 1, 8498); (8560, 8575, 1, 8544); (8580, 8580, 1, 8579); (9424, 9449, 1, 9398);
    (11312, 11359, 1, 11264); (11361, 11361, 1, 11360); (11365, 11365, 1, 570); (11366, 11366, 1, 574);
    (11368, 11372, 2, 11367); (11379, 11379, 1, 11378); (11382, 11382, 1, 11381); (11393, 11491, 2, 11392);
    (11500, 11502, 2, 11499); (11507, 11507, 1, 11506); (11520, 11557, 1, 4256); (11559, 11559, 1, 4295);
    (11565, 11565, 1, 4301); (42561, 42605, 2, 42560); (42625, 42651, 2, 42624); (42787, 42799, 2, 42786);
    (42803, 42863, 2, 42802); (42874, 42876, 2, 42873); (42879, 42887, 2, 42878); (42892, 42892, 1, 42891);
    (42897, 42899, 2, 42896); (42900, 42900, 1, 42948); (42903, 42921, 2, 42902); (42933, 42947, 2, 42932);
    (42952, 42954, 2, 42951); (42961, 42961, 1, 42960); (42967, 42969, 2, 42966); (42998, 42998, 1, 42997);
    (43859, 43859, 1, 42931); (43888, 43967, 1, 5024); (65345, 65370, 1, 65313); (66600, 66639, 1, 66560);
    (66776, 66811, 1, 66736); (66967, 66977, 1, 66928); (66979, 66993, 1, 66940); (66995, 67001, 1, 66956);
    (67003, 67004, 1, 66964); (68800, 68850, 1, 68736); (71872, 71903, 1, 71840); (93792, 93823, 1, 93760);
    (125218, 125251, 1, 125184) ].

(** The upper-case mappings of one code point to several (SpecialCasing.txt). *)
Definition upper_special_latin1 : list (N * list N) :=
  [ (223, [83; 83]) ].

Definition upper_special_above : list (N * list N) :=
  [
    (329, [700; 78]); (496, [74; 780]); (912, [921; 776; 769]);
    (944, [933; 776; 769]); (1415, [1333; 1362]); (7830, [72; 817]);
    (7831, [84; 776]); (7832, [87; 778]); (7833, [89; 778]);
    (7834, [65; 702]); (8016, [933; 787]); (8018, [933; 787; 768]);
    (8020, [933; 787; 769]); (8022, [933; 787; 834]); (8064, [7944; 921]);
    (8065, [7945; 921]); (8066, [7946; 921]); (8067, [7947; 921]);
    (8068, [7948; 921]); (8069, [7949; 921]); (8070, [7950; 921]);
    (8071, [7951; 921]); (8072, [7944; 921]); (8073, [7945; 921]);
    (8074, [7946; 921]); (8075, [7947; 921]); (8076, [7948; 921]);
    (8077, [7949; 921]); (8078, [7950; 921]); (8079, [7951; 921]);
    (8080, [7976; 921]); (8081, [7977; 921]); (8082, [7978; 921]);
    (8083, [7979; 921]); (8084, [7980; 921]); (8085, [7981; 921]);
    (8086, [7982; 921]); (8087, [7983; 921]); (8088, [7976; 921]);
    (8089, [7977; 921]); (8090, [7978; 921]); (8091, [7979; 921]);
    (8092, [7980; 921]); (8093, [7981; 921]); (8094, [7982; 921]);
    (8095, [7983; 921]); (8096, [8040; 921]); (8097, [8041; 921]);
    (8098, [8042; 921]); (8099, [8043; 921]); (8100, [8044; 921]);
    (8101, [8045; 921]); (8102, [8046; 921]); (8103, [8047; 921]);
    (8104, [8040; 921]); (8105, [8041; 921]); (8106, [8042; 921]);
    (8107, [8043; 921]); (8108, [8044; 921]); (8109, [8045; 921]);
    (8110, [8046; 921]); (8111, [8047; 921]); (8114, [8122; 921]);
    (8115, [913; 921]); (8116, [902; 921]); (8118, [913; 834]);
    (8119, [913; 834; 921]); (8124, [913; 921]); (8130, [8138; 921]);
    (8131, [919; 921]); (8132, [905; 921]); (8134, [919; 834]);
    (8135, [919; 834; 921]); (8140, [919; 921]); (8146, [921; 776; 768]);
    (8147, [921; 776; 769]); (8150, [921; 834]); (8151, [921; 776; 834]);
    (8162, [933; 776; 768]); (8163, [933; 776; 769]); (8164, [929; 787]);
    (8166, [933; 834]); (8167, [933; 776; 834]); (8178, [8186; 921]);
    (8179, [937; 921]); (8180, [911; 921]); (8182, [937; 834]);
    (8183, [937; 834; 921]); (8188, [937; 921]); (64256, [70; 70]);
    (64257, [70; 73]); (64258, [70; 76]); (64259, [70; 70; 73]);
    (64260, [70; 70; 76]); (64261, [83; 84]); (64262, [83; 84]);
    (64275, [1348; 1350]); (64276, [1348; 1333]); (64277, [1348; 1339]);
    (64278, [1358; 1350]); (64279, [1348; 1341]) ].

(** The code points with the property [Case_Ignorable]. *)
Definition case_ignorable : list (N * N) :=
  [
    (39, 39); (46, 46); (58, 58); (94, 94); (96, 96); (168, 168);
    (173, 173); (175, 175); (180, 180); (183, 184); (688, 879); (884, 885);
    (890, 890); (900, 901); (903, 903); (1155, 1161); (1369, 1369); (1375, 1375);
    (1425, 1469); (1471, 1471); (1473, 1474); (1476, 1477); (1479, 1479); (1524, 1524);
    (1536, 1541); (1552, 1562); (1564, 1564); (1600, 1600); (1611, 1631); (1648, 1648);
    (1750, 1757); (1759, 1768); (1770, 1773); (1807, 1807); (1809, 1809); (1840, 1866);
    (1958, 1968); (2027, 2037); (2042, 2042); (2045, 2045); (2070, 2093); (2137, 2139);
    (2184, 2184); (2192, 2193); (2200, 2207); (2249, 2306); (2362, 2362); (2364, 2364);
    (2369, 2376); (2381, 2381); (2385, 2391); (2402, 2403); (2417, 2417); (2433, 2433);
    (2492, 2492); (2497, 2500); (2509, 2509); (2530, 2531); (2558, 2558); (2561, 2562);
    (2620, 2620); (2625, 2626); (2631, 2632); (2635, 2637); (2641, 2641); (2672, 2673);
    (2677, 2677); (2689, 2690); (2748, 2748); (2753, 2757); (2759, 2760); (2765, 2765);
    (2786, 2787); (2810, 2815); (2817, 2817); (2876, 2876); (2879, 2879); (2881, 2884);
    (2893, 2893); (2901, 2902); (2914, 2915); (2946, 2946); (3008, 3008); (3021, 3021);
    (3072, 3072); (3076, 3076); (3132, 3132); (3134, 3136); (3142, 3144); (3146, 3149);
    (3157, 3158); (3170, 3171); (3201, 3201); (3260, 3260); (3263, 3263); (3270, 3270);
    (3276, 3277); (3298, 3299); (3328, 3329); (3387, 3388); (3393, 3396); (3405, 3405);
    (3426, 3427); (3457, 3457); (3530, 3530); (3538, 3540); (3542, 3542); (3633, 3633);
    (3636, 3642); (3654, 3662); (3761, 3761); (3764, 3772); (3782, 3782); (3784, 3789);
    (3864, 3865); (3893, 3893); (3895, 3895); (3897, 3897); (3953, 3966); (3968, 3972);
    (3974, 3975); (3981, 3991); (3993, 4028); (4038, 4038); (4141, 4144); (4146, 4151);
    (4153, 4154); (4157, 4158); (4184, 4185); (4190, 4192); (4209, 4212); (4226, 4226);
    (4229, 4230); (4237, 4237); (4253, 4253); (4348, 4348); (4957, 4959); (5906, 5908);
    (5938, 5939); (5970, 5971); (6002, 6003); (6068, 6069); (6071, 6077); (6086, 6086);
    (6089, 6099); (6103, 6103); (6109, 6109); (6155, 6159); (6211, 6211); (6277, 6278);
    (6313, 6313); (6432, 6434); (6439, 6440); (6450, 6450); (6457, 6459); (6679, 6680);
    (6683, 6683); (6742, 6742); (6744, 6750); (6752, 6752); (6754, 6754); (6757, 6764);
    (6771, 6780); (6783, 6783); (6823, 6823); (6832, 6862); (6912, 6915); (6964, 6964);
    (6966, 6970); (6972, 6972); (6978, 6978); (7019, 7027); (7040, 7041); (7074, 7077);
    (7080, 7081); (7083, 7085); (7142, 7142); (7144, 7145); (7149, 7149); (7151, 7153);
    (7212, 7219); (7222, 7223); (7288, 7293); (7376, 7378); (7380, 7392); (7394, 7400);
    (7405, 7405); (7412, 7412); (7416, 7417); (7468, 7530); (7544, 7544); (7579, 7679);
    (8125, 8125); (8127, 8129); (8141, 8143); (8157, 8159); (8173, 8175); (8189, 8190);
    (8203, 8207); (8216, 8217); (8228, 8228); (8231, 8231); (8234, 8238); (8288, 8292);
    (8294, 8303); (8305, 8305); (8319, 8319); (8336, 8348); (8400, 8432); (11388, 11389);
    (11503, 11505); (11631, 11631); (11647, 11647); (11744, 11775); (11823, 11823); (12293, 12293);
    (12330, 12333); (12337, 12341); (12347, 12347); (12441, 12446); (12540, 12542); (40981, 40981);
    (42232, 42237); (42508, 42508); (42607, 42610); (42612, 42621); (42623, 42623); (42652, 42655);
    (42736, 42737); (42752, 42785); (42864, 42864); (42888, 42890); (42994, 42996); (43000, 43001);
    (43010, 43010); (43014, 43014); (43019, 43019); (43045, 43046); (43052, 43052); (43204, 43205);
    (43232, 43249); (43263, 43263); (43302, 43309); (43335, 43345); (43392, 43394); (43443, 43443);
    (43446, 43449); (43452, 43453); (43471, 43471); (43493, 43494); (43561, 43566); (43569, 43570);
    (43573, 43574); (43587, 43587); (43596, 43596); (43632, 43632); (43644, 43644); (43696, 43696);
    (43698, 43700); (43703, 43704); (43710, 43711); (43713, 43713); (43741, 43741); (43756, 43757);
    (43763, 43764); (43766, 43766); (43867, 43871); (43881, 43883); (44005, 44005); (44008, 44008);
    (44013, 44013); (64286, 64286); (64434, 64450); (65024, 65039); (65043, 65043); (65056, 65071);
    (65106, 65106); (65109, 65109); (65279, 65279); (65287, 65287); (65294, 65294); (65306, 65306);
    (65342, 65342); (65344, 65344); (65392, 65392); (65438, 65439); (65507, 65507); (65529, 65531);
    (66045, 66045); (66272, 66272); (66422, 66426); (67456, 67461); (67463, 67504); (67506, 67514);
    (68097, 68099); (68101, 68102); (68108, 68111); (68152, 68154); (68159, 68159); (68325, 68326);
    (68900, 68903); (69291, 69292); (69446, 69456); (69506, 69509); (69633, 69633); (69688, 69702);
    (69744, 69744); (69747, 69748); (69759, 69761); (69811, 69814); (69817, 69818); (69821, 69821);
    (69826, 69826); (69837, 69837); (69888, 69890); (69927, 69931); (69933, 69940); (70003, 70003);
    (70016, 70017); (70070, 70078); (70089, 70092); (70095, 70095); (70191, 70193); (70196, 70196);
    (70198, 70199); (70206, 70206); (70367, 70367); (70371, 70378); (70400, 70401); (70459, 70460);
    (70464, 70464); (70502, 70508); (70512, 70516); (70712, 70719); (70722, 70724); (70726, 70726);
    (70750, 70750); (70835, 70840); (70842, 70842); (70847, 70848); (70850, 70851); (71090, 71093);
    (71100, 71101); (71103, 71104); (71132, 71133); (71219, 71226); (71229, 71229); (71231, 71232);
    (71339, 71339); (71341, 71341); (71344, 71349); (71351, 71351); (71453, 71455); (71458, 71461);
    (71463, 71467); (71727, 71735); (71737, 71738); (71995, 71996); (71998, 71998); (72003, 72003);
    (72148, 72151); (72154, 72155); (72160, 72160); (72193, 72202); (72243, 72248); (72251, 72254);
    (72263, 72263); (72273, 72278); (72281, 72283); (72330, 72342); (72344, 72345); (72752, 72758);
    (72760, 72765); (72767, 72767); (72850, 72871); (72874, 72880); (72882, 72883); (72885, 72886);
    (73009, 73014); (73018, 73018); (73020, 73021); (73023, 73029); (73031, 73031); (73104, 73105);
    (73109, 73109); (73111, 73111); (73459, 73460); (78896, 78904); (92912, 92916); (92976, 92982);
    (92992, 92995); (94031, 94031); (94095, 94111); (94176, 94177); (94179, 94180); (110576, 110579);
    (110581, 110587); (110589, 110590); (113821, 113822); (113824, 113827); (118528, 118573); (118576, 118598);
    (119143, 119145); (119155, 119170); (119173, 119179); (119210, 119213); (119362, 119364); (121344, 121398);
    (121403, 121452); (121461, 121461); (121476, 121476); (121499, 121503); (121505, 121519); (122880, 122886);
    (122888, 122904); (122907, 122913); (122915, 122916); (122918, 122922); (123184, 123197); (123566, 123566);
    (123628, 123631); (125136, 125142); (125252, 125259); (127995, 127999); (917505, 917505); (917536, 917631);
    (917760, 917999) ].

(** The code points with the property [Cased] that are not [Case_Ignorable]. *)
Definition cased_letter : list (N * N) :=
  [
    (65, 90); (97, 122); (170, 170); (181, 181); (186, 186); (192, 214);
    (216, 246); (248, 442); (444, 447); (452, 659); (661, 687); (880, 883);
    (886, 887); (891, 893); (895, 895); (902, 902); (904, 906); (908, 908);
    (910, 929); (931, 1013); (1015, 1153); (1162, 1327); (1329, 1366); (1376, 1416);
    (4256, 4293); (4295, 4295); (4301, 4301); (4304, 4346); (4349, 4351); (5024, 5109);
    (5112, 5117); (7296, 7304); (7312, 7354); (7357, 7359); (7424, 7467); (7531, 7543);
    (7545, 7578); (7680, 7957); (7960, 7965); (7968, 8005); (8008, 8013); (8016, 8023);
    (8025, 8025); (8027, 8027); (8029, 8029); (8031, 8061); (8064, 8116); (8118, 8124);
    (8126, 8126); (8130, 8132); (8134, 8140); (8144, 8147); (8150, 8155); (8160, 8172);
    (8178, 8180); (8182, 8188); (8450, 8450); (8455, 8455); (8458, 8467); (8469, 8469);
    (8473, 8477); (8484, 8484); (8486, 8486); (8488, 8488); (8490, 8493); (8495, 8500);
    (8505, 8505); (8508, 8511); (8517, 8521); (8526, 8526); (8544, 8575); (8579, 8580);
    (9398, 9449); (11264, 11387); (11390, 11492); (11499, 11502); (11506, 11507); (11520, 11557);
    (11559, 11559); (11565, 11565); (42560, 42605); (42624, 42651); (42786, 42863); (42865, 42887);
    (42891, 42894); (42896, 42954); (42960, 42961); (42963, 42963); (42965, 42969); (42997, 42998);
    (43002, 43002); (43824, 43866); (43872, 43880); (43888, 43967); (64256, 64262); (64275, 64279);
    (65313, 65338); (65345, 65370); (66560, 66639); (66736, 66771); (66776, 66811); (66928, 66938);
    (66940, 66954); (66956, 66962); (66964, 66965); (66967, 66977); (66979, 66993); (66995, 67001);
    (67003, 67004); (68736, 68786); (68800, 68850); (71840, 71903); (93760, 93823); (119808, 119892);
    (119894, 119964); (119966, 119967); (119970, 119970); (119973, 119974); (119977, 119980); (119982, 119993);
    (119995, 119995); (119997, 120003); (120005, 120069); (120071, 120074); (120077, 120084); (120086, 120092);
    (120094, 120121); (120123, 120126); (120128, 120132); (120134, 120134); (120138, 120144); (120146, 120485);
    (120488, 120512); (120514, 120538); (120540, 120570); (120572, 120596); (120598, 120628); (120630, 120654);
    (120656, 120686); (120688, 120712); (120714, 120744); (120746, 120770); (120772, 120779); (122624, 122633);
    (122635, 122654); (125184, 125251); (127280, 127305); (127312, 127337); (127344, 127369) ].

Definition lower_point (c : N) : list N :=
  if c =? 304 then [105; 775]           (* İ -> i, combining dot above *)
  else
    match map_point (lower_latin1 ++ lower_above) c with
    | Some l => [l]
    | None => [c]
    end.

Definition upper_point (c : N) : list N :=
  match special_point (upper_special_latin1 ++ upper_special_above) c with
  | Some us => us
  | None =>
      match map_point (upper_latin1 ++ upper_above) c with
      | Some u => [u]
      | None => [c]
      end
  end.

(** Beyond the case-ignorable code points at the head of [l] stands a cased
    letter. *)
Fixpoint cased_next (l : list N) : bool :=
  match l with
  | [] => false
  | c :: r => if in_ranges case_ignorable c then cased_next r else in_ranges cased_letter c
  end.

(** The condition [Final_Sigma] of SpecialCasing.txt; [before] holds the code
    points before the sigma, the nearest first. *)
Definition Final_Sigma (before after : list N) : bool :=
  cased_next before && negb (cased_next after).

Fixpoint toLowercase (before l : list N) : list N :=
  match l with
  | [] => []
  | c :: r =>
      (if c =? 931 then if Final_Sigma before r then [962] else [963]
       else lower_point c)
      ++ toLowercase (c :: before) r
  end.

Definition toLowerCase (s : jsstring) : jsstring :=
  CodePointsToString (toLowercase [] (StringToCodePoints s)).

Definition toUpperCase (s : jsstring) : jsstring :=
  CodePointsToString (List.concat (List.map upper_point (StringToCodePoints s))).

(** *** [trim] *)

Fixpoint trimStart (s : jsstring) : jsstring :=
  match s with
  | c :: r => if is_space c then trimStart r else s
  | [] => []
  end.

Definition trimEnd (s : jsstring) : jsstring := rev (trimStart (rev s)).

Definition trim (s : jsstring) : jsstring := trimEnd (trimStart s).

(** *** [includes] *)

Fixpoint startsWith (s p : jsstring) {struct p} : bool :=
  match p, s with
  | [], _ => true
  | _ :: _, [] => false
  | a :: p', b :: s' => (a =? b) && startsWith s' p'
  end.

(** [s.includes(p)]: [p] occurs in [s] as a contiguous block. *)
Fixpoint includes (s p : jsstring) : bool :=
  startsWith s p ||
  match s with
  | [] => false
  | _ :: s' => includes s' p
  end.

Definition str_eqb (a b : jsstring) : bool := bool_decide (a = b).

(** [s] between double quotes (code unit 34), for the messages that quote a
    parameter name. *)
Definition quoted (s : jsstring) : jsstring := [34] ++ s ++ [34].

End Js.

Import Js.

(** ** Plain objects used as lookup tables

    [GERMAN_AIRPORTS], [CITY_COORDS] and [icons] are object literals read
    with [table[key]]. Such a read finds the literal's own properties and,
    failing that, the properties every object inherits from
    [Object.prototype]. *)

Module Obj.

(** What [table[key]] can evaluate to when it is not [undefined]. *)
Inductive value : Type :=
  | Str (s : jsstring)           (* an own property: one of the table's strings *)
  | Inherited (key : jsstring).  (* the member [key] of [Object.prototype] *)

#[global] Instance value_eq_dec : EqDecision value.
Proof. solve_decision. Defined.

(** The property names of [Object.prototype]. *)
Definition Object_prototype_keys : list jsstring :=
  [ js "constructor"; js "__defineGetter__"; js "__defineSetter__";
    js "hasOwnProperty"; js "__lookupGetter__"; js "__lookupSetter__";
    js "isPrototypeOf"; js "propertyIsEnumerable"; js "toString";
    js "valueOf"; js "__proto__"; js "toLocaleString" ].

Definition inherited (key : jsstring) : bool :=
  existsb (str_eqb key) Object_prototype_keys.

(** The own property [key] of an object literal, if it has one. *)
Fixpoint own (table : list (jsstring * jsstring)) (key : jsstring) : option jsstring :=
  match table with
  | [] => None
  | (k, v) :: rest => if str_eqb k key then Some v else own rest key
  end.

(** [table[key]]; [None] is [undefined]. *)
Definition get (table : list (jsstring * jsstring)) (key : jsstring) : option value :=
  match own table key with
  | Some v => Some (Str v)
  | None => if inherited key then Some (Inherited key) else None
  end.

(** Truthiness, as tested by [if (x)], [!x] and [x || y]. *)
Definition truthy (v : option value) : bool :=
  match v with
  | None => false
  | Some (Str []) => false
  | Some (Str (_ :: _)) => true
  | Some (Inherited _) => true
  end.

(** [v] where the code has tested it truthy, nothing where it is falsy. *)
Definition as_truthy (v : option value) : option value :=
  if truthy v then v else None.

(** [String(v)], as a template literal renders [v]. *)
Definition to_string (v : value) : jsstring :=
  match v with
  | Str s => s
  | Inherited k =>
      if str_eqb k (js "__proto__") then js "[object Object]"
      else if str_eqb k (js "constructor")
           then js "function Object() { [native code] }"
           else js "function " ++ k ++ js "() { [native code] }"
  end.

End Obj.

Import Obj.

(** ** Exceptions, responses and numbers *)

Module Rt.

(** A thrown exception carries its [message]. *)
Inductive outcome (A : Type) : Type :=
  | Ok (a : A)
  | Throw (message : jsstring).
Arguments Ok {A} a.
Arguments Throw {A} message.

(** What [await fetch(url)] followed by [response.json()] can give: the
    promise rejects, or a response arrives with its [ok] flag, status line and
    a body that parses or not. *)
Inductive fetched (A : Type) : Type :=
  | Rejected (message : jsstring)
  | Replied (ok : bool) (status : Z) (statusText : jsstring) (json : outcome A).
Arguments Rejected {A} message.
Arguments Replied {A} ok status statusText json.

(** [null], [undefined] or a number, for the fields typed
    [number | null | undefined]. *)
Inductive maybe_number : Type :=
  | Undefined
  | Null
  | Num (n : Z).

(** [String(n)] for an integer. *)
Definition Z_to_js (n : Z) : jsstring := js (NilZero.string_of_int (Z.to_int n)).

(** [Math.round(n / d)] for integers [n] and [d > 0]: the nearest integer,
    a tie going up. *)
Definition round_div (n d : Z) : Z := ((2 * n + d) / (2 * d))%Z.

(** [parseInt(s)]: leading white space, an optional sign, then the longest
    run of digits, in base 16 after a [0x] prefix and in base 10 otherwise;
    [None] is [NaN]. *)
Definition digit_value (hex : bool) (c : N) : option Z :=
  if is_digit c then Some (Z.of_N (c - 48))
  else if hex && (97 <=? c) && (c <=? 102) then Some (Z.of_N (c - 87))
  else if hex && (65 <=? c) && (c <=? 70) then Some (Z.of_N (c - 55))
  else None.

Fixpoint parse_digits (hex : bool) (acc : option Z) (s : jsstring) : option Z :=
  match s with
  | [] => acc
  | c :: r =>
      match digit_value hex c with
      | Some d =>
          parse_digits hex
            (Some ((if hex then 16 else 10) * default 0 acc + d))%Z r
      | None => acc
      end
  end.

Definition parse_unsigned (s : jsstring) : option Z :=
  match s with
  | 48 :: x :: r =>
      if (x =? 120) || (x =? 88) then parse_digits true None r
      else parse_digits false None s
  | _ => parse_digits false None s
  end.

Definition parseInt (s : jsstring) : option Z :=
  match trimStart s with
  | 45 :: r => Z.opp <$> parse_unsigned r
  | 43 :: r => parse_unsigned r
  | r => parse_unsigned r
  end.

(** [Math.min(a, b)] with [NaN] as [None]. *)
Definition Math_min (a : option Z) (b : Z) : option Z := (fun x => Z.min x b) <$> a.

(** [o || d] for a string that may be [null]. *)
Definition or_default (o : option jsstring) (d : jsstring) : jsstring :=
  match o with
  | Some (c :: r) => c :: r
  | _ => d
  end.

(** [!o] for a string that may be [null]: [null] and the empty string. *)
Definition missing (o : option jsstring) : bool :=
  match o with
  | Some (_ :: _) => false
  | _ => true
  end.

(** An HTTP response of a handler, its body before [JSON.stringify]. *)
Record Response (B : Type) : Type := {
  status : Z;
  headers : list (jsstring * jsstring);
  body : B;
}.
Arguments status {B} r.
Arguments headers {B} r.
Arguments body {B} r.

Definition json_headers : list (jsstring * jsstring) :=
  [ (js "Content-Type", js "application/json") ].

End Rt.

Import Rt.

(** ** [src/lib/amadeus-flights.ts] *)

Module Flights.

Definition GERMAN_AIRPORTS : list (jsstring * jsstring) :=
  [ (js "Berlin", js "BER");
    (js "Frankfurt", js "FRA");
    (js "München", js "MUC");
    (js "Hamburg", js "HAM");
    (js "Düsseldorf", js "DUS");
    (js "Köln", js "CGN");
    (js "Stuttgart", js "STR");
    (js "Hannover", js "HAJ");
    (js "Nürnberg", js "NUE");
    (js "Leipzig", js "LEJ");
    (js "Dresden", js "DRS");
    (js "Bremen", js "BRE") ].

(** [/^[A-Z]{3}$/.test(s)] *)
Definition is_iata (s : jsstring) : bool :=
  match s with
  | [a; b; c] => is_AZ a && is_AZ b && is_AZ c
  | _ => false
  end.

(** The condition of the partial-match loop for one table entry. *)
Definition partial_match (normalized : jsstring) (entry : jsstring * jsstring) : bool :=
  includes (toLowerCase (fst entry)) normalized
  || includes normalized (toLowerCase (fst entry)).

Definition getAirportCode (city : jsstring) : option value :=
  (* Exact match *)
  match as_truthy (get GERMAN_AIRPORTS city) with
  | Some v => Some v
  | None =>
      (* Partial match *)
      let normalized := toLowerCase city in
      match List.find (partial_match normalized) GERMAN_AIRPORTS with
      | Some (_, code) => Some (Str code)
      | None =>
          (* Maybe it's already an IATA code *)
          if is_iata (toUpperCase city) then Some (Str (toUpperCase city))
          else None
      end
  end.

End Flights.

Import Flights.


(** ** [src/lib/db-transport.ts] *)

Module Transport.

(** *** The in-memory cache *)

Section Cache.

(** The payload of a provider response. *)
Context {T : Type}.

(** [cache]: request URL to [{ data, expires }]. *)
Abbreviation cache_t := (gmap jsstring (T * Z)).

(** An outbound HTTP request. *)
Inductive event : Type :=
  | Fetch (url : jsstring).

(** What one call of [fetchWithCache] meets outside the program: the clock
    when the entry is checked, the provider's answer should it be asked, and
    the clock when the answer is stored. *)
Record world : Type := {
  now_read : Z;
  reply : fetched T;
  now_write : Z;
}.

Definition fetchWithCache (url : jsstring) (ttl : Z) (w : world) (cache : cache_t)
  : outcome T * cache_t * list event :=
  let miss :=
    match reply w with
    | Rejected m => (Throw m, cache, [Fetch url])
    | Replied ok status statusText json =>
        if negb ok then
          (Throw (js "DB API Error: " ++ Z_to_js status ++ js " " ++ statusText),
           cache, [Fetch url])
        else
          match json with
          | Throw m => (Throw m, cache, [Fetch url])
          | Ok data => (Ok data, <[url := (data, (now_write w + ttl)%Z)]> cache, [Fetch url])
          end
    end in
  match cache !! url with
  | Some (data, expires) =>
      if (now_read w <? expires)%Z then (Ok data, cache, []) else miss
  | None => miss
  end.

(** A call of [fetchWithCache] with the world it meets. *)
Record call : Type := {
  call_url : jsstring;
  call_ttl : Z;
  call_world : world;
}.

(** The cache after a sequence of calls, in order. *)
Definition run (calls : list call) (cache : cache_t) : cache_t :=
  fold_left (fun c k => (fetchWithCache (call_url k) (call_ttl k) (call_world k) c).1.2)
            calls cache.

End Cache.

Arguments world : clear implicits.
Arguments call : clear implicits.

Definition CACHE_TTL : Z := 60 * 1000.

(** *** Types (FPTF format) *)

Record Stop : Type := {
  stop_id : jsstring;
  stop_name : jsstring;
}.

Record Line : Type := {
  line_id : jsstring;
  line_name : jsstring;
  line_mode : jsstring;
  line_product : jsstring;
}.

Record Leg : Type := {
  origin : Stop;
  destination : Stop;
  departure : jsstring;
  plannedDeparture : jsstring;
  departureDelay : maybe_number;
  arrival : jsstring;
  plannedArrival : jsstring;
  arrivalDelay : maybe_number;
  line : option Line;
  walking : option bool;     (* [walking?: boolean] *)
}.

Record Journey : Type := {
  legs : list Leg;
}.

Record Remark : Type := {
  remark_type : jsstring;
  remark_text : option jsstring;
  remark_summary : option jsstring;
}.

Record Departure : Type := {
  dep_tripId : jsstring;
  dep_direction : jsstring;
  dep_line : option Line;
  dep_when : option jsstring;
  dep_plannedWhen : jsstring;
  dep_delay : maybe_number;
  dep_platform : option jsstring;
  dep_plannedPlatform : option jsstring;
  dep_remarks : option (list Remark);
}.

Record DeparturesResponse : Type := {
  departures : list Departure;
  realtimeDataUpdatedAt : option Z;
}.

(** *** Helper functions *)

Definition formatDelay (delaySeconds : maybe_number) : jsstring :=
  match delaySeconds with
  | Null | Undefined | Num 0 => []
  | Num d =>
      let minutes := round_div d 60 in
      if (0 <? minutes)%Z then js "+" ++ Z_to_js minutes ++ js " min"
      else Z_to_js minutes ++ js " min"
  end.

Section Dates.

(** [new Date(s).getTime()]: epoch milliseconds, [None] for an invalid date. *)
Variable getTime : jsstring -> option Z.

Definition getJourneyDuration (journey : Journey) : option Z :=
  match legs journey with
  | [] => Some 0%Z
  | firstLeg :: _ =>
      let lastLeg := List.last (legs journey) firstLeg in
      match getTime (departure firstLeg), getTime (arrival lastLeg) with
      | Some start, Some end_ => Some (round_div (end_ - start) (1000 * 60))
      | _, _ => None
      end
  end.

End Dates.

(** [!leg.walking] *)
Definition not_walking (leg : Leg) : bool :=
  match walking leg with
  | Some true => false
  | _ => true
  end.

Definition getTransferCount (journey : Journey) : Z :=
  let transportLegs := List.filter not_walking (legs journey) in
  Z.max 0 (Z.of_nat (length transportLegs) - 1).

Definition icons : list (jsstring * jsstring) :=
  [ (js "nationalExpress", js "ICE");
    (js "national", js "IC");
    (js "regionalExp", js "RE");
    (js "regional", js "RB");
    (js "suburban", js "S");
    (js "subway", js "U");
    (js "tram", js "Tram");
    (js "bus", js "Bus");
    (js "ferry", js "Fähre");
    (js "taxi", js "Taxi") ].

Definition getProductIcon (product : jsstring) : value :=
  match as_truthy (get icons product) with
  | Some v => v
  | None => Str product
  end.

End Transport.

Import Transport.

(** ** [src/pages/api/connections.ts] *)

Module Connections.

Definition MOTIS_BASE_URL : jsstring := js "https://europe.motis-project.de/api/v1".

Record MotisPlace : Type := {
  place_name : jsstring;
  place_time : jsstring;      (* [departure] of [from], [arrival] of [to] *)
}.

Record MotisLeg : Type := {
  leg_mode : jsstring;
  leg_from : MotisPlace;
  leg_to : MotisPlace;
  leg_duration : Z;
}.

Record MotisItinerary : Type := {
  it_duration : Z;
  it_startTime : jsstring;
  it_endTime : jsstring;
  it_transfers : Z;
  it_legs : list MotisLeg;
}.

(** The parsed body of the planner's reply; [itineraries] may be missing. *)
Record MotisData : Type := {
  itineraries : option (list MotisItinerary);
}.

Definition CITY_COORDS : list (jsstring * jsstring) :=
  [ (js "berlin", js "52.5200,13.4050");
    (js "hamburg", js "53.5511,9.9937");
    (js "münchen", js "48.1351,11.5820");
    (js "muenchen", js "48.1351,11.5820");
    (js "köln", js "50.9375,6.9603");
    (js "koeln", js "50.9375,6.9603");
    (js "frankfurt", js "50.1109,8.6821");
    (js "düsseldorf", js "51.2277,6.7735");
    (js "duesseldorf", js "51.2277,6.7735");
    (js "stuttgart", js "48.7758,9.1829");
    (js "dortmund", js "51.5136,7.4653");
    (js "essen", js "51.4556,7.0116");
    (js "leipzig", js "51.3397,12.3731");
    (js "dresden", js "51.0504,13.7373");
    (js "hannover", js "52.3759,9.7320");
    (js "nürnberg", js "49.4521,11.0767");
    (js "nuernberg", js "49.4521,11.0767");
    (js "bremen", js "53.0793,8.8017") ].

(** The longest prefix of digits and what follows it. *)
Fixpoint span_digits (s : jsstring) : jsstring * jsstring :=
  match s with
  | c :: r => if is_digit c then let '(d, t) := span_digits r in (c :: d, t) else ([], s)
  | [] => ([], [])
  end.

(** [\d+] followed by the code unit [sep]: what is left after them. *)
Definition digits_then (sep : N) (s : jsstring) : option jsstring :=
  match span_digits s with
  | (_ :: _, c :: r) => if c =? sep then Some r else None
  | _ => None
  end.

(** [/^\d+\.\d+,\d+\.\d+$/.test(s)] *)
Definition is_coordinates (s : jsstring) : bool :=
  match mbind (digits_then 46) (mbind (digits_then 44) (digits_then 46 s)) with
  | Some rest =>
      match span_digits rest with
      | (_ :: _, []) => true
      | _ => false
      end
  | None => false
  end.

Definition resolveLocation (input : jsstring) : outcome value :=
  let normalized := trim (toLowerCase input) in
  (* Bereits Koordinaten? *)
  if is_coordinates input then Ok (Str input)
  (* Stadt-Lookup *)
  else
    match as_truthy (get CITY_COORDS normalized) with
    | Some v => Ok v
    | None => Throw (js "Unbekannte Stadt: " ++ input ++ js ". Bitte Koordinaten angeben.")
    end.

Definition formatDuration (seconds : Z) : jsstring :=
  let hours := (seconds / 3600)%Z in
  let minutes := (Z.rem seconds 3600 / 60)%Z in
  if (0 <? hours)%Z then Z_to_js hours ++ js "h " ++ Z_to_js minutes ++ js "min"
  else Z_to_js minutes ++ js "min".

Record Station : Type := {
  von : jsstring;
  nach : jsstring;
  modus : jsstring;
  st_abfahrt : jsstring;
  st_ankunft : jsstring;
}.

Record Verbindung : Type := {
  abfahrt : jsstring;
  ankunft : jsstring;
  dauer : jsstring;
  umstiege : Z;
  verkehrsmittel : list jsstring;
  stationen : list Station;
}.

Inductive Body : Type :=
  | ErrorBody (error : jsstring)
  | ConnectionsBody (von nach datum : jsstring) (anzahl : Z)
                    (verbindungen : list Verbindung).

(** [[...new Set(l)]]: the first occurrence of each element, in order. *)
Definition spread_set (l : list jsstring) : list jsstring :=
  fold_left (fun acc x => if existsb (str_eqb x) acc then acc else acc ++ [x]) l [].

Record params : Type := {
  p_from : option jsstring;
  p_to : option jsstring;
  p_date : option jsstring;
  p_time : option jsstring;
}.

Section Handler.

(** [new Date(iso).toLocaleTimeString('de-DE', ...)] *)
Variable formatTime : jsstring -> jsstring.

(** [new Date().toISOString().split('T')[0]] when the request arrives. *)
Variable today : jsstring.

(** The planner's answer to a request URL. *)
Variable network : jsstring -> fetched MotisData.

Definition transform (it : MotisItinerary) : Verbindung :=
  {| abfahrt := formatTime (it_startTime it);
     ankunft := formatTime (it_endTime it);
     dauer := formatDuration (it_duration it);
     umstiege := it_transfers it;
     verkehrsmittel :=
       spread_set
         (List.map leg_mode
            (List.filter (fun l => negb (str_eqb (leg_mode l) (js "WALK"))) (it_legs it)));
     stationen :=
       List.map (fun l =>
         {| von := place_name (leg_from l);
            nach := place_name (leg_to l);
            modus := leg_mode l;
            st_abfahrt := formatTime (place_time (leg_from l));
            st_ankunft := formatTime (place_time (leg_to l)) |}) (it_legs it) |}.

(** The [catch] block: every exception of the [try] block ends here. *)
Definition on_error (message : jsstring) : Response Body :=
  {| status := 500; headers := json_headers; body := ErrorBody message |}.

Definition GET (p : params) : Response Body * list event :=
  let date := or_default (p_date p) today in
  let time := or_default (p_time p) (js "10:00") in
  match p_from p, p_to p with
  | Some (f :: fr), Some (t :: tr) =>
      let from := f :: fr in
      let to := t :: tr in
      match resolveLocation from with
      | Throw m => (on_error m, [])
      | Ok fromCoords =>
          match resolveLocation to with
          | Throw m => (on_error m, [])
          | Ok toCoords =>
              let dateTime := date ++ js "T" ++ time ++ js ":00Z" in
              let motisUrl :=
                MOTIS_BASE_URL ++ js "/plan?fromPlace=" ++ to_string fromCoords
                  ++ js "&toPlace=" ++ to_string toCoords
                  ++ js "&time=" ++ dateTime ++ js "&arriveBy=false" in
              match network motisUrl with
              | Rejected m => (on_error m, [Fetch motisUrl])
              | Replied ok st _ json =>
                  if negb ok then
                    (on_error (js "MOTIS API Fehler: " ++ Z_to_js st), [Fetch motisUrl])
                  else
                    match json with
                    | Throw m => (on_error m, [Fetch motisUrl])
                    | Ok data =>
                        let connections :=
                          match itineraries data with
                          | Some its => List.map transform (firstn 5 its)
                          | None => []
                          end in
                        ({| status := 200; headers := json_headers;
                            body := ConnectionsBody from to date
                                      (Z.of_nat (length connections)) connections |},
                         [Fetch motisUrl])
                    end
              end
          end
      end
  | _, _ =>
      ({| status := 400; headers := json_headers;
          body := ErrorBody (js "Parameter " ++ quoted (js "from") ++ js " und "
                             ++ quoted (js "to") ++ js " sind erforderlich") |}, [])
  end.

End Handler.

End Connections.

(** ** [src/pages/api/flights/search.ts] *)

Module FlightSearch.

(** [import.meta.env] *)
Record Env : Type := {
  AMADEUS_CLIENT_ID : option jsstring;
  AMADEUS_CLIENT_SECRET : option jsstring;
}.

Definition isAmadeusConfigured (env : Env) : bool :=
  negb (missing (AMADEUS_CLIENT_ID env)) && negb (missing (AMADEUS_CLIENT_SECRET env)).

Record Endpoint : Type := {
  ep_time : jsstring;
  ep_airport : value;
}.

Record MockFlight : Type := {
  mf_id : jsstring;
  mf_price : Z;
  mf_currency : jsstring;
  mf_departure : Endpoint;
  mf_arrival : Endpoint;
  mf_duration : jsstring;
  mf_durationMinutes : Z;
  mf_stops : Z;
  mf_airline : jsstring;
  mf_airlineCode : jsstring;
  mf_flightNumber : jsstring;
  mf_stopover : option jsstring;
}.

Record MockData : Type := {
  md_flights : list MockFlight;
  md_mock : bool;
  md_message : jsstring;
}.

(** [random150] is [Math.floor(Math.random() * 150)] of this call. *)
Definition getMockFlights (random150 : Z) (from to : value) (date : jsstring) : MockData :=
  let basePrice := (random150 + 50)%Z in
  {| md_flights :=
       [ {| mf_id := js "mock-1";
            mf_price := basePrice;
            mf_currency := js "EUR";
            mf_departure := {| ep_time := date ++ js "T08:30:00"; ep_airport := from |};
            mf_arrival := {| ep_time := date ++ js "T10:15:00"; ep_airport := to |};
            mf_duration := js "1h 45m";
            mf_durationMinutes := 105;
            mf_stops := 0;
            mf_airline := js "Lufthansa";
            mf_airlineCode := js "LH";
            mf_flightNumber := js "LH 123";
            mf_stopover := None |};
         {| mf_id := js "mock-2";
            mf_price := (basePrice - 20)%Z;
            mf_currency := js "EUR";
            mf_departure := {| ep_time := date ++ js "T12:00:00"; ep_airport := from |};
            mf_arrival := {| ep_time := date ++ js "T14:30:00"; ep_airport := to |};
            mf_duration := js "2h 30m";
            mf_durationMinutes := 150;
            mf_stops := 1;
            mf_airline := js "Eurowings";
            mf_airlineCode := js "EW";
            mf_flightNumber := js "EW 456";
            mf_stopover := Some (js "DUS") |};
         {| mf_id := js "mock-3";
            mf_price := (basePrice + 30)%Z;
            mf_currency := js "EUR";
            mf_departure := {| ep_time := date ++ js "T18:45:00"; ep_airport := from |};
            mf_arrival := {| ep_time := date ++ js "T20:20:00"; ep_airport := to |};
            mf_duration := js "1h 35m";
            mf_durationMinutes := 95;
            mf_stops := 0;
            mf_airline := js "Lufthansa";
            mf_airlineCode := js "LH";
            mf_flightNumber := js "LH 789";
            mf_stopover := None |} ];
     md_mock := true;
     md_message := js "Amadeus API not configured. Showing example data." |}.

(** The argument of [searchFlights]. *)
Record SearchOptions : Type := {
  so_origin : value;
  so_destination : value;
  so_departureDate : jsstring;
  so_returnDate : option jsstring;
  so_adults : option Z;
  so_travelClass : jsstring;
  so_maxResults : Z;
}.

(** A call of the flight provider's client. *)
Inductive event : Type :=
  | SearchFlights (options : SearchOptions).

Record params : Type := {
  p_from : option jsstring;
  p_to : option jsstring;
  p_date : option jsstring;
  p_return : option jsstring;
  p_adults : option jsstring;
  p_class : option jsstring;
}.

Section Handler.

(** The provider's offers and the handler's view of them; the handler only
    moves them through [transformFlightOffer]. *)
Variables FlightOffer Carriers Flight : Type.

Record FlightSearchResponse : Type := {
  data : list FlightOffer;
  carriers : option Carriers;      (* [dictionaries?.carriers] *)
}.

Variable transformFlightOffer : FlightOffer -> option Carriers -> outcome Flight.

(** [searchFlights] of [amadeus-flights.ts], the provider behind it included. *)
Variable searchFlights : SearchOptions -> outcome FlightSearchResponse.

Variable env : Env.

Variable random150 : Z.

Inductive Body : Type :=
  | ErrorBody (error : jsstring)
  | MockBody (mockData : MockData)
  | LiveBody (flights : list Flight) (origin destination : value).

Definition bad_request (message : jsstring) : Response Body :=
  {| status := 400; headers := json_headers; body := ErrorBody message |}.

(** [response.data.map(offer => transformFlightOffer(...))], which stops at
    the first exception. *)
Fixpoint map_offers (c : option Carriers) (l : list FlightOffer) : outcome (list Flight) :=
  match l with
  | [] => Ok []
  | o :: r =>
      match transformFlightOffer o c with
      | Throw m => Throw m
      | Ok f =>
          match map_offers c r with
          | Throw m => Throw m
          | Ok fs => Ok (f :: fs)
          end
      end
  end.

(** The [catch] block. *)
Definition on_error (originCode destCode : value) (date message : jsstring) : Response Body :=
  if includes message (js "credentials") then
    {| status := 200; headers := json_headers;
       body := MockBody (getMockFlights random150 originCode destCode date) |}
  else
    {| status := 500; headers := json_headers;
       body := ErrorBody (js "Failed to search flights") |}.

Definition GET (p : params) : Response Body * list event :=
  let adults := parseInt (or_default (p_adults p) (js "1")) in
  let travelClass := or_default (p_class p) (js "ECONOMY") in
  match p_from p, p_to p, p_date p with
  | Some (f :: fr), Some (t :: tr), Some (d :: dr) =>
      let from := f :: fr in
      let to := t :: tr in
      let date := d :: dr in
      (* Convert city names to IATA codes *)
      let originCode := getAirportCode from in
      let destCode := getAirportCode to in
      match as_truthy originCode, as_truthy destCode with
      | None, _ =>
          (bad_request (js "Unknown origin airport: " ++ from
                          ++ js ". Use IATA code (e.g., FRA, MUC)."), [])
      | Some _, None =>
          (bad_request (js "Unknown destination airport: " ++ to
                          ++ js ". Use IATA code (e.g., FRA, MUC)."), [])
      | Some o, Some dst =>
          (* Return mock data if Amadeus is not configured *)
          if negb (isAmadeusConfigured env) then
            ({| status := 200; headers := json_headers;
                body := MockBody (getMockFlights random150 o dst date) |}, [])
          else
            let options :=
              {| so_origin := o; so_destination := dst; so_departureDate := date;
                 so_returnDate :=
                   if missing (p_return p) then None else p_return p;
                 so_adults := adults; so_travelClass := travelClass;
                 so_maxResults := 10 |} in
            match searchFlights options with
            | Throw m => (on_error o dst date m, [SearchFlights options])
            | Ok response =>
                match map_offers (carriers response) (data response) with
                | Throw m => (on_error o dst date m, [SearchFlights options])
                | Ok flights =>
                    ({| status := 200;
                        headers := json_headers
                                   ++ [ (js "Cache-Control", js "public, max-age=300") ];
                        body := LiveBody flights o dst |},
                     [SearchFlights options])
                end
            end
      end
  | _, _, _ =>
      (bad_request (js "Parameters " ++ quoted (js "from") ++ js ", " ++ quoted (js "to")
                      ++ js ", and " ++ quoted (js "date") ++ js " are required"), [])
  end.

End Handler.

Arguments ErrorBody {Flight} error.
Arguments MockBody {Flight} mockData.
Arguments LiveBody {Flight} flights origin destination.
Arguments GET {FlightOffer Carriers Flight} transformFlightOffer searchFlights env random150 p.

End FlightSearch.

(** ** [src/pages/api/transport/departures.ts] *)

Module Departures.

Record DepartureOut : Type := {
  time : option jsstring;
  plannedTime : jsstring;
  delay : jsstring;
  delayMinutes : Z;
  line : option jsstring;
  product : option jsstring;
  productIcon : value;
  direction : jsstring;
  platform : option jsstring;
  plannedPlatform : option jsstring;
  platformChanged : bool;
  cancelled : bool;
  remarks : option (list (option jsstring));
}.

Inductive Body : Type :=
  | ErrorBody (error : jsstring)
  | DeparturesBody (station_id station_name : jsstring)
                   (departures : list DepartureOut) (updatedAt : option Z).

(** The calls of the rail client that the handler makes. *)
Inductive event : Type :=
  | SearchLocations (query : jsstring) (results : Z)
  | GetDepartures (stopId : jsstring) (duration results : option Z).

(** [/^\d{7,8}$/.test(s)] *)
Definition is_station_id (s : jsstring) : bool :=
  forallb is_digit s && ((length s =? 7)%nat || (length s =? 8)%nat).

(** [a || b] for strings that may be missing. *)
Definition or_else (a b : option jsstring) : option jsstring :=
  if missing a then b else a.

Definition transform (dep : Departure) : DepartureOut :=
  {| time := dep_when dep;
     plannedTime := dep_plannedWhen dep;
     delay := formatDelay (dep_delay dep);
     delayMinutes :=
       match dep_delay dep with
       | Num n => if (n =? 0)%Z then 0%Z else round_div n 60
       | _ => 0%Z
       end;
     line := line_name <$> dep_line dep;
     product := line_product <$> dep_line dep;
     productIcon := getProductIcon (or_default (line_product <$> dep_line dep) []);
     direction := dep_direction dep;
     platform := dep_platform dep;
     plannedPlatform := dep_plannedPlatform dep;
     platformChanged :=
       negb (bool_decide (dep_platform dep = dep_plannedPlatform dep))
       && negb (bool_decide (dep_plannedPlatform dep = None));
     cancelled := bool_decide (dep_when dep = None);
     remarks :=
       (fun rs =>
          List.map (fun r => or_else (remark_summary r) (remark_text r))
            (List.filter (fun r => str_eqb (remark_type r) (js "warning")
                                   || str_eqb (remark_type r) (js "status")) rs))
       <$> dep_remarks dep |}.

Record params : Type := {
  p_station : option jsstring;
  p_duration : option jsstring;
  p_results : option jsstring;
}.

Section Handler.

(** [searchLocations] and [getDepartures] of [db-transport.ts], cache and
    provider included. *)
Variable searchLocations : jsstring -> Z -> outcome (list Stop).
Variable getDepartures : jsstring -> option Z -> option Z -> outcome DeparturesResponse.

(** The [catch] block. *)
Definition on_error : Response Body :=
  {| status := 500; headers := json_headers;
     body := ErrorBody (js "Failed to fetch departures") |}.

(** The handler from the call of [getDepartures] on. *)
Definition fetch_departures (stationId stationName : jsstring) (duration results : option Z)
                            (trace : list event) : Response Body * list event :=
  let d := Math_min duration 720 in
  let r := Math_min results 50 in
  match getDepartures stationId d r with
  | Throw _ => (on_error, trace ++ [GetDepartures stationId d r])
  | Ok response =>
      ({| status := 200;
          headers := json_headers ++ [ (js "Cache-Control", js "public, max-age=30") ];
          body := DeparturesBody stationId stationName
                    (List.map transform (departures response))
                    (realtimeDataUpdatedAt response) |},
       trace ++ [GetDepartures stationId d r])
  end.

Definition GET (p : params) : Response Body * list event :=
  let duration := parseInt (or_default (p_duration p) (js "60")) in
  let results := parseInt (or_default (p_results p) (js "20")) in
  match p_station p with
  | Some (c :: cs) =>
      let station := c :: cs in
      (* If station is not an ID, search for it first *)
      if negb (is_station_id station) then
        match searchLocations station 1 with
        | Throw _ => (on_error, [SearchLocations station 1])
        | Ok [] =>
            ({| status := 404; headers := json_headers;
                body := ErrorBody (js "Station not found: " ++ station) |},
             [SearchLocations station 1])
        | Ok (top :: _) =>
            fetch_departures (stop_id top) (stop_name top) duration results
                             [SearchLocations station 1]
        end
      else fetch_departures station station duration results []
  | _ =>
      ({| status := 400; headers := json_headers;
          body := ErrorBody (js "Parameter " ++ quoted (js "station") ++ js " is required") |},
       [])
  end.

End Handler.

End Departures.

(** ** Vocabulary of the specification and sample data *)

Module Spec.

(** The number of legs whose walking flag is not set. *)
Fixpoint transport_legs (l : list Leg) : nat :=
  match l with
  | [] => 0%nat
  | leg :: r =>
      match walking leg with
      | Some true => transport_legs r
      | _ => S (transport_legs r)
      end
  end.

(** [m] is [x / d] rounded to the nearest integer, a tie going up. *)
Definition nearest (m x d : Z) : Prop := (d * (2 * m - 1) <= 2 * x < d * (2 * m + 1))%Z.

(** White space only, as [trim] strips it. *)
Definition all_space (ws : jsstring) : Prop := forallb is_space ws = true.

(** No white space at all. *)
Definition no_space (s : jsstring) : bool := forallb (fun c => negb (is_space c)) s.


Definition upper_unit (c : N) : jsstring :=
  if (97 <=? c) && (c <=? 122) then [c - 32]
  else if (224 <=? c) && (c <=? 254) && negb (c =? 247) then [c - 32]
  else if c =? 223 then [83; 83]          (* ß -> SS *)
  else if c =? 255 then [376]             (* ÿ -> Ÿ *)
  else if c =? 181 then [924]             (* µ -> Μ *)
  else [c].

(** No range of the table meets the interval from [a] to [b]. *)
Definition misses (a b : N) (table : list (N * N)) : bool :=
  forallb (fun r => (r.2 <? a) || (b <? r.1)) table.

(** Code units below U+0100 and white space only. *)
Definition latin (s : jsstring) : bool := forallb (fun c => (c <? 256) || is_space c) s.



(** Lower-case letters whose capital is one code unit that [toLowerCase]
    maps back: [a-z] and the Latin-1 letters but [ß] and [ÿ]. *)
Definition plain_lower (c : N) : bool :=
  ((97 <=? c) && (c <=? 122)) || ((224 <=? c) && (c <=? 254) && negb (c =? 247)).


(** What the partial-match loop of [getAirportCode] finds for a lower-case
    text. *)
Definition airport_result (normalized : jsstring) : option value :=
  match List.find (partial_match normalized) GERMAN_AIRPORTS with
  | Some (_, code) => Some (Str code)
  | None => None
  end.

(** Facts about a lower-case name [ln] that a computation settles, under
    which [getAirportCode] sees through case and surrounding white space: [ln]
    is a text of more than three plain letters; no inherited property name
    contains it; a table name that contains it is contained in it; and all
    table names that match it lead to one code. *)
Definition airport_name_ok (ln : jsstring) : bool :=
  no_space ln && (3 <? length ln)%nat && forallb plain_lower ln
  && forallb (fun k => negb (includes (toLowerCase k) ln)) Object_prototype_keys
  && forallb (fun e => implb (includes (toLowerCase e.1) ln)
                             (includes ln (toLowerCase e.1))) GERMAN_AIRPORTS
  && forallb (fun e => implb (partial_match ln e)
                             (bool_decide (Some (Str e.2) = airport_result ln)))
             GERMAN_AIRPORTS.


(** [a-z] and [A-Z]. *)
Definition is_letter (c : N) : bool :=
  ((97 <=? c) && (c <=? 122)) || ((65 <=? c) && (c <=? 90)).

(** The resolution order of the airport lookup in the words of the
    specification: an exact match against the table; else a case-insensitive
    substring match in either direction; else a 3-letter alphabetic token,
    upper-cased; else absent. *)
Definition resolveAirportCode (cityOrCode : jsstring) : option jsstring :=
  match own GERMAN_AIRPORTS cityOrCode with
  | Some code => Some code
  | None =>
      let input := toLowerCase cityOrCode in
      match List.find (fun entry => includes (toLowerCase entry.1) input
                                    || includes input (toLowerCase entry.1))
                      GERMAN_AIRPORTS with
      | Some entry => Some entry.2
      | None =>
          if (length cityOrCode =? 3)%nat && forallb is_letter cityOrCode
          then Some (toUpperCase cityOrCode)
          else None
      end
  end.

(** The value is a string of exactly three letters [A-Z]. *)
Definition is_iata_value (v : value) : bool :=
  match v with
  | Str s => is_iata s
  | Inherited _ => false
  end.

(** Every code unit is ASCII. *)
Definition ascii_only (s : jsstring) : Prop := Forall (fun c => c < 128) s.

(** [CITY_COORDS[normalized]] is [undefined] for [input], and [input] is no
    coordinate pair: the city lookup of [/api/connections] cannot resolve it. *)
Definition unknown_city (input : jsstring) : Prop :=
  Connections.is_coordinates input = false
  /\ get Connections.CITY_COORDS (trim (toLowerCase input)) = None.

(** The message of the exception that [resolveLocation] throws. *)
Definition unknown_city_message (input : jsstring) : jsstring :=
  js "Unbekannte Stadt: " ++ input ++ js ". Bitte Koordinaten angeben.".

(** A planner that answers every request with an empty list of itineraries. *)
Definition empty_plan (url : jsstring) : fetched Connections.MotisData :=
  Replied true 200 (js "OK") (Ok {| Connections.itineraries := Some [] |}).

(** The cache holds no valid entry for [url] when the call reads the clock:
    no entry, or one whose expiry has been reached. *)
Definition stale {T : Type} (url : jsstring) (w : world T)
                 (cache : gmap jsstring (T * Z)) : Prop :=
  match cache !! url with
  | Some (_, expires) => (expires <= now_read w)%Z
  | None => True
  end.

(** A world in which the provider answers [200 OK] with [data]. *)
Definition answering {T : Type} (t : Z) (data : T) : world T :=
  {| now_read := t; reply := Replied true 200 (js "OK") (Ok data); now_write := t |}.

Definition sample_stop : Stop := {| stop_id := js "8011160"; stop_name := js "Berlin Hbf" |}.

Definition sample_leg (dep arr : jsstring) (w : option bool) : Leg :=
  {| origin := sample_stop; destination := sample_stop;
     departure := dep; plannedDeparture := dep; departureDelay := Null;
     arrival := arr; plannedArrival := arr; arrivalDelay := Null;
     line := None; walking := w |}.

(** A departure that left platform 5 for platform 7. *)
Definition sample_departure : Departure :=
  {| dep_tripId := js "1|234|0|80|1032026";
     dep_direction := js "München Hbf";
     dep_line := None;
     dep_when := Some (js "2026-03-01T10:05:00+01:00");
     dep_plannedWhen := js "2026-03-01T10:00:00+01:00";
     dep_delay := Num 300;
     dep_platform := Some (js "7");
     dep_plannedPlatform := Some (js "5");
     dep_remarks := None |}.

Definition walk : Leg := sample_leg (js "t0") (js "t1") (Some true).
Definition train : Leg := sample_leg (js "t1") (js "t2") None.

End Spec.

(** ** [src/lib/amadeus-flights.ts]: token, requests, durations *)

Module Amadeus.

Import FlightSearch.

Definition AMADEUS_API_BASE : jsstring := js "https://test.api.amadeus.com".

(** *** Auth *)

(** The token cache of the module: [accessToken] and [tokenExpiry], where
    [None] is [null] for the token and [NaN] for the expiry. *)
Record TokenState : Type := {
  accessToken : option jsstring;
  tokenExpiry : option Z;
}.

(** The state when the module is loaded. *)
Definition no_token : TokenState := {| accessToken := None; tokenExpiry := Some 0%Z |}.

(** The parsed body of the token endpoint's answer; a field that is missing
    is [None]. *)
Record TokenData : Type := {
  access_token : option jsstring;
  expires_in : option Z;
}.

(** The requests of the flight client. *)
Inductive event : Type :=
  | TokenRequest (client_id client_secret : jsstring)
  | ApiRequest (url authorization : jsstring).

(** What one call of [getAccessToken] meets: the clock when the cached token
    is checked, the token endpoint's answer should it be asked, and the clock
    when the new token is stored. *)
Record auth_world : Type := {
  auth_now : Z;
  auth_reply : fetched TokenData;
  auth_now_stored : Z;
}.

Definition credentials_message : jsstring :=
  js "Amadeus API credentials not configured. Set AMADEUS_CLIENT_ID and AMADEUS_CLIENT_SECRET.".

Definition getAccessToken (env : Env) (w : auth_world) (st : TokenState)
  : outcome (option jsstring) * TokenState * list event :=
  match AMADEUS_CLIENT_ID env, AMADEUS_CLIENT_SECRET env with
  | Some (c :: cs), Some (x :: xs) =>
      let clientId := c :: cs in
      let clientSecret := x :: xs in
      (* Return cached token if valid *)
      if negb (missing (accessToken st))
         && match tokenExpiry st with
            | Some expiry => (auth_now w <? expiry - 60000)%Z
            | None => false
            end
      then (Ok (accessToken st), st, [])
      else
        match auth_reply w with
        | Rejected m => (Throw m, st, [TokenRequest clientId clientSecret])
        | Replied ok status _ json =>
            if negb ok then
              (Throw (js "Amadeus auth failed: " ++ Z_to_js status), st,
               [TokenRequest clientId clientSecret])
            else
              match json with
              | Throw m => (Throw m, st, [TokenRequest clientId clientSecret])
              | Ok data =>
                  (Ok (access_token data),
                   {| accessToken := access_token data;
                      tokenExpiry :=
                        (fun seconds => auth_now_stored w + seconds * 1000)%Z
                          <$> expires_in data |},
                   [TokenRequest clientId clientSecret])
              end
        end
  | _, _ => (Throw credentials_message, st, [])
  end.

(** What the API answers to one request: the promise rejects, the response is
    [ok] with a body that parses or not, or it is not [ok], with the
    [error_description] of its body when the body is an object that has
    one. *)
Inductive api_reply (T : Type) : Type :=
  | ApiRejected (message : jsstring)
  | ApiOk (json : outcome T)
  | ApiError (status : Z) (error_description : option jsstring).
Arguments ApiRejected {T} message.
Arguments ApiOk {T} json.
Arguments ApiError {T} status error_description.

Section Request.

Context {T : Type}.

Definition amadeusRequest (env : Env) (aw : auth_world) (reply : api_reply T)
                          (st : TokenState) (endpoint : jsstring)
  : outcome T * TokenState * list event :=
  match getAccessToken env aw st with
  | (Throw m, st', trace) => (Throw m, st', trace)
  | (Ok token, st', trace) =>
      let request :=
        ApiRequest (AMADEUS_API_BASE ++ endpoint)
                   (js "Bearer " ++ default (js "undefined") token) in
      match reply with
      | ApiRejected m => (Throw m, st', trace ++ [request])
      | ApiError status description =>
          (Throw (or_default description (js "Amadeus API error: " ++ Z_to_js status)),
           st', trace ++ [request])
      | ApiOk (Throw m) => (Throw m, st', trace ++ [request])
      | ApiOk (Ok data) => (Ok data, st', trace ++ [request])
      end
  end.

End Request.

(** *** API functions *)

(** The options of [searchFlights]; an option that is not given is [None]. *)
Record FlightQuery : Type := {
  q_origin : value;
  q_destination : value;
  q_departureDate : jsstring;
  q_returnDate : option jsstring;
  q_adults : option Z;
  q_children : option Z;
  q_travelClass : option jsstring;
  q_nonStop : option bool;
  q_maxResults : option Z;
}.

(** [n || d] for a number that may be [NaN] or missing. *)
Definition number_or (n : option Z) (d : Z) : Z :=
  match n with
  | Some 0%Z | None => d
  | Some x => x
  end.

(** [params.set(key, value)] on the list of pairs of a [URLSearchParams]. *)
Fixpoint params_set (key value : jsstring) (params : list (jsstring * jsstring))
  : list (jsstring * jsstring) :=
  match params with
  | [] => [(key, value)]
  | (k, v) :: rest =>
      if str_eqb k key then (k, value) :: List.filter (fun kv => negb (str_eqb kv.1 key)) rest
      else (k, v) :: params_set key value rest
  end.

(** The query parameters that [searchFlights] builds. *)
Definition flight_params (options : FlightQuery) : list (jsstring * jsstring) :=
  let params :=
    [ (js "originLocationCode", to_string (q_origin options));
      (js "destinationLocationCode", to_string (q_destination options));
      (js "departureDate", q_departureDate options);
      (js "adults", Z_to_js (number_or (q_adults options) 1));
      (js "max", Z_to_js (number_or (q_maxResults options) 10)) ] in
  let params :=
    if missing (q_returnDate options) then params
    else params_set (js "returnDate") (default [] (q_returnDate options)) params in
  let params :=
    match q_children options with
    | Some 0%Z | None => params
    | Some n => params_set (js "children") (Z_to_js n) params
    end in
  let params :=
    if missing (q_travelClass options) then params
    else params_set (js "travelClass") (default [] (q_travelClass options)) params in
  match q_nonStop options with
  | Some true => params_set (js "nonStop") (js "true") params
  | _ => params
  end.

(** The options that the handler of [/api/flights/search] passes. *)
Definition query_of (o : SearchOptions) : FlightQuery :=
  {| q_origin := so_origin o; q_destination := so_destination o;
     q_departureDate := so_departureDate o; q_returnDate := so_returnDate o;
     q_adults := so_adults o; q_children := None;
     q_travelClass := Some (so_travelClass o); q_nonStop := None;
     q_maxResults := Some (so_maxResults o) |}.

Section Api.

Context {T : Type}.

(** [URLSearchParams.prototype.toString]. *)
Variable params_toString : list (jsstring * jsstring) -> jsstring.

Definition searchFlights (env : Env) (aw : auth_world) (reply : api_reply T)
                         (st : TokenState) (options : FlightQuery)
  : outcome T * TokenState * list event :=
  amadeusRequest env aw reply st
    (js "/v2/shopping/flight-offers?" ++ params_toString (flight_params options)).

End Api.

End Amadeus.

(** ** [src/lib/amadeus-flights.ts]: helper functions;
       [src/pages/api/flights/search.ts]: [transformFlightOffer] *)

Module Offers.

Import Connections FlightSearch.

(** Numbers that may be [NaN] ([None]). *)
Definition num_add (a b : option Z) : option Z :=
  match a, b with
  | Some x, Some y => Some (x + y)%Z
  | _, _ => None
  end.

Definition num_mul (a b : option Z) : option Z :=
  match a, b with
  | Some x, Some y => Some (x * y)%Z
  | _, _ => None
  end.

(** [String(n)] *)
Definition num_to_js (n : option Z) : jsstring :=
  match n with
  | Some x => Z_to_js x
  | None => js "NaN"
  end.

(** *** [/PT(?:(\d+)H)?(?:(\d+)M)?/]

    The expression is not anchored: it matches at the leftmost ["PT"] of the
    text, and there always, since both groups are optional. A group
    takes part when the longest run of digits at its place is not empty and
    is followed by its letter. *)

(** The text after the leftmost ["PT"]. *)
Fixpoint after_PT (s : jsstring) : option jsstring :=
  match s with
  | 80 :: 84 :: r => Some r
  | _ :: t => after_PT t
  | [] => None
  end.

(** [(\d+)] followed by the code unit [letter]: the digits and what follows
    the letter. *)
Definition digits_before (letter : N) (s : jsstring) : option (jsstring * jsstring) :=
  match span_digits s with
  | (d :: ds, c :: r) => if c =? letter then Some (d :: ds, r) else None
  | _ => None
  end.

(** [duration.match(...)]: the two groups, or [None] for [null]. *)
Definition match_duration (duration : jsstring)
  : option (option jsstring * option jsstring) :=
  match after_PT duration with
  | None => None
  | Some t =>
      let '(hours, t') :=
        match digits_before 72 t with
        | Some (h, r) => (Some h, r)
        | None => (None, t)
        end in
      Some (hours, fst <$> digits_before 77 t')
  end.

(** [parts.filter(Boolean).join(' ')] *)
Definition join_space (parts : list jsstring) : jsstring :=
  match List.filter (fun s => negb (str_eqb s [])) parts with
  | [] => []
  | first :: rest => first ++ List.concat (List.map (fun s => js " " ++ s) rest)
  end.

Definition parseDuration (duration : jsstring) : jsstring :=
  match match_duration duration with
  | None => duration
  | Some (h, m) =>
      let hours := match h with Some d => d ++ js "h" | None => [] end in
      let minutes := match m with Some d => d ++ js "m" | None => [] end in
      join_space [hours; minutes]
  end.

Definition getDurationMinutes (duration : jsstring) : option Z :=
  match match_duration duration with
  | None => Some 0%Z
  | Some (h, m) =>
      let hours := parseInt (default (js "0") h) in
      let minutes := parseInt (default (js "0") m) in
      num_add (num_mul hours (Some 60%Z)) minutes
  end.

(** *** Offers *)

Record SegmentEnd : Type := {
  iataCode : jsstring;
  terminal : option jsstring;
  at_ : jsstring;
}.

Record Segment : Type := {
  seg_departure : SegmentEnd;
  seg_arrival : SegmentEnd;
  carrierCode : jsstring;
  number : jsstring;
  seg_duration : jsstring;
}.

Record Itinerary : Type := {
  it_duration : jsstring;
  segments : list Segment;
}.

Record FlightOffer : Type := {
  offer_id : jsstring;
  price_grandTotal : jsstring;
  price_currency : jsstring;
  itineraries : list Itinerary;
}.

Definition getStops (itinerary : Itinerary) : Z :=
  Z.of_nat (length (segments itinerary)) - 1.

(** [carriers?.[code] || code] *)
Definition getAirlineName (code : jsstring) (carriers : option (list (jsstring * jsstring)))
  : value :=
  match carriers with
  | Some table =>
      match as_truthy (get table code) with
      | Some v => v
      | None => Str code
      end
  | None => Str code
  end.

(** *** [/PT(\d+)H?(\d+)?M?/]

    Not anchored either: it matches at the leftmost ["PT"] that a digit
    follows. The first group takes the longest run of digits; an ['H'], a
    second run of digits and an ['M'] are taken where they follow. *)

(** ["PT"] and a run of digits at the start of [s]: the digits and the
    rest. *)
Definition PT_digits (s : jsstring) : option (jsstring * jsstring) :=
  match s with
  | 80 :: 84 :: r =>
      match span_digits r with
      | (d :: ds, rest) => Some (d :: ds, rest)
      | _ => None
      end
  | _ => None
  end.

(** The text before the leftmost match, the first group and the rest. *)
Fixpoint find_PT_digits (s : jsstring) : option (jsstring * jsstring * jsstring) :=
  match PT_digits s with
  | Some (h, rest) => Some ([], h, rest)
  | None =>
      match s with
      | [] => None
      | c :: t =>
          match find_PT_digits t with
          | Some (before, h, rest) => Some (c :: before, h, rest)
          | None => None
          end
      end
  end.

(** One optional code unit. *)
Definition skip (letter : N) (s : jsstring) : jsstring :=
  match s with
  | c :: r => if c =? letter then r else s
  | [] => []
  end.

(** [duration.replace(/PT(\d+)H?(\d+)?M?/, (_, h, m) =>
      String(parseInt(h || '0') * 60 + parseInt(m || '0')))] *)
Definition replace_duration (duration : jsstring) : jsstring :=
  match find_PT_digits duration with
  | None => duration
  | Some (before, h, rest) =>
      let '(m, rest') := span_digits (skip 72 rest) in
      before
        ++ num_to_js (num_add (num_mul (parseInt (or_default (Some h) (js "0"))) (Some 60%Z))
                              (parseInt (or_default (Some m) (js "0"))))
        ++ skip 77 rest'
  end.

(** The summand of one segment in [durationMinutes]. *)
Definition segment_minutes (seg : Segment) : option Z :=
  parseInt (replace_duration (seg_duration seg)).

Record EndOut : Type := {
  eo_time : jsstring;
  eo_airport : jsstring;
  eo_terminal : option jsstring;
}.

Record SegmentOut : Type := {
  so_departure : SegmentEnd;
  so_arrival : SegmentEnd;
  so_airline : value;
  so_flightNumber : jsstring;
  so_duration : jsstring;
}.

Section Transform.

(** The type of [parseFloat]'s results and [parseFloat]. *)
Context {Price : Type}.
Variable parseFloat : jsstring -> Price.

Record Flight : Type := {
  f_id : jsstring;
  f_price : Price;
  f_currency : jsstring;
  f_departure : EndOut;
  f_arrival : EndOut;
  f_duration : jsstring;
  f_durationMinutes : option Z;
  f_stops : Z;
  f_airline : value;
  f_airlineCode : jsstring;
  f_flightNumber : jsstring;
  f_segments : list SegmentOut;
}.

(** Reading a property of [undefined] throws a [TypeError]; the text is
    that of V8. *)
Definition undefined_property (name : jsstring) : jsstring :=
  js "Cannot read properties of undefined (reading '" ++ name ++ js "')".

Definition transformFlightOffer (offer : FlightOffer)
                                (carriers : option (list (jsstring * jsstring)))
  : outcome Flight :=
  match itineraries offer with
  | [] => Throw (undefined_property (js "segments"))
  | outbound :: _ =>
      match segments outbound with
      | [] => Throw (undefined_property (js "departure"))
      | firstSegment :: _ =>
          let lastSegment := List.last (segments outbound) firstSegment in
          Ok {| f_id := offer_id offer;
                f_price := parseFloat (price_grandTotal offer);
                f_currency := price_currency offer;
                f_departure :=
                  {| eo_time := at_ (seg_departure firstSegment);
                     eo_airport := iataCode (seg_departure firstSegment);
                     eo_terminal := terminal (seg_departure firstSegment) |};
                f_arrival :=
                  {| eo_time := at_ (seg_arrival lastSegment);
                     eo_airport := iataCode (seg_arrival lastSegment);
                     eo_terminal := terminal (seg_arrival lastSegment) |};
                f_duration := parseDuration (it_duration outbound);
                f_durationMinutes :=
                  fold_left (fun sum seg => num_add sum (segment_minutes seg))
                            (segments outbound) (Some 0%Z);
                f_stops := getStops outbound;
                f_airline := getAirlineName (carrierCode firstSegment) carriers;
                f_airlineCode := carrierCode firstSegment;
                f_flightNumber := carrierCode firstSegment ++ js " " ++ number firstSegment;
                f_segments :=
                  List.map (fun seg =>
                    {| so_departure := seg_departure seg;
                       so_arrival := seg_arrival seg;
                       so_airline := getAirlineName (carrierCode seg) carriers;
                       so_flightNumber := carrierCode seg ++ js " " ++ number seg;
                       so_duration := parseDuration (seg_duration seg) |})
                    (segments outbound) |}
      end
  end.

End Transform.

End Offers.

(** ** The flight search over its client *)

Module FlightStack.

Import FlightSearch Amadeus Offers.

(** The test of [getAccessToken] that the cached token is still valid:
    [accessToken && Date.now() < tokenExpiry - 60000]. *)
Definition token_valid (st : TokenState) (now : Z) : bool :=
  negb (missing (accessToken st))
  && match tokenExpiry st with
     | Some expiry => (now <? expiry - 60000)%Z
     | None => false
     end.

Section Stack.

Context {Price : Type}.
Variable parseFloat : jsstring -> Price.
Variable params_toString : list (jsstring * jsstring) -> jsstring.

(** The handler of [/api/flights/search] as it is deployed: its
    [searchFlights] is the client's of [amadeus-flights.ts], run in the token
    state [st] against the answers of the token endpoint and of the API, and
    its offers go through [transformFlightOffer]. *)
Definition GET (env : Env) (random150 : Z) (aw : auth_world)
               (reply : api_reply (FlightSearchResponse FlightOffer
                                     (list (jsstring * jsstring))))
               (st : TokenState) (p : params)
  : Response (Body (Flight (Price := Price))) * list FlightSearch.event :=
  FlightSearch.GET (transformFlightOffer parseFloat)
    (fun o => (searchFlights params_toString env aw reply st (query_of o)).1.1)
    env random150 p.

End Stack.

End FlightStack.

(** ** [src/pages/api/flights/airports.ts] *)

Module Airports.

Import Flights FlightSearch.

(** An entry of the local search's results. *)
Record LocalAirport : Type := {
  la_name : jsstring;
  la_iataCode : jsstring;
  la_city : jsstring;
  la_country : jsstring;
}.

(** The condition of the loop over [Object.entries(GERMAN_AIRPORTS)]. *)
Definition german_match (normalized : jsstring) (entry : jsstring * jsstring) : bool :=
  includes (toLowerCase entry.1) normalized
  || includes (toLowerCase entry.2) normalized.

Definition german_airport (entry : jsstring * jsstring) : LocalAirport :=
  {| la_name := entry.1 ++ js " Airport";
     la_iataCode := entry.2;
     la_city := entry.1;
     la_country := js "Germany" |}.

Definition internationalAirports : list LocalAirport :=
  [ {| la_name := js "London Heathrow Airport"; la_iataCode := js "LHR";
       la_city := js "London"; la_country := js "United Kingdom" |};
    {| la_name := js "Paris Charles de Gaulle Airport"; la_iataCode := js "CDG";
       la_city := js "Paris"; la_country := js "France" |};
    {| la_name := js "Amsterdam Airport Schiphol"; la_iataCode := js "AMS";
       la_city := js "Amsterdam"; la_country := js "Netherlands" |};
    {| la_name := js "Madrid Barajas Airport"; la_iataCode := js "MAD";
       la_city := js "Madrid"; la_country := js "Spain" |};
    {| la_name := js "Barcelona El Prat Airport"; la_iataCode := js "BCN";
       la_city := js "Barcelona"; la_country := js "Spain" |};
    {| la_name := js "Rome Fiumicino Airport"; la_iataCode := js "FCO";
       la_city := js "Rome"; la_country := js "Italy" |};
    {| la_name := js "Vienna International Airport"; la_iataCode := js "VIE";
       la_city := js "Vienna"; la_country := js "Austria" |};
    {| la_name := js "Zurich Airport"; la_iataCode := js "ZRH";
       la_city := js "Zurich"; la_country := js "Switzerland" |} ].

(** The condition of the loop over [internationalAirports]. *)
Definition international_match (normalized : jsstring) (airport : LocalAirport) : bool :=
  includes (toLowerCase (la_name airport)) normalized
  || includes (toLowerCase (la_iataCode airport)) normalized
  || includes (toLowerCase (la_city airport)) normalized.

(** Fallback: search in local German airports. *)
Definition searchLocalAirports (query : jsstring) : list LocalAirport :=
  let normalized := toLowerCase query in
  let results :=
    List.map german_airport (List.filter (german_match normalized) GERMAN_AIRPORTS) in
  (* Add some international airports for demo *)
  let results :=
    results ++ List.filter (international_match normalized) internationalAirports in
  take 10 results.

(** [AirportLocation] of [amadeus-flights.ts]; the handler reads [address]
    with [?.]. *)
Record Address : Type := {
  cityName : jsstring;
  countryName : jsstring;
}.

Record AirportLocation : Type := {
  al_name : jsstring;
  al_iataCode : jsstring;
  al_address : option Address;
}.

Record AirportOut : Type := {
  ao_name : jsstring;
  ao_iataCode : jsstring;
  ao_city : option jsstring;
  ao_country : option jsstring;
}.

(** The body is the array of the results, of the local search or of the
    provider's. *)
Inductive Body : Type :=
  | ErrorBody (error : jsstring)
  | LocalBody (results : list LocalAirport)
  | ProviderBody (results : list AirportOut).

Inductive event : Type :=
  | SearchAirports (keyword : jsstring).

Definition cached_headers : list (jsstring * jsstring) :=
  json_headers ++ [ (js "Cache-Control", js "public, max-age=3600") ].

Section Handler.

(** [searchAirports] of [amadeus-flights.ts], the provider behind it
    included. *)
Variable searchAirports : jsstring -> outcome (list AirportLocation).

Variable env : Env.

Definition GET (q : option jsstring) : Response Body * list event :=
  match q with
  | Some query =>
      if (length query <? 2)%nat then
        ({| status := 400; headers := json_headers;
            body := ErrorBody (js "Query parameter " ++ quoted (js "q")
                                 ++ js " is required (min 2 characters)") |}, [])
      else if negb (isAmadeusConfigured env) then
        (* Use local search if Amadeus is not configured *)
        ({| status := 200; headers := cached_headers;
            body := LocalBody (searchLocalAirports query) |}, [])
      else
        match searchAirports query with
        | Ok airports =>
            ({| status := 200; headers := cached_headers;
                body :=
                  ProviderBody
                    (List.map (fun a =>
                       {| ao_name := al_name a;
                          ao_iataCode := al_iataCode a;
                          ao_city := cityName <$> al_address a;
                          ao_country := countryName <$> al_address a |})
                       airports) |},
             [SearchAirports query])
        | Throw _ =>
            (* Fallback to local search on error *)
            ({| status := 200; headers := json_headers;
                body := LocalBody (searchLocalAirports query) |},
             [SearchAirports query])
        end
  | None =>
      ({| status := 400; headers := json_headers;
          body := ErrorBody (js "Query parameter " ++ quoted (js "q")
                               ++ js " is required (min 2 characters)") |}, [])
  end.

End Handler.

(** *** [searchAirports] of [amadeus-flights.ts] *)

(** The provider's answer; [data] may be missing. *)
Record LocationsResponse : Type := {
  lr_data : option (list AirportLocation);
}.

Section Client.

Variable params_toString : list (jsstring * jsstring) -> jsstring.

Definition searchAirports (env : Env) (aw : Amadeus.auth_world)
                          (reply : Amadeus.api_reply LocationsResponse)
                          (st : Amadeus.TokenState) (keyword : jsstring)
  : outcome (list AirportLocation) * Amadeus.TokenState * list Amadeus.event :=
  let params :=
    [ (js "keyword", keyword);
      (js "subType", js "AIRPORT,CITY");
      (js "page[limit]", js "10") ] in
  match Amadeus.amadeusRequest env aw reply st
          (js "/v1/reference-data/locations?" ++ params_toString params) with
  | (Ok response, st', trace) => (Ok (default [] (lr_data response)), st', trace)
  | (Throw m, st', trace) => (Throw m, st', trace)
  end.

End Client.

End Airports.

(** ** [src/pages/api/transport/search.ts] *)

Module StationSearch.

Section Types.

(** The types of a coordinate and of the [products] of a stop, which the
    handler only passes on. *)
Context {Coordinate Products : Type}.

Record Location : Type := {
  latitude : Coordinate;
  longitude : Coordinate;
}.

(** [Stop] of [db-transport.ts] with [location] and [products], which this
    handler reads. *)
Record Stop : Type := {
  id : jsstring;
  name : jsstring;
  location : option Location;
  products : option Products;
}.

Record Result : Type := {
  r_id : jsstring;
  r_name : jsstring;
  r_lat : option Coordinate;
  r_lng : option Coordinate;
  r_products : option Products;
}.

Inductive Body : Type :=
  | ErrorBody (error : jsstring)
  | ResultsBody (results : list Result).

(** The call of the rail client; [results] is [NaN] when [limit] is not a
    number. *)
Inductive event : Type :=
  | SearchLocations (query : jsstring) (results : option Z).

Section Handler.

(** [searchLocations] of [db-transport.ts], cache and provider included. *)
Variable searchLocations : jsstring -> option Z -> outcome (list Stop).

Definition bad_request : Response Body :=
  {| status := 400; headers := json_headers;
     body := ErrorBody (js "Query parameter " ++ quoted (js "q")
                          ++ js " is required (min 2 characters)") |}.

Definition GET (q limit_ : option jsstring) : Response Body * list event :=
  let limit := parseInt (or_default limit_ (js "10")) in
  match q with
  | Some query =>
      if (length query <? 2)%nat then (bad_request, [])
      else
        let results := Math_min limit 20 in
        match searchLocations query results with
        | Ok stops =>
            (* Simplify response for frontend *)
            ({| status := 200;
                headers := json_headers
                           ++ [ (js "Cache-Control", js "public, max-age=3600") ];
                body :=
                  ResultsBody
                    (List.map (fun stop =>
                       {| r_id := id stop;
                          r_name := name stop;
                          r_lat := latitude <$> location stop;
                          r_lng := longitude <$> location stop;
                          r_products := products stop |})
                       stops) |},
             [SearchLocations query results])
        | Throw _ =>
            ({| status := 500; headers := json_headers;
                body := ErrorBody (js "Failed to search stations") |},
             [SearchLocations query results])
        end
  | None => (bad_request, [])
  end.

End Handler.

End Types.

End StationSearch.

(** ** [src/pages/api/transport/journeys.ts] *)

Module Journeys.

Import Transport.

(** *** [formatDuration] of [db-transport.ts]

    [minutes] is [None] for [NaN]; [%] is the remainder that has the sign of
    [minutes]. *)
Definition formatDuration (minutes : option Z) : jsstring :=
  match minutes with
  | None => js "NaN Std NaN Min"
  | Some m =>
      let hours := (m / 60)%Z in
      let mins := Z.rem m 60 in
      if (hours =? 0)%Z then Z_to_js mins ++ js " Min"
      else if (mins =? 0)%Z then Z_to_js hours ++ js " Std"
      else Z_to_js hours ++ js " Std " ++ Z_to_js mins ++ js " Min"
  end.

Section Types.

(** The types of a price and of a distance, which the handler only passes
    on. *)
Context {Price Distance : Type}.

(** A leg with the fields that only this handler reads. *)
Record LegDetails : Type := {
  leg : Leg;
  direction : option jsstring;
  distance : option Distance;
  departurePlatform : option jsstring;
  arrivalPlatform : option jsstring;
}.

(** A journey with the fields that only this handler reads. *)
Record JourneyDetails : Type := {
  jd_legs : list LegDetails;
  price : option Price;
  refreshToken : option jsstring;
}.

(** The journey as the helper functions of [db-transport.ts] see it. *)
Definition journey_of (journey : JourneyDetails) : Journey :=
  {| legs := List.map leg (jd_legs journey) |}.

Record JourneysResponse : Type := {
  journeys : list JourneyDetails;
  earlierRef : option jsstring;
  laterRef : option jsstring;
}.

Record Place : Type := {
  place_id : jsstring;
  place_name : jsstring;
  place_platform : option jsstring;
}.

Record Product : Type := {
  pr_line : option jsstring;
  pr_product : option jsstring;
  pr_direction : option jsstring;
}.

Record LegOut : Type := {
  lo_origin : jsstring;
  lo_destination : jsstring;
  lo_departure : jsstring;
  lo_arrival : jsstring;
  lo_line : option jsstring;
  lo_product : option jsstring;
  lo_direction : option jsstring;
  lo_walking : option bool;
  lo_distance : option Distance;
  lo_departurePlatform : option jsstring;
  lo_arrivalPlatform : option jsstring;
  lo_departureDelay : jsstring;
  lo_arrivalDelay : jsstring;
}.

Record JourneyOut : Type := {
  jo_departure : jsstring;
  jo_plannedDeparture : jsstring;
  jo_departureDelay : jsstring;
  jo_arrival : jsstring;
  jo_plannedArrival : jsstring;
  jo_arrivalDelay : jsstring;
  jo_duration : jsstring;
  jo_durationMinutes : option Z;
  jo_transfers : Z;
  jo_price : option Price;
  jo_origin : Place;
  jo_destination : Place;
  jo_products : list Product;
  jo_legs : list LegOut;
  jo_refreshToken : option jsstring;
}.

Inductive Body : Type :=
  | ErrorBody (error : jsstring)
  | JourneysBody (journeys : list JourneyOut) (earlierRef laterRef : option jsstring).

(** The calls of the rail client. [transfers] is [None] where the option is
    [undefined], and [Some None] where it is [NaN]. *)
Inductive event : Type :=
  | SearchLocations (query : jsstring) (results : Z)
  | FindJourneys (from to : jsstring) (departure : option jsstring)
                 (results : option Z) (transfers : option (option Z)).

Record params : Type := {
  p_from : option jsstring;
  p_to : option jsstring;
  p_when : option jsstring;
  p_results : option jsstring;
  p_transfers : option jsstring;
}.

Section Handler.

Variable getTime : jsstring -> option Z.

(** [searchLocations] and [findJourneys] of [db-transport.ts], cache and
    provider included; what they answer may depend on the calls made
    before. *)
Variable searchLocations : list event -> jsstring -> Z -> outcome (list Stop).
Variable findJourneys :
  list event -> jsstring -> jsstring -> option jsstring -> option Z -> option (option Z)
  -> outcome JourneysResponse.

(** [leg => !leg.walking && leg.line] *)
Definition transport_leg (l : LegDetails) : bool :=
  not_walking (leg l) && bool_decide (line (leg l) <> None).

(** The function that the handler maps over the journeys. Reading a property
    of [undefined] throws a [TypeError]. *)
Definition transform (journey : JourneyDetails) : outcome JourneyOut :=
  match jd_legs journey with
  | [] => Throw (Offers.undefined_property (js "departure"))
  | firstLeg :: _ =>
      let lastLeg := List.last (jd_legs journey) firstLeg in
      let transportLegs := List.filter transport_leg (jd_legs journey) in
      Ok {| jo_departure := departure (leg firstLeg);
            jo_plannedDeparture := plannedDeparture (leg firstLeg);
            jo_departureDelay := formatDelay (departureDelay (leg firstLeg));
            jo_arrival := arrival (leg lastLeg);
            jo_plannedArrival := plannedArrival (leg lastLeg);
            jo_arrivalDelay := formatDelay (arrivalDelay (leg lastLeg));
            jo_duration := formatDuration (getJourneyDuration getTime (journey_of journey));
            jo_durationMinutes := getJourneyDuration getTime (journey_of journey);
            jo_transfers := getTransferCount (journey_of journey);
            jo_price := price journey;
            jo_origin :=
              {| place_id := stop_id (origin (leg firstLeg));
                 place_name := stop_name (origin (leg firstLeg));
                 place_platform := departurePlatform firstLeg |};
            jo_destination :=
              {| place_id := stop_id (destination (leg lastLeg));
                 place_name := stop_name (destination (leg lastLeg));
                 place_platform := arrivalPlatform lastLeg |};
            jo_products :=
              List.map (fun l =>
                {| pr_line := line_name <$> line (leg l);
                   pr_product := line_product <$> line (leg l);
                   pr_direction := direction l |})
                transportLegs;
            jo_legs :=
              List.map (fun l =>
                {| lo_origin := stop_name (origin (leg l));
                   lo_destination := stop_name (destination (leg l));
                   lo_departure := departure (leg l);
                   lo_arrival := arrival (leg l);
                   lo_line := line_name <$> line (leg l);
                   lo_product := line_product <$> line (leg l);
                   lo_direction := direction l;
                   lo_walking := walking (leg l);
                   lo_distance := distance l;
                   lo_departurePlatform := departurePlatform l;
                   lo_arrivalPlatform := arrivalPlatform l;
                   lo_departureDelay := formatDelay (departureDelay (leg l));
                   lo_arrivalDelay := formatDelay (arrivalDelay (leg l)) |})
                (jd_legs journey);
            jo_refreshToken := refreshToken journey |}
  end.

(** [journeysResponse.journeys.map(...)], which stops at the first
    exception. *)
Fixpoint map_journeys (l : list JourneyDetails) : outcome (list JourneyOut) :=
  match l with
  | [] => Ok []
  | j :: r =>
      match transform j with
      | Throw m => Throw m
      | Ok o =>
          match map_journeys r with
          | Throw m => Throw m
          | Ok os => Ok (o :: os)
          end
      end
  end.

(** The [catch] block. *)
Definition on_error : Response Body :=
  {| status := 500; headers := json_headers;
     body := ErrorBody (js "Failed to find journeys") |}.

Definition not_found (station : jsstring) : Response Body :=
  {| status := 404; headers := json_headers;
     body := ErrorBody (js "Station not found: " ++ station) |}.

(** The handler from the call of [findJourneys] on. *)
Definition find (p : params) (fromId toId : jsstring) (trace : list event)
  : Response Body * list event :=
  let results := parseInt (or_default (p_results p) (js "5")) in
  let call :=
    FindJourneys fromId toId
      (if missing (p_when p) then None else p_when p)
      (Math_min results 10)
      (if missing (p_transfers p) then None
       else Some (parseInt (default [] (p_transfers p)))) in
  match findJourneys trace fromId toId
          (if missing (p_when p) then None else p_when p)
          (Math_min results 10)
          (if missing (p_transfers p) then None
           else Some (parseInt (default [] (p_transfers p)))) with
  | Throw _ => (on_error, trace ++ [call])
  | Ok journeysResponse =>
      (* Transform for frontend *)
      match map_journeys (journeys journeysResponse) with
      | Throw _ => (on_error, trace ++ [call])
      | Ok out =>
          ({| status := 200;
              headers := json_headers
                         ++ [ (js "Cache-Control", js "public, max-age=60") ];
              body := JourneysBody out (earlierRef journeysResponse)
                                   (laterRef journeysResponse) |},
           trace ++ [call])
      end
  end.

(** The second lookup and what follows it. *)
Definition resolve_to (p : params) (fromId to : jsstring) (trace : list event)
  : Response Body * list event :=
  if negb (Departures.is_station_id to) then
    match searchLocations trace to 1 with
    | Throw _ => (on_error, trace ++ [SearchLocations to 1])
    | Ok [] => (not_found to, trace ++ [SearchLocations to 1])
    | Ok (top :: _) => find p fromId (stop_id top) (trace ++ [SearchLocations to 1])
    end
  else find p fromId to trace.

Definition GET (p : params) : Response Body * list event :=
  match p_from p, p_to p with
  | Some (f :: fr), Some (t :: tr) =>
      let from := f :: fr in
      let to := t :: tr in
      (* If from/to are not IDs (8 digits), search for them first *)
      if negb (Departures.is_station_id from) then
        match searchLocations [] from 1 with
        | Throw _ => (on_error, [SearchLocations from 1])
        | Ok [] => (not_found from, [SearchLocations from 1])
        | Ok (top :: _) => resolve_to p (stop_id top) to [SearchLocations from 1]
        end
      else resolve_to p from to []
  | _, _ =>
      ({| status := 400; headers := json_headers;
          body := ErrorBody (js "Parameters " ++ quoted (js "from") ++ js " and "
                               ++ quoted (js "to") ++ js " are required") |}, [])
  end.

End Handler.

End Types.

End Journeys.

(** * Properties *)

(** ** Sanity checks of the embedding *)

Example js_literal_umlaut : js "München" = [77; 252; 110; 99; 104; 101; 110].
Proof. vm_compute. reflexivity. Qed.

Example toLowerCase_umlaut : toLowerCase (js "MÜNCHEN") = js "münchen".
Proof. vm_compute. reflexivity. Qed.

Example toUpperCase_umlaut : toUpperCase (js "Düsseldorf") = js "DÜSSELDORF".
Proof. vm_compute. reflexivity. Qed.

(** Beyond U+00FF: the Kelvin and the Angstrom sign, the capital I with a
    dot, the capital sigma in final position and elsewhere, a letter of a
    supplementary plane, and the upper case of the long s, the dotless i, a
    ligature and the sharp s. *)
Example toLowerCase_beyond_latin1 :
  toLowerCase [8490] = js "k"
  /\ toLowerCase [8491] = js "å"
  /\ toLowerCase [304] = [105; 775]
  /\ toLowerCase (js "ΟΔΟΣ") = js "οδος"
  /\ toLowerCase (js "ΣΑΣ") = js "σας"
  /\ toLowerCase [55297; 56320] = [55297; 56360].
Proof. vm_compute. repeat split. Qed.

Example toUpperCase_beyond_latin1 :
  toUpperCase [383] = js "S"
  /\ toUpperCase [305] = js "I"
  /\ toUpperCase [64259] = js "FFI"
  /\ toUpperCase (js "straße") = js "STRASSE"
  /\ toUpperCase [55297; 56360] = [55297; 56320].
Proof. vm_compute. repeat split. Qed.

(** A name written with the Kelvin sign for its K resolves, as it does in
    JavaScript. *)
Example getAirportCode_kelvin_sign :
  getAirportCode ([8490] ++ js "öln") = Some (Str (js "CGN")).
Proof. vm_compute. reflexivity. Qed.

Example trim_example : trim (js "  Berlin ") = js "Berlin".
Proof. vm_compute. reflexivity. Qed.

Example includes_empty : includes (js "berlin") [] = true.
Proof. vm_compute. reflexivity. Qed.

Example getAirportCode_muc : getAirportCode (js "muc") = Some (Str (js "MUC")).
Proof. vm_compute. reflexivity. Qed.

Example getAirportCode_Muenchen : getAirportCode (js "Muenchen") = None.
Proof. vm_compute. reflexivity. Qed.

Example getAirportCode_empty : getAirportCode [] = Some (Str (js "BER")).
Proof. vm_compute. reflexivity. Qed.

Example formatDelay_0 : formatDelay (Num 0) = [].
Proof. vm_compute. reflexivity. Qed.
Example formatDelay_120 : formatDelay (Num 120) = js "+2 min".
Proof. vm_compute. reflexivity. Qed.
Example formatDelay_m60 : formatDelay (Num (-60)) = js "-1 min".
Proof. vm_compute. reflexivity. Qed.
Example formatDelay_null : formatDelay Null = [].
Proof. vm_compute. reflexivity. Qed.
Example formatDelay_20 : formatDelay (Num 20) = js "0 min".
Proof. vm_compute. reflexivity. Qed.
Example formatDelay_m20 : formatDelay (Num (-20)) = js "0 min".
Proof. vm_compute. reflexivity. Qed.
Example formatDelay_m30 : formatDelay (Num (-30)) = js "0 min".
Proof. vm_compute. reflexivity. Qed.
Example formatDelay_m90 : formatDelay (Num (-90)) = js "-1 min".
Proof. vm_compute. reflexivity. Qed.
Example parseInt_60 : parseInt (js " 60px") = Some 60%Z.
Proof. vm_compute. reflexivity. Qed.
Example parseInt_hex : parseInt (js "0x1f") = Some 31%Z.
Proof. vm_compute. reflexivity. Qed.
Example parseInt_nan : parseInt (js "abc") = None.
Proof. vm_compute. reflexivity. Qed.
Example resolveLocation_coords :
  Connections.resolveLocation (js "52.5,13.4") = Ok (Str (js "52.5,13.4")).
Proof. vm_compute. reflexivity. Qed.
Example resolveLocation_city :
  Connections.resolveLocation (js " MUENCHEN ") = Ok (Str (js "48.1351,11.5820")).
Proof. vm_compute. reflexivity. Qed.
Example resolveLocation_bad :
  Connections.resolveLocation (js "Atlantis")
  = Throw (js "Unbekannte Stadt: Atlantis. Bitte Koordinaten angeben.").
Proof. vm_compute. reflexivity. Qed.

(** ** Reads of the lookup tables *)

Module ObjProps.

Lemma own_In (table : list (jsstring * jsstring)) (k v : jsstring) :
  own table k = Some v -> In (k, v) table.
Proof.
  induction table as [|[k' v'] r IH]; simpl; [discriminate|].
  unfold str_eqb. case_bool_decide as E.
  - intros H. injection H as <-. left. now rewrite E.
  - intros H. right. now apply IH.
Qed.

(** Every value of a table whose values are non-empty strings is truthy. *)
Lemma get_truthy (table : list (jsstring * jsstring)) (k : jsstring) :
  forallb (fun kv => negb (str_eqb kv.2 [])) table = true ->
  as_truthy (get table k) = get table k.
Proof.
  intros Hall. unfold as_truthy, get.
  destruct (own table k) as [v|] eqn:E.
  - apply own_In in E.
    pose proof (proj1 (List.forallb_forall _ _) Hall _ E) as Hv. simpl in Hv.
    destruct v; [discriminate Hv|reflexivity].
  - destruct (inherited k); reflexivity.
Qed.

Lemma find_In {A} (f : A -> bool) (l : list A) (x : A) :
  List.find f l = Some x -> In x l /\ f x = true.
Proof. apply List.find_some. Qed.

End ObjProps.

Import ObjProps.

(** ** Strings *)

Module JsProps.

Import Spec.

Lemma startsWith_spec (s p : jsstring) :
  startsWith s p = true <-> exists b, s = p ++ b.
Proof.
  revert s. induction p as [|a p IH]; intros s; simpl.
  - split; [intros _; now exists s | reflexivity].
  - destruct s as [|c s].
    + split; [discriminate | intros [b H]; discriminate H].
    + rewrite andb_true_iff, N.eqb_eq, IH. split.
      * intros [-> [b ->]]. now exists b.
      * intros [b H]. injection H as -> ->. split; [reflexivity | now exists b].
Qed.

Lemma includes_spec (s p : jsstring) :
  includes s p = true <-> exists a b, s = a ++ p ++ b.
Proof.
  induction s as [|c s IH]; simpl.
  - rewrite orb_false_r, startsWith_spec. split.
    + intros [b H]. now exists [], b.
    + intros (a & b & H). destruct a as [|x a]; [now exists b | discriminate H].
  - rewrite orb_true_iff, startsWith_spec, IH. split.
    + intros [[b H]|(a & b & ->)]; [now exists [], b | now exists (c :: a), b].
    + intros (a & b & H). destruct a as [|x a].
      * left. now exists b.
      * right. injection H as -> ->. now exists a, b.
Qed.


Lemma includes_refl (s : jsstring) : includes s s = true.
Proof. apply includes_spec. exists [], []. now rewrite app_nil_r. Qed.






(** Boolean tests on code units, as arithmetic. *)
Ltac unit_arith H :=
  repeat rewrite ?orb_true_iff, ?andb_true_iff, ?negb_true_iff,
                 ?N.leb_le, ?N.eqb_eq, ?N.eqb_neq, ?N.leb_gt in H.

(** *** Case mapping of texts below U+0100 *)


Lemma StringToCodePoints_plain (s : jsstring) :
  forallb (fun c => negb (is_high_surrogate c)) s = true -> StringToCodePoints s = s.
Proof.
  induction s as [|h t IH]; [reflexivity|].
  intros H. cbn [forallb] in H. apply andb_true_iff in H as [Hh Ht].
  apply negb_true_iff in Hh. specialize (IH Ht).
  destruct t as [|l r]; [reflexivity|].
  change (StringToCodePoints (h :: l :: r))
    with (if is_high_surrogate h && is_low_surrogate l
          then (65536 + (h - 55296) * 1024 + (l - 56320)) :: StringToCodePoints r
          else h :: StringToCodePoints (l :: r)).
  rewrite Hh. cbn [andb]. now rewrite IH.
Qed.

Lemma CodePointsToString_units (l : list N) :
  forallb (fun c => c <? 65536) l = true -> CodePointsToString l = l.
Proof.
  unfold CodePointsToString. induction l as [|c l IH]; [reflexivity|].
  intros H. cbn [forallb] in H. apply andb_true_iff in H as [Hc Hl].
  cbn [List.map List.concat]. unfold UTF16EncodeCodePoint at 1. rewrite Hc.
  cbn [app]. f_equal. exact (IH Hl).
Qed.

Lemma map_point_app (t1 t2 : list (N * N * N * N)) (c : N) :
  map_point (t1 ++ t2) c
  = match map_point t1 c with Some x => Some x | None => map_point t2 c end.
Proof.
  induction t1 as [|[[[lo hi] step] to] t IH]; [reflexivity|].
  cbn [app map_point]. destruct (_ && _ && _); [reflexivity|exact IH].
Qed.

Lemma map_point_misses (a b : N) (t : list (N * N * N * N)) (c : N) :
  misses a b (List.map (fun r => (r.1.1.1, r.1.1.2)) t) = true ->
  a <= c <= b -> map_point t c = None.
Proof.
  intros H Hc. induction t as [|[[[lo hi] step] to] t IH]; [reflexivity|].
  unfold misses in H. cbn [List.map forallb fst snd] in H.
  apply andb_true_iff in H as [Hr Ht].
  cbn [map_point]. rewrite (IH Ht).
  apply orb_true_iff in Hr as [Hr|Hr]; apply N.ltb_lt in Hr.
  - destruct (N.leb_spec lo c); [|reflexivity].
    destruct (N.leb_spec c hi); [lia|reflexivity].
  - destruct (N.leb_spec lo c); [lia|reflexivity].
Qed.

Lemma special_point_app (t1 t2 : list (N * list N)) (c : N) :
  special_point (t1 ++ t2) c
  = match special_point t1 c with Some x => Some x | None => special_point t2 c end.
Proof.
  induction t1 as [|[k v] t IH]; [reflexivity|].
  cbn [app special_point]. destruct (k =? c); [reflexivity|exact IH].
Qed.

Lemma special_point_misses (a b : N) (t : list (N * list N)) (c : N) :
  misses a b (List.map (fun e => (e.1, e.1)) t) = true ->
  a <= c <= b -> special_point t c = None.
Proof.
  intros H Hc. induction t as [|[k v] t IH]; [reflexivity|].
  unfold misses in H. cbn [List.map forallb fst snd] in H.
  apply andb_true_iff in H as [Hr Ht].
  cbn [special_point]. rewrite (IH Ht).
  apply orb_true_iff in Hr as [Hr|Hr]; apply N.ltb_lt in Hr;
    (destruct (N.eqb_spec k c); [lia|reflexivity]).
Qed.

(** Where the code units of a Latin text lie. *)
Lemma latin_unit_range (c : N) :
  (c <? 256) || is_space c = true ->
  c < 256 \/ c = 5760 \/ 8192 <= c <= 8202 \/ 8232 <= c <= 8233
  \/ c = 8239 \/ c = 8287 \/ c = 12288 \/ c = 65279.
Proof.
  unfold is_space. intros H.
  repeat rewrite ?orb_true_iff, ?andb_true_iff, ?N.leb_le, ?N.eqb_eq, ?N.ltb_lt in H.
  lia.
Qed.

Ltac latin_cases R :=
  destruct R as [R|[R|[R|[R|[R|[R|[R|R]]]]]]].

(** Settles a goal on a code unit whose place among the constants of the goal
    is known: every comparison is replaced by its value. *)
Ltac unit_decide :=
  repeat match goal with
         | |- context [N.leb ?a ?b] =>
             first [ rewrite (proj2 (N.leb_le a b)) by lia
                   | rewrite (proj2 (N.leb_gt a b)) by lia ]
         | |- context [N.ltb ?a ?b] =>
             first [ rewrite (proj2 (N.ltb_lt a b)) by lia
                   | rewrite (proj2 (N.ltb_ge a b)) by lia ]
         | |- context [N.eqb ?a ?b] =>
             first [ rewrite (proj2 (N.eqb_eq a b)) by lia
                   | rewrite (proj2 (N.eqb_neq a b)) by lia ]
         end;
  cbn [andb orb negb];
  first [reflexivity | lia | f_equal; lia | repeat f_equal; lia].


Lemma upper_point_latin (c : N) :
  (c <? 256) || is_space c = true -> upper_point c = upper_unit c.
Proof.
  intros H. apply latin_unit_range in H as R.
  assert (A : map_point upper_above c = None).
  { latin_cases R;
      [ apply (map_point_misses 0 255) | apply (map_point_misses 5760 5760)
      | apply (map_point_misses 8192 8202) | apply (map_point_misses 8232 8233)
      | apply (map_point_misses 8239 8239) | apply (map_point_misses 8287 8287)
      | apply (map_point_misses 12288 12288) | apply (map_point_misses 65279 65279) ];
      first [ vm_compute; reflexivity | lia ]. }
  assert (B : special_point upper_special_above c = None).
  { latin_cases R;
      [ apply (special_point_misses 0 255) | apply (special_point_misses 5760 5760)
      | apply (special_point_misses 8192 8202) | apply (special_point_misses 8232 8233)
      | apply (special_point_misses 8239 8239) | apply (special_point_misses 8287 8287)
      | apply (special_point_misses 12288 12288)
      | apply (special_point_misses 65279 65279) ];
      first [ vm_compute; reflexivity | lia ]. }
  unfold upper_point. rewrite special_point_app, map_point_app, A, B.
  unfold upper_special_latin1, upper_latin1, upper_unit. cbn [special_point map_point].
  rewrite !N.mod_1_r. change (0 =? 0) with true.
  clear A B H R.
  assert (P : c < 97 \/ 97 <= c <= 122 \/ 122 < c < 181 \/ c = 181 \/ 181 < c < 223
              \/ c = 223 \/ 224 <= c <= 246 \/ c = 247 \/ 248 <= c <= 254 \/ c = 255
              \/ 255 < c) by lia.
  destruct P as [P|[P|[P|[P|[P|[P|[P|[P|[P|[P|P]]]]]]]]]]; unit_decide.
Qed.




Lemma latin_plain (s : jsstring) :
  latin s = true -> forallb (fun c => negb (is_high_surrogate c)) s = true.
Proof.
  unfold latin. intros H. apply List.forallb_forall. intros c Hc.
  pose proof (proj1 (List.forallb_forall _ _) H c Hc) as L.
  apply latin_unit_range in L. unfold is_high_surrogate.
  destruct (N.leb_spec 55296 c); [|reflexivity].
  destruct (N.leb_spec c 56319); [lia|reflexivity].
Qed.



Lemma toUpperCase_latin (s : jsstring) :
  latin s = true -> toUpperCase s = List.concat (List.map upper_unit s).
Proof.
  intros H. unfold toUpperCase.
  rewrite (StringToCodePoints_plain s (latin_plain s H)).
  assert (E : List.map upper_point s = List.map upper_unit s).
  { apply List.map_ext_in. intros c Hc. apply upper_point_latin.
    unfold latin in H. exact (proj1 (List.forallb_forall _ _) H c Hc). }
  rewrite E. apply CodePointsToString_units.
  apply List.forallb_forall. intros u Hu.
  apply List.in_concat in Hu as (us & Hus & Hu).
  apply List.in_map_iff in Hus as (c & <- & Hc).
  unfold latin in H.
  pose proof (proj1 (List.forallb_forall _ _) H c Hc) as L.
  apply latin_unit_range in L. apply N.ltb_lt.
  revert Hu. unfold upper_unit. clear H Hc.
  repeat match goal with
         | |- context [N.leb ?a ?b] => destruct (N.leb_spec a b)
         | |- context [N.eqb ?a ?b] => destruct (N.eqb_spec a b)
         end;
    cbn [andb orb negb In]; intros Hu; lia.
Qed.












End JsProps.

Import JsProps.

(** ** Helper functions of the rail client *)

Module TransportProps.

Import Spec.

Lemma filter_not_walking_length (l : list Leg) :
  length (List.filter not_walking l) = transport_legs l.
Proof.
  induction l as [|leg r IH]; [reflexivity|].
  simpl. unfold not_walking at 1.
  destruct (walking leg) as [[|]|]; simpl; congruence.
Qed.

Lemma transport_legs_all_walking (l : list Leg) :
  Forall (fun leg => walking leg = Some true) l -> transport_legs l = 0%nat.
Proof.
  induction 1 as [|leg r Hw _ IH]; [reflexivity|].
  simpl. now rewrite Hw.
Qed.

(** C5. [getTransferCount] returns [max(0, n - 1)] where [n] is the number of
    legs whose walking flag is not set: 1 on any journey whose legs are
    [walk, train, walk, train], and 0 on a journey that has only walking legs
    or no leg at all. *)
Theorem getTransferCount_spec (j : Journey) :
  getTransferCount j = Z.max 0 (Z.of_nat (transport_legs (legs j)) - 1)
  /\ (List.map not_walking (legs j) = [false; true; false; true] -> getTransferCount j = 1%Z)
  /\ (Forall (fun leg => walking leg = Some true) (legs j) -> getTransferCount j = 0%Z).
Proof.
  assert (E : getTransferCount j = Z.max 0 (Z.of_nat (transport_legs (legs j)) - 1)).
  { unfold getTransferCount. now rewrite filter_not_walking_length. }
  split; [exact E|split].
  - intros H. unfold getTransferCount.
    assert (L : length (List.filter not_walking (legs j)) = 2%nat).
    { destruct (legs j) as [|a [|b [|c [|d [|e r]]]]]; try discriminate H.
      simpl in H. injection H as Ha Hb Hc Hd. simpl.
      now rewrite Ha, Hb, Hc, Hd. }
    now rewrite L.
  - intros H. rewrite E, (transport_legs_all_walking _ H). reflexivity.
Qed.

Lemma getTransferCount_spec_witness :
  getTransferCount {| legs := [walk; train; walk; train] |} = 1%Z
  /\ getTransferCount {| legs := [walk; walk] |} = 0%Z
  /\ getTransferCount {| legs := [] |} = 0%Z.
Proof.
  split; [|split].
  - apply (getTransferCount_spec {| legs := [walk; train; walk; train] |}). reflexivity.
  - apply (getTransferCount_spec {| legs := [walk; walk] |}).
    repeat constructor.
  - apply (getTransferCount_spec {| legs := [] |}). constructor.
Defined.

Lemma round_div_nearest (n d : Z) : (0 < d)%Z -> nearest (round_div n d) n d.
Proof.
  intros Hd. unfold nearest, round_div.
  pose proof (Z.div_mod (2 * n + d) (2 * d) ltac:(lia)) as E.
  pose proof (Z.mod_pos_bound (2 * n + d) (2 * d) ltac:(lia)) as B.
  set (q := ((2 * n + d) / (2 * d))%Z) in *.
  set (r := ((2 * n + d) mod (2 * d))%Z) in *.
  replace (d * (2 * q - 1))%Z with (2 * d * q - d)%Z by ring.
  replace (d * (2 * q + 1))%Z with (2 * d * q + d)%Z by ring.
  lia.
Qed.

Lemma nearest_unique (m m' x d : Z) :
  (0 < d)%Z -> nearest m x d -> nearest m' x d -> m = m'.
Proof.
  unfold nearest. intros Hd [L U] [L' U'].
  assert (A : (d * (2 * m - 1) < d * (2 * m' + 1))%Z) by lia.
  assert (B : (d * (2 * m' - 1) < d * (2 * m + 1))%Z) by lia.
  apply Z.mul_lt_mono_pos_l in A; [|exact Hd].
  apply Z.mul_lt_mono_pos_l in B; [|exact Hd].
  lia.
Qed.

Lemma Z_to_js_nonpos_head (m : Z) (r : jsstring) :
  (m <= 0)%Z -> head (Z_to_js m ++ r) <> Some 43.
Proof.
  intros Hm. destruct m as [|p|p]; [cbv; congruence|lia|].
  unfold Z_to_js, js. simpl. discriminate.
Qed.

Lemma formatDelay_nonzero (n : Z) :
  n <> 0%Z ->
  formatDelay (Num n)
  = (if (0 <? round_div n 60)%Z then js "+" else []) ++ Z_to_js (round_div n 60) ++ js " min".
Proof.
  intros Hn. unfold formatDelay.
  destruct n as [|p|p]; [congruence| |];
    destruct (0 <? round_div _ 60)%Z; reflexivity.
Qed.

(** C9. [formatDelay] returns the empty string only for 0, [null] and
    [undefined]. For every other delay (whole seconds) it returns the delay
    rounded to whole minutes followed by [" min"], with a ['+'] in front
    exactly when the rounded value is positive; a nonzero delay that rounds
    to 0 minutes, such as 20 or -20 seconds, gives ["0 min"]. *)
Theorem formatDelay_spec (d : maybe_number) :
  (formatDelay d = [] <-> d = Null \/ d = Undefined \/ d = Num 0)
  /\ (forall n, d = Num n -> n <> 0%Z ->
       exists m,
         nearest m n 60
         /\ formatDelay d
            = (if (0 <? m)%Z then js "+" else []) ++ Z_to_js m ++ js " min"
         /\ (head (formatDelay d) = Some 43 <-> (0 < m)%Z)
         /\ (m = 0%Z -> formatDelay d = js "0 min")).
Proof.
  split.
  - split.
    + destruct d as [| |n]; auto.
      destruct (Z.eq_dec n 0%Z) as [->|Hn]; auto.
      rewrite (formatDelay_nonzero n Hn). intros H.
      apply app_eq_nil in H as [_ H]. apply app_eq_nil in H as [_ H].
      discriminate H.
    + intros [->|[->| ->]]; reflexivity.
  - intros n -> Hn. exists (round_div n 60).
    rewrite (formatDelay_nonzero n Hn).
    split; [apply round_div_nearest; lia|].
    split; [reflexivity|].
    split.
    + destruct (0 <? round_div n 60)%Z eqn:E.
      * split; [intros _; lia | reflexivity].
      * split; [|lia]. intros H. exfalso.
        now apply (Z_to_js_nonpos_head (round_div n 60) (js " min")); [lia|].
    + intros ->. reflexivity.
Qed.

Lemma formatDelay_spec_witness :
  formatDelay (Num 20) = js "0 min" /\ formatDelay (Num (-20)) = js "0 min".
Proof.
  split.
  - destruct (formatDelay_spec (Num 20)) as [_ H].
    destruct (H 20%Z eq_refl ltac:(lia)) as (m & Hm & _ & _ & H0).
    apply H0.
    apply (nearest_unique m 0 20 60); [lia | exact Hm | unfold nearest; lia].
  - destruct (formatDelay_spec (Num (-20))) as [_ H].
    destruct (H (-20)%Z eq_refl ltac:(lia)) as (m & Hm & _ & _ & H0).
    apply H0.
    apply (nearest_unique m 0 (-20) 60); [lia | exact Hm | unfold nearest; lia].
Defined.

Lemma last_default {A} (l : list A) (d x : A) : last l = Some x -> List.last l d = x.
Proof.
  induction l as [|a [|b r] IH]; intros H; [discriminate H| |].
  - now injection H.
  - apply IH. exact H.
Qed.

(** C10. [getJourneyDuration] is defined on every journey: every list of legs
    is empty or has a first and a last leg. On an empty list it returns 0,
    reading no leg. On a non-empty list it returns the last leg's arrival
    minus the first leg's departure, in minutes rounded to the nearest whole
    number (a tie going up), and [NaN] when one of the two dates is invalid. *)
Theorem getJourneyDuration_spec (getTime : jsstring -> option Z) (j : Journey) :
  (legs j = [] \/ exists firstLeg lastLeg,
      head (legs j) = Some firstLeg /\ last (legs j) = Some lastLeg)
  /\ (legs j = [] -> getJourneyDuration getTime j = Some 0%Z)
  /\ (forall firstLeg lastLeg,
        head (legs j) = Some firstLeg -> last (legs j) = Some lastLeg ->
        match getTime (departure firstLeg), getTime (arrival lastLeg) with
        | Some start, Some end_ =>
            exists m, getJourneyDuration getTime j = Some m
                      /\ nearest m (end_ - start) 60000
        | _, _ => getJourneyDuration getTime j = None
        end).
Proof.
  unfold getJourneyDuration.
  split; [|split].
  - destruct (legs j) as [|a r] eqn:E; [now left|right].
    destruct (last (a :: r)) as [z|] eqn:L.
    + exists a, z. now split.
    + apply last_None in L. discriminate L.
  - intros ->. reflexivity.
  - intros firstLeg lastLeg Hf Hl.
    destruct (legs j) as [|a r] eqn:E; [discriminate Hf|].
    injection Hf as ->.
    rewrite (last_default _ firstLeg lastLeg Hl).
    destruct (getTime (departure firstLeg)) as [start|]; [|reflexivity].
    destruct (getTime (arrival lastLeg)) as [end_|]; [|reflexivity].
    eexists. split; [reflexivity|].
    apply round_div_nearest. lia.
Qed.

Lemma getJourneyDuration_spec_witness :
  getJourneyDuration (fun s => Some (Z.of_nat (length s) * 45000)%Z) {| legs := [] |}
  = Some 0%Z
  /\ exists m,
       getJourneyDuration (fun s => Some (Z.of_nat (length s) * 45000)%Z)
         {| legs := [sample_leg (js "a") (js "bc") None;
                     sample_leg (js "bc") (js "defg") None] |} = Some m
       /\ nearest m 135000 60000.
Proof.
  split.
  - apply (getJourneyDuration_spec _ {| legs := [] |}). reflexivity.
  - exact (proj2 (proj2 (getJourneyDuration_spec
                           (fun s => Some (Z.of_nat (length s) * 45000)%Z)
                           {| legs := [sample_leg (js "a") (js "bc") None;
                                       sample_leg (js "bc") (js "defg") None] |}))
             _ _ eq_refl eq_refl).
Defined.

End TransportProps.

(** ** The in-memory cache *)

Module CacheProps.

Import Spec.

Section Cache.

Context {T : Type}.

Implicit Types (cache : gmap jsstring (T * Z)) (w : world T) (url : jsstring).

(** A valid entry is served from memory: no request, no change. *)
Lemma fetchWithCache_hit url ttl w cache data expires :
  cache !! url = Some (data, expires) ->
  (now_read w < expires)%Z ->
  fetchWithCache url ttl w cache = (Ok data, cache, []).
Proof.
  intros Hc Hlt. unfold fetchWithCache. rewrite Hc.
  destruct (Z.ltb_spec (now_read w) expires); [reflexivity|lia].
Qed.

(** A call that is not served from memory stores a successful answer. *)
Lemma fetchWithCache_stale_ok url ttl w cache st txt data :
  stale url w cache ->
  reply w = Replied true st txt (Ok data) ->
  fetchWithCache url ttl w cache
  = (Ok data, <[url := (data, (now_write w + ttl)%Z)]> cache, [Fetch url]).
Proof.
  unfold stale, fetchWithCache. intros Hs ->.
  destruct (cache !! url) as [[d e]|]; [|reflexivity].
  destruct (Z.ltb_spec (now_read w) e); [lia|reflexivity].
Qed.

(** A call that is not served from memory behaves as on a cache without the
    entry: exactly one request goes out. *)
Lemma fetchWithCache_stale_as_absent url ttl w cache :
  stale url w cache ->
  (fetchWithCache url ttl w cache).1.1 = (fetchWithCache url ttl w (delete url cache)).1.1
  /\ (fetchWithCache url ttl w cache).2 = [Fetch url]
  /\ (fetchWithCache url ttl w (delete url cache)).2 = [Fetch url]
  /\ (forall data, (fetchWithCache url ttl w cache).1.1 = Ok data ->
        (fetchWithCache url ttl w cache).1.2
        = (fetchWithCache url ttl w (delete url cache)).1.2).
Proof.
  unfold stale, fetchWithCache. intros Hs.
  rewrite lookup_delete_eq.
  assert (E : match cache !! url with
              | Some (d, e) => (now_read w <? e)%Z = false
              | None => True
              end).
  { destruct (cache !! url) as [[d e]|]; [|exact I].
    destruct (Z.ltb_spec (now_read w) e); [lia|reflexivity]. }
  destruct (cache !! url) as [[d e]|]; [rewrite E|];
    (destruct (reply w) as [m|[|] st txt [data|m]]; simpl;
     repeat split; try reflexivity; try discriminate;
     intros ? _; now rewrite insert_delete_eq).
Qed.

(** A call leaves alone every entry that it serves from memory or that
    belongs to another URL. *)
Lemma fetchWithCache_keeps url ttl w cache K P expires :
  cache !! K = Some (P, expires) ->
  (now_read w < expires)%Z ->
  (fetchWithCache url ttl w cache).1.2 !! K = Some (P, expires).
Proof.
  intros HK Hlt.
  destruct (decide (url = K)) as [->|Hne].
  - now rewrite (fetchWithCache_hit K ttl w cache P expires HK Hlt).
  - unfold fetchWithCache.
    assert (M : forall x : outcome T * gmap jsstring (T * Z) * list event,
               x.1.2 !! K = Some (P, expires) ->
               (match cache !! url with
                | Some (data, e) => if (now_read w <? e)%Z then (Ok data, cache, []) else x
                | None => x
                end).1.2 !! K = Some (P, expires)).
    { intros x Hx. destruct (cache !! url) as [[d e]|]; [|exact Hx].
      destruct (now_read w <? e)%Z; [exact HK|exact Hx]. }
    apply M.
    destruct (reply w) as [m|[|] st txt [data|m]]; simpl; try exact HK.
    now rewrite lookup_insert_ne.
Qed.

Lemma run_keeps (calls : list (call T)) cache K P expires :
  cache !! K = Some (P, expires) ->
  Forall (fun k => (now_read (call_world k) < expires)%Z) calls ->
  run calls cache !! K = Some (P, expires).
Proof.
  intros HK Hall. revert cache HK.
  induction Hall as [|k r Hk _ IH]; intros cache HK; [exact HK|].
  unfold run. simpl. apply IH.
  now apply fetchWithCache_keeps.
Qed.

(** C4. Cache round trip. Let a call for [K] with TTL [ttl] not be served
    from memory and store the payload [P] at time [t0]. Then, whatever calls
    are made in between before [t0 + ttl], every read of [K] at a time
    strictly before [t0 + ttl] returns [P] with no outbound request and no
    change of the cache; and every read of [K] at or after [t0 + ttl] behaves
    as if [K] were absent: one request goes out, and when it succeeds its
    payload is returned and stored under [K] with a new expiry. *)
Theorem cache_round_trip (K : jsstring) (ttl t0 : Z) (P : T) w0 cache0 st txt :
  stale K w0 cache0 ->
  reply w0 = Replied true st txt (Ok P) ->
  now_write w0 = t0 ->
  forall (calls : list (call T)),
    Forall (fun k => (now_read (call_world k) < t0 + ttl)%Z) calls ->
    let cache1 := run calls (fetchWithCache K ttl w0 cache0).1.2 in
    (forall w ttl',
        (now_read w < t0 + ttl)%Z ->
        fetchWithCache K ttl' w cache1 = (Ok P, cache1, []))
    /\ (forall w ttl',
          (t0 + ttl <= now_read w)%Z ->
          (fetchWithCache K ttl' w cache1).1.1
          = (fetchWithCache K ttl' w (delete K cache1)).1.1
          /\ (fetchWithCache K ttl' w cache1).2 = [Fetch K]
          /\ (forall st' txt' D,
                reply w = Replied true st' txt' (Ok D) ->
                fetchWithCache K ttl' w cache1
                = (Ok D, <[K := (D, (now_write w + ttl')%Z)]> cache1, [Fetch K]))).
Proof.
  intros Hs Hr Ht calls Hcalls cache1.
  assert (H1 : cache1 !! K = Some (P, (t0 + ttl)%Z)).
  { apply run_keeps; [|exact Hcalls].
    rewrite (fetchWithCache_stale_ok K ttl w0 cache0 st txt P Hs Hr). simpl.
    rewrite lookup_insert_eq, Ht. reflexivity. }
  split.
  - intros w ttl' Hlt. now apply (fetchWithCache_hit K ttl' w cache1 P (t0 + ttl)%Z).
  - intros w ttl' Hge.
    assert (Hst : stale K w cache1) by (unfold stale; now rewrite H1).
    destruct (fetchWithCache_stale_as_absent K ttl' w cache1 Hst) as (A & B & _ & _).
    split; [exact A|split; [exact B|]].
    intros st' txt' D HD. now apply (fetchWithCache_stale_ok K ttl' w cache1 st' txt' D).
Qed.

End Cache.

Lemma cache_round_trip_witness :
  let K := js "https://v6.db.transport.rest/stops/8011160" in
  let cache1 := (fetchWithCache K 60000 (answering 1000 (js "P")) ∅).1.2 in
  fetchWithCache K 60000 (answering 60999 (js "Q")) cache1 = (Ok (js "P"), cache1, [])
  /\ fetchWithCache K 60000 (answering 61000 (js "Q")) cache1
     = (Ok (js "Q"), <[K := (js "Q", 121000%Z)]> cache1, [Fetch K]).
Proof.
  intros K cache1.
  assert (S0 : stale K (answering 1000 (js "P")) ∅).
  { unfold stale. rewrite lookup_empty. exact I. }
  destruct (cache_round_trip K 60000 1000 (js "P") (answering 1000 (js "P")) ∅
              200 (js "OK") S0 eq_refl eq_refl [] (List.Forall_nil _)) as [H1 H2].
  split.
  - apply H1. simpl. lia.
  - destruct (H2 (answering 61000 (js "Q")) 60000%Z) as (_ & _ & H3); [simpl; lia|].
    exact (H3 200%Z (js "OK") (js "Q") eq_refl).
Defined.

End CacheProps.

(** ** [getAirportCode] *)

Module FlightsProps.

Import Spec.

Lemma GERMAN_AIRPORTS_truthy (k : jsstring) :
  as_truthy (get GERMAN_AIRPORTS k) = get GERMAN_AIRPORTS k.
Proof. apply get_truthy. vm_compute. reflexivity. Qed.

Lemma GERMAN_AIRPORTS_codes (k code : jsstring) :
  In (k, code) GERMAN_AIRPORTS -> is_iata code = true.
Proof.
  intros H.
  assert (A : forallb (fun kv => is_iata kv.2) GERMAN_AIRPORTS = true)
    by (vm_compute; reflexivity).
  exact (proj1 (List.forallb_forall _ _) A _ H).
Qed.

(** Off the names that every object inherits, a returned value is a code of
    three letters [A-Z]. *)
Lemma getAirportCode_iata_shape (city : jsstring) (v : value) :
  inherited city = false ->
  getAirportCode city = Some v ->
  is_iata_value v = true.
Proof.
  intros Hn. unfold getAirportCode. rewrite GERMAN_AIRPORTS_truthy.
  unfold get. rewrite Hn.
  destruct (own GERMAN_AIRPORTS city) as [code|] eqn:E.
  - intros H. injection H as <-. simpl.
    apply own_In in E. now apply (GERMAN_AIRPORTS_codes city).
  - destruct (List.find _ GERMAN_AIRPORTS) as [[name code]|] eqn:F.
    + intros H. injection H as <-. simpl.
      apply find_In in F as [F _]. now apply (GERMAN_AIRPORTS_codes name).
    + destruct (is_iata (toUpperCase city)) eqn:I; [|discriminate].
      intros H. injection H as <-. exact I.
Qed.

Lemma upper_unit_ascii (c : N) :
  c < 128 ->
  exists u, upper_unit c = [u] /\ is_AZ u = is_letter c.
Proof.
  intros Hc. unfold upper_unit, is_AZ, is_letter.
  destruct (N.leb_spec 97 c), (N.leb_spec c 122); simpl.
  - exists (c - 32). split; [reflexivity|].
    destruct (N.leb_spec 65 (c - 32)), (N.leb_spec (c - 32) 90); simpl;
      first [reflexivity | lia].
  - destruct (N.leb_spec 224 c); [lia|]. simpl.
    destruct (N.eqb_spec c 223); [lia|].
    destruct (N.eqb_spec c 255); [lia|].
    destruct (N.eqb_spec c 181); [lia|].
    exists c. split; [reflexivity|].
    destruct (N.leb_spec 65 c), (N.leb_spec c 90); simpl; first [reflexivity | lia].
  - destruct (N.leb_spec 224 c); [lia|]. simpl.
    destruct (N.eqb_spec c 223); [lia|].
    destruct (N.eqb_spec c 255); [lia|].
    destruct (N.eqb_spec c 181); [lia|].
    exists c. split; [reflexivity|]. reflexivity.
  - lia.
Qed.

Lemma toUpperCase_ascii (s : jsstring) :
  ascii_only s ->
  is_iata (toUpperCase s) = (length s =? 3)%nat && forallb is_letter s.
Proof.
  intros H.
  assert (U : exists t, toUpperCase s = t /\ length t = length s
                        /\ forallb is_AZ t = forallb is_letter s).
  { rewrite toUpperCase_latin.
    - induction H as [|c r Hc _ (t & Ht & Hl & Hf)].
      + exists []. repeat split.
      + destruct (upper_unit_ascii c Hc) as (u & Hu & Hz).
        exists (u :: t). simpl. rewrite Hu, Ht. simpl.
        rewrite Hl, Hz, Hf. repeat split.
    - apply List.forallb_forall. intros c Hc.
      unfold ascii_only in H. rewrite List.Forall_forall in H.
      specialize (H c Hc). apply orb_true_iff. left. apply N.ltb_lt. lia. }
  destruct U as (t & -> & Hl & Hf). rewrite <- Hl, <- Hf.
  destruct t as [|a [|b [|c [|d r]]]]; simpl; try reflexivity.
  now rewrite andb_true_r, andb_assoc.
Qed.

(** Off the names that every object inherits, and on ASCII input, the code
    follows the resolution order of the specification. *)
Lemma getAirportCode_order (city : jsstring) :
  inherited city = false ->
  ascii_only city ->
  getAirportCode city = Str <$> resolveAirportCode city.
Proof.
  intros Hn Ha. unfold getAirportCode, resolveAirportCode.
  rewrite GERMAN_AIRPORTS_truthy. unfold get. rewrite Hn.
  destruct (own GERMAN_AIRPORTS city) as [code|]; [reflexivity|].
  change (fun entry : jsstring * jsstring =>
            includes (toLowerCase entry.1) (toLowerCase city)
            || includes (toLowerCase city) (toLowerCase entry.1))
    with (partial_match (toLowerCase city)).
  destruct (List.find _ GERMAN_AIRPORTS) as [[name code]|]; [reflexivity|].
  rewrite (toUpperCase_ascii city Ha).
  destruct ((length city =? 3)%nat && forallb is_letter city); reflexivity.
Qed.

(** C3 at the input ["constructor"]. The table has no such city, no table
    name contains it or is contained in it, and it is no 3-letter token, so
    the resolution order of the specification gives absent; the code returns
    the member [constructor] that the table inherits from
    [Object.prototype]. The four examples of the specification hold. *)
Theorem getAirportCode_constructor :
  own GERMAN_AIRPORTS (js "constructor") = None
  /\ List.find (partial_match (toLowerCase (js "constructor"))) GERMAN_AIRPORTS = None
  /\ is_iata (toUpperCase (js "constructor")) = false
  /\ resolveAirportCode (js "constructor") = None
  /\ getAirportCode (js "constructor") = Some (Inherited (js "constructor"))
  /\ getAirportCode (js "muc") = Some (Str (js "MUC"))
  /\ getAirportCode (js "München") = Some (Str (js "MUC"))
  /\ getAirportCode (js "XYZ") = Some (Str (js "XYZ"))
  /\ getAirportCode (js "Nonexistentcity") = None.
Proof. vm_compute. repeat split. Qed.

(** The literal-code test looks at the upper-cased input, whose length can
    differ from the input's. *)
Example getAirportCode_sharp_s : getAirportCode (js "ßa") = Some (Str (js "SSA")).
Proof. vm_compute. reflexivity. Qed.

(** C8 at the input ["toString"]: the code returns a value, and the value is
    not a string of three letters [A-Z] but the member [toString] that the
    table inherits from [Object.prototype]. *)
Theorem getAirportCode_toString_not_iata :
  exists v,
    getAirportCode (js "toString") = Some v
    /\ v = Inherited (js "toString")
    /\ is_iata_value v = false.
Proof. exists (Inherited (js "toString")). vm_compute. repeat split. Qed.

End FlightsProps.

(** ** [GET /api/flights/search] *)

Module FlightSearchProps.

Import FlightSearch.

Lemma as_truthy_Some (v : option value) :
  truthy v = true -> exists x, v = Some x /\ as_truthy v = Some x.
Proof.
  unfold as_truthy. intros H. rewrite H.
  destruct v as [x|]; [now exists x|discriminate H].
Qed.

(** C6. Without the provider's credential pair, every request whose [from]
    and [to] are present and resolve to a code and whose [date] is present
    is answered with HTTP 200 and the mock document: [mock: true] and exactly
    three offers whose [stops] are 0, 1, 0 in this order. The provider's
    client is not called. *)
Theorem GET_mock_mode {FlightOffer Carriers Flight : Type}
    (transformFlightOffer : FlightOffer -> option Carriers -> outcome Flight)
    (searchFlights : SearchOptions -> outcome (FlightSearchResponse FlightOffer Carriers))
    (env : Env) (random150 : Z) (p : params) (from to date : jsstring) :
  isAmadeusConfigured env = false ->
  p_from p = Some from -> from <> [] ->
  p_to p = Some to -> to <> [] ->
  p_date p = Some date -> date <> [] ->
  truthy (getAirportCode from) = true ->
  truthy (getAirportCode to) = true ->
  let r := GET transformFlightOffer searchFlights env random150 p in
  status r.1 = 200%Z
  /\ r.2 = []
  /\ exists mockData,
       body r.1 = MockBody mockData
       /\ md_mock mockData = true
       /\ length (md_flights mockData) = 3%nat
       /\ List.map mf_stops (md_flights mockData) = [0; 1; 0]%Z.
Proof.
  intros Henv Hf Hfne Ht Htne Hd Hdne Ho Hdst. unfold GET.
  rewrite Hf, Ht, Hd.
  destruct from as [|f fr]; [congruence|].
  destruct to as [|t tr]; [congruence|].
  destruct date as [|d dr]; [congruence|].
  destruct (as_truthy_Some _ Ho) as (o & _ & ->).
  destruct (as_truthy_Some _ Hdst) as (dst & _ & ->).
  rewrite Henv. simpl.
  repeat split. eexists. repeat split.
Qed.

Lemma GET_mock_mode_witness :
  let r := GET (FlightOffer := unit) (Carriers := unit) (Flight := unit)
             (fun _ _ => Ok tt)
             (fun _ => Throw (js "not reached"))
             {| AMADEUS_CLIENT_ID := None; AMADEUS_CLIENT_SECRET := None |}
             17
             {| p_from := Some (js "FRA"); p_to := Some (js "MUC");
                p_date := Some (js "2026-03-01"); p_return := None;
                p_adults := None; p_class := None |} in
  status r.1 = 200%Z
  /\ r.2 = []
  /\ exists mockData,
       body r.1 = MockBody mockData
       /\ md_mock mockData = true
       /\ length (md_flights mockData) = 3%nat
       /\ List.map mf_stops (md_flights mockData) = [0; 1; 0]%Z.
Proof.
  apply (GET_mock_mode (FlightOffer := unit) (Carriers := unit) (Flight := unit)
           (fun _ _ => Ok tt) (fun _ => Throw (js "not reached"))
           {| AMADEUS_CLIENT_ID := None; AMADEUS_CLIENT_SECRET := None |} 17
           {| p_from := Some (js "FRA"); p_to := Some (js "MUC");
              p_date := Some (js "2026-03-01"); p_return := None;
              p_adults := None; p_class := None |}
           (js "FRA") (js "MUC") (js "2026-03-01"));
    try reflexivity; try (vm_compute; discriminate); vm_compute; reflexivity.
Defined.

End FlightSearchProps.

(** ** [GET /api/transport/departures] *)

Module DeparturesProps.

Import Departures Spec.

Lemma transform_platformChanged (dep : Departure) :
  platformChanged (transform dep) = true
  <-> dep_platform dep <> dep_plannedPlatform dep /\ dep_plannedPlatform dep <> None.
Proof.
  unfold transform. simpl.
  rewrite andb_true_iff, !negb_true_iff, !bool_decide_eq_false. reflexivity.
Qed.

Lemma transform_platforms (l : list Departure) :
  Forall2 (fun dep out =>
             platform out = dep_platform dep
             /\ plannedPlatform out = dep_plannedPlatform dep)
          l (List.map transform l).
Proof.
  induction l as [|dep l IH]; simpl; [constructor|].
  constructor; [split; reflexivity|exact IH].
Qed.

Lemma transform_platforms_changed (l : list Departure) :
  Forall2 (fun dep out =>
             platform out = dep_platform dep
             /\ plannedPlatform out = dep_plannedPlatform dep
             /\ (platformChanged out = true
                 <-> dep_platform dep <> dep_plannedPlatform dep
                     /\ dep_plannedPlatform dep <> None))
          l (List.map transform l).
Proof.
  induction l as [|dep l IH]; simpl; [constructor|].
  constructor; [|exact IH].
  split; [reflexivity|]. split; [reflexivity|]. apply transform_platformChanged.
Qed.

Lemma fetch_departures_spec getDepartures
      (stationId stationName : jsstring) (duration results : option Z)
      (trace : list event) :
  let r := fetch_departures getDepartures stationId stationName duration results trace in
  (exists d n, r.2 = trace ++ [GetDepartures stationId d n])
  /\ forall id name deps upd,
       body r.1 = DeparturesBody id name deps upd ->
       status r.1 = 200%Z /\ id = stationId /\ name = stationName
       /\ exists d n response,
            getDepartures stationId d n = Ok response
            /\ deps = List.map transform (departures response).
Proof.
  unfold fetch_departures.
  destruct (getDepartures stationId _ _) as [response|m] eqn:E; simpl.
  - split; [eauto|].
    intros id name deps upd H. injection H as <- <- <- <-.
    repeat split. eauto.
  - split; [eauto|]. intros id name deps upd H. discriminate H.
Qed.

(** C7. When [station] is present and is not a 7 or 8 digit token, the first
    call of the handler is the station search for that token with one result.
    An empty result gives HTTP 404 with a message that names the token, and
    nothing else is called. Otherwise the departures of the top result are
    requested, and when the provider answers, the response is the HTTP 200
    document of the top result's id and name, with one departure for each of
    the provider's, in their order; each of them carries the provider's two
    platforms and has [platformChanged = true] exactly when its platform
    differs from its planned platform and the planned platform is not null.
    Every success response is of this kind. *)
Theorem GET_resolves_station
    (searchLocations : jsstring -> Z -> outcome (list Stop))
    (getDepartures : jsstring -> option Z -> option Z -> outcome DeparturesResponse)
    (p : params) (station : jsstring) :
  p_station p = Some station -> station <> [] ->
  is_station_id station = false ->
  let r := GET searchLocations getDepartures p in
  head r.2 = Some (SearchLocations station 1)
  /\ (searchLocations station 1%Z = Ok [] ->
      r = ({| status := 404; headers := json_headers;
              body := ErrorBody (js "Station not found: " ++ station) |},
           [SearchLocations station 1]))
  /\ (forall top rest,
        searchLocations station 1%Z = Ok (top :: rest) ->
        exists d n,
          r.2 = [SearchLocations station 1; GetDepartures (stop_id top) d n]
          /\ forall response,
               getDepartures (stop_id top) d n = Ok response ->
               exists deps,
                 r.1 = {| status := 200;
                          headers := json_headers
                                     ++ [ (js "Cache-Control", js "public, max-age=30") ];
                          body := DeparturesBody (stop_id top) (stop_name top) deps
                                    (realtimeDataUpdatedAt response) |}
                 /\ Forall2 (fun dep out =>
                               platform out = dep_platform dep
                               /\ plannedPlatform out = dep_plannedPlatform dep
                               /\ (platformChanged out = true
                                   <-> dep_platform dep <> dep_plannedPlatform dep
                                       /\ dep_plannedPlatform dep <> None))
                            (departures response) deps)
  /\ (forall id name deps upd,
        body r.1 = DeparturesBody id name deps upd ->
        status r.1 = 200%Z
        /\ (exists top rest,
              searchLocations station 1%Z = Ok (top :: rest)
              /\ id = stop_id top /\ name = stop_name top)
        /\ Forall (fun out =>
                     platformChanged out = true
                     <-> platform out <> plannedPlatform out /\ plannedPlatform out <> None)
                  deps
        /\ exists d n response,
             getDepartures id d n = Ok response
             /\ Forall2 (fun dep out =>
                           platform out = dep_platform dep
                           /\ plannedPlatform out = dep_plannedPlatform dep)
                        (departures response) deps).
Proof.
  intros Hs Hne Hid. unfold GET. rewrite Hs.
  destruct station as [|c cs]; [congruence|].
  rewrite Hid. simpl negb. cbv iota.
  destruct (searchLocations (c :: cs) 1%Z) as [[|top rest]|m] eqn:E.
  - simpl. repeat split; try discriminate.
  - pose proof (fetch_departures_spec getDepartures
                  (stop_id top) (stop_name top)
                  (parseInt (or_default (p_duration p) (js "60")))
                  (parseInt (or_default (p_results p) (js "20")))
                  [SearchLocations (c :: cs) 1]) as [(d & n & Htr) Hbody].
    split; [now rewrite Htr|].
    split; [discriminate|].
    split.
    + intros top' rest' H. injection H as <- <-.
      unfold fetch_departures.
      exists (Math_min (parseInt (or_default (p_duration p) (js "60"))) 720),
             (Math_min (parseInt (or_default (p_results p) (js "20"))) 50).
      split; [destruct (getDepartures _ _ _); reflexivity|].
      intros response ->. cbn [fst].
      exists (List.map transform (departures response)). split; [reflexivity|].
      apply transform_platforms_changed.
    + intros id name deps upd H.
      destruct (Hbody id name deps upd H) as (Hst & -> & -> & d' & n' & response & Hg & ->).
      split; [exact Hst|].
      split; [now exists top, rest|].
      split.
      * apply List.Forall_forall. intros out Hin.
        apply in_map_iff in Hin as (dep & <- & _).
        apply transform_platformChanged.
      * exists d', n', response. split; [exact Hg|].
        apply transform_platforms.
  - simpl. repeat split; try discriminate.
Qed.

Lemma GET_resolves_station_witness :
  let r := GET (fun _ _ => Ok [sample_stop])
               (fun _ _ _ => Ok {| departures := [sample_departure];
                                   realtimeDataUpdatedAt := None |})
               {| p_station := Some (js "Berlin"); p_duration := None; p_results := None |} in
  head r.2 = Some (SearchLocations (js "Berlin") 1)
  /\ exists d n out,
       r.2 = [SearchLocations (js "Berlin") 1; GetDepartures (stop_id sample_stop) d n]
       /\ r.1 = {| status := 200;
                   headers := json_headers
                              ++ [ (js "Cache-Control", js "public, max-age=30") ];
                   body := DeparturesBody (stop_id sample_stop) (stop_name sample_stop)
                             [out] None |}
       /\ platformChanged out = true.
Proof.
  destruct (GET_resolves_station
              (fun _ _ => Ok [sample_stop])
              (fun _ _ _ => Ok {| departures := [sample_departure];
                                  realtimeDataUpdatedAt := None |})
              {| p_station := Some (js "Berlin"); p_duration := None; p_results := None |}
              (js "Berlin") eq_refl ltac:(vm_compute; discriminate)
              ltac:(vm_compute; reflexivity)) as (H1 & _ & H3 & _).
  split; [exact H1|].
  destruct (H3 sample_stop [] eq_refl) as (d & n & Htr & Hok).
  destruct (Hok {| departures := [sample_departure]; realtimeDataUpdatedAt := None |} eq_refl)
    as (deps & Hr & Hall).
  inversion Hall as [|dep out l1 l2 (_ & _ & Hc) Hrest]; subst.
  inversion Hrest; subst.
  exists d, n, out. split; [exact Htr|]. split; [exact Hr|].
  apply Hc. split; vm_compute; discriminate.
Defined.

End DeparturesProps.

(** ** [GET /api/connections] *)

Module ConnectionsProps.

Import Connections Spec.

Lemma CITY_COORDS_truthy (k : jsstring) :
  as_truthy (get CITY_COORDS k) = get CITY_COORDS k.
Proof. apply get_truthy. vm_compute. reflexivity. Qed.

Lemma resolveLocation_Throw (input m : jsstring) :
  resolveLocation input = Throw m <-> unknown_city input /\ m = unknown_city_message input.
Proof.
  unfold resolveLocation, unknown_city, unknown_city_message.
  rewrite CITY_COORDS_truthy.
  destruct (is_coordinates input).
  - split; [discriminate|]. intros [[H _] _]. discriminate H.
  - destruct (get CITY_COORDS (trim (toLowerCase input))) as [v|].
    + split; [discriminate|]. intros [[_ H] _]. discriminate H.
    + split.
      * intros H. injection H as <-. auto.
      * intros [_ ->]. reflexivity.
Qed.

(** C1, as the code has it. When [from] and [to] are present and the city
    lookup cannot resolve one of them, the handler answers with the message
    that names the first such input and makes no outbound call; the status
    of that answer is 500, the status of the [catch] block, not 400. *)
Theorem GET_unknown_city_status
    (formatTime : jsstring -> jsstring) (today : jsstring)
    (network : jsstring -> fetched MotisData) (p : params) (from to : jsstring) :
  p_from p = Some from -> from <> [] ->
  p_to p = Some to -> to <> [] ->
  unknown_city from \/ unknown_city to ->
  let r := GET formatTime today network p in
  status r.1 = 500%Z
  /\ r.2 = []
  /\ exists offending,
       (offending = from \/ offending = to)
       /\ unknown_city offending
       /\ body r.1 = ErrorBody (unknown_city_message offending).
Proof.
  intros Hf Hfne Ht Htne Hun. unfold GET. rewrite Hf, Ht.
  destruct from as [|f fr]; [congruence|].
  destruct to as [|t tr]; [congruence|].
  destruct (resolveLocation (f :: fr)) as [v|m] eqn:Ef.
  - assert (Hto : unknown_city (t :: tr)).
    { destruct Hun as [H|H]; [|exact H].
      assert (X : resolveLocation (f :: fr) = Throw (unknown_city_message (f :: fr)))
        by now apply resolveLocation_Throw.
      congruence. }
    assert (Et : resolveLocation (t :: tr) = Throw (unknown_city_message (t :: tr)))
      by now apply resolveLocation_Throw.
    rewrite Et. simpl. repeat split.
    exists (t :: tr). auto.
  - apply resolveLocation_Throw in Ef as [Hfrom ->].
    simpl. repeat split.
    exists (f :: fr). auto.
Qed.

Lemma GET_unknown_city_status_witness :
  let r := GET (fun s => s) (js "2026-03-01") empty_plan
               {| p_from := Some (js "Atlantis"); p_to := Some (js "Berlin");
                  p_date := None; p_time := None |} in
  status r.1 = 500%Z
  /\ r.2 = []
  /\ exists offending,
       (offending = js "Atlantis" \/ offending = js "Berlin")
       /\ unknown_city offending
       /\ body r.1 = ErrorBody (unknown_city_message offending).
Proof.
  apply (GET_unknown_city_status (fun s => s) (js "2026-03-01") empty_plan
           {| p_from := Some (js "Atlantis"); p_to := Some (js "Berlin");
              p_date := None; p_time := None |}
           (js "Atlantis") (js "Berlin")).
  - reflexivity.
  - vm_compute. discriminate.
  - reflexivity.
  - vm_compute. discriminate.
  - left. split; vm_compute; reflexivity.
Defined.

(** The answer to [GET /api/connections?from=Atlantis&to=Berlin]. *)
Example GET_Atlantis :
  GET (fun s => s) (js "2026-03-01") empty_plan
      {| p_from := Some (js "Atlantis"); p_to := Some (js "Berlin");
         p_date := None; p_time := None |}
  = ({| status := 500; headers := json_headers;
        body := ErrorBody (js "Unbekannte Stadt: Atlantis. Bitte Koordinaten angeben.") |},
     []).
Proof. vm_compute. reflexivity. Qed.

(** A name that no table holds but that every object inherits is resolved,
    and the request goes out with the rendering of the inherited member. *)
Example GET_inherited_key_goes_out :
  (GET (fun s => s) (js "2026-03-01") empty_plan
       {| p_from := Some (js "constructor"); p_to := Some (js "Berlin");
          p_date := None; p_time := Some (js "09:30") |}).2
  = [Fetch (js "https://europe.motis-project.de/api/v1/plan?fromPlace=function Object() { [native code] }&toPlace=52.5200,13.4050&time=2026-03-01T09:30:00Z&arriveBy=false")].
Proof. vm_compute. reflexivity. Qed.

End ConnectionsProps.

(** ** Case and white space in the two city lookups *)

Module LookupProps.

Import Connections Spec FlightsProps ConnectionsProps.

(** *** Case *)














(** *** Coordinate pairs *)




(** *** The coordinate lookup *)


(** *** The airport lookup *)







(** A table name that passes [airport_name_ok] is found with its own code. *)
Lemma airport_result_key (key code : jsstring) :
  In (key, code) GERMAN_AIRPORTS ->
  airport_name_ok (toLowerCase key) = true ->
  airport_result (toLowerCase key) = Some (Str code).
Proof.
  intros Hin Hok. unfold airport_name_ok in Hok.
  apply andb_true_iff in Hok as [_ Hone].
  pose proof (proj1 (List.forallb_forall _ _) Hone _ Hin) as Hc. simpl in Hc.
  unfold partial_match in Hc at 1. simpl in Hc.
  rewrite includes_refl in Hc.
  simpl in Hc. now apply bool_decide_eq_true in Hc.
Qed.

(** *** Both lookups *)






Lemma all_space_nil : all_space [].
Proof. reflexivity. Qed.







End LookupProps.

(** * Further properties *)

(** ** The in-memory cache: failures, requests, eviction *)

Module CacheMore.

Import Spec.

Section Cache.

Context {T : Type}.

Implicit Types (cache : gmap jsstring (T * Z)) (w : world T) (url : jsstring).

(** X1. A call of [fetchWithCache] that throws has sent exactly one request
    and leaves the cache as it was: a rejected request, a response that is
    not [ok] and a body that does not parse store nothing, and an entry that
    was there, valid or not, is still there. *)
Theorem fetchWithCache_throw_keeps_cache url ttl w cache (m : jsstring) :
  (fetchWithCache url ttl w cache).1.1 = Throw m ->
  (fetchWithCache url ttl w cache).1.2 = cache
  /\ (fetchWithCache url ttl w cache).2 = [Fetch url].
Proof.
  unfold fetchWithCache.
  destruct (cache !! url) as [[d e]|];
    [destruct (now_read w <? e)%Z; [discriminate|]|];
    (destruct (reply w) as [m'|[|] st txt [data|m']]; simpl;
     first [discriminate | intros _; split; reflexivity]).
Qed.

(** X2. A call sends no request exactly when the cache holds an entry for the
    URL whose expiry lies after the clock reading; in every other case it
    sends exactly one request, for that URL. *)
Theorem fetchWithCache_requests url ttl w cache :
  ((fetchWithCache url ttl w cache).2 = []
   <-> exists data expires,
         cache !! url = Some (data, expires) /\ (now_read w < expires)%Z)
  /\ ((fetchWithCache url ttl w cache).2 = []
      \/ (fetchWithCache url ttl w cache).2 = [Fetch url]).
Proof.
  unfold fetchWithCache.
  destruct (cache !! url) as [[d e]|].
  - destruct (Z.ltb_spec (now_read w) e).
    + split; [|now left]. split; [intros _; now exists d, e|reflexivity].
    + split.
      * split.
        -- destruct (reply w) as [m'|[|] st txt [data|m']]; discriminate.
        -- intros (d' & e' & E & Hlt). injection E as <- <-. lia.
      * right. destruct (reply w) as [m'|[|] st txt [data|m']]; reflexivity.
  - split.
    + split.
      * destruct (reply w) as [m'|[|] st txt [data|m']]; discriminate.
      * intros (d' & e' & E & _). discriminate E.
    + right. destruct (reply w) as [m'|[|] st txt [data|m']]; reflexivity.
Qed.

Lemma fetchWithCache_other url ttl w cache (K : jsstring) :
  url <> K -> (fetchWithCache url ttl w cache).1.2 !! K = cache !! K.
Proof.
  intros Hne. unfold fetchWithCache.
  destruct (cache !! url) as [[d e]|];
    [destruct (now_read w <? e)%Z; [reflexivity|]|];
    (destruct (reply w) as [m'|[|] st txt [data|m']]; simpl;
     first [reflexivity | now rewrite lookup_insert_ne]).
Qed.

Lemma fetchWithCache_keeps_key url ttl w cache (K : jsstring) :
  is_Some (cache !! K) -> is_Some ((fetchWithCache url ttl w cache).1.2 !! K).
Proof.
  intros HK. destruct (decide (url = K)) as [->|Hne].
  - unfold fetchWithCache.
    destruct (cache !! K) as [[d e]|] eqn:E;
      [destruct (now_read w <? e)%Z; [simpl; rewrite E; eauto|]|];
      (destruct (reply w) as [m'|[|] st txt [data|m']]; simpl;
       first [now rewrite E | rewrite lookup_insert_eq; eauto | exact HK]).
  - now rewrite fetchWithCache_other.
Qed.

(** X3. The cache never evicts: whatever calls are made, a URL that has an
    entry keeps having one, and the entry of a URL that none of the calls
    asks for is not touched. *)
Theorem run_never_evicts (calls : list (call T)) cache (K : jsstring) :
  (is_Some (cache !! K) -> is_Some (run calls cache !! K))
  /\ (Forall (fun k => call_url k <> K) calls -> run calls cache !! K = cache !! K).
Proof.
  split.
  - revert cache. induction calls as [|k r IH]; intros cache HK; [exact HK|].
    unfold run. simpl. apply IH. now apply fetchWithCache_keeps_key.
  - intros Hall. revert cache.
    induction Hall as [|k r Hk _ IH]; intros cache; [reflexivity|].
    unfold run. simpl. unfold run in IH. rewrite IH.
    now apply fetchWithCache_other.
Qed.

End Cache.

Lemma fetchWithCache_throw_keeps_cache_witness :
  let K := js "https://v6.db.transport.rest/stops/8011160" in
  let w := {| now_read := 5000; reply := Replied false 503 (js "Service Unavailable")
                                                (Ok (js "ignored"));
              now_write := 5001 |} in
  let cache := <[K := (js "old", 4000%Z)]> ∅ in
  (fetchWithCache K 60000 w cache).1.2 = cache
  /\ (fetchWithCache K 60000 w cache).2 = [Fetch K].
Proof.
  intros K w cache.
  apply (fetchWithCache_throw_keeps_cache K 60000 w cache
           (js "DB API Error: 503 Service Unavailable")).
  vm_compute. reflexivity.
Defined.

Lemma run_never_evicts_witness :
  let K := js "https://v6.db.transport.rest/stops/8011160" in
  let other := js "https://v6.db.transport.rest/stops/8000261" in
  let calls := [ {| call_url := other; call_ttl := 60000;
                    call_world := answering 99000 (js "Q") |} ] in
  let cache := <[K := (js "P", 4000%Z)]> ∅ in
  is_Some (run calls cache !! K) /\ run calls cache !! K = cache !! K.
Proof.
  intros K other calls cache.
  destruct (run_never_evicts calls cache K) as [A B].
  split.
  - apply A. subst cache. rewrite lookup_insert_eq. eauto.
  - apply B. repeat constructor. vm_compute. discriminate.
Defined.

End CacheMore.

(** ** [GET /api/connections]: parameters, requests, the success document *)

Module ConnectionsMore.

Import Connections Spec.

Lemma spread_set_acc (l acc : list jsstring) :
  NoDup acc ->
  NoDup (fold_left (fun acc x => if existsb (str_eqb x) acc then acc else acc ++ [x]) l acc)
  /\ forall m,
       In m (fold_left (fun acc x => if existsb (str_eqb x) acc then acc else acc ++ [x]) l acc)
       <-> In m acc \/ In m l.
Proof.
  revert acc. induction l as [|x l IH]; intros acc Hacc; simpl.
  - split; [exact Hacc|]. intros m. tauto.
  - destruct (existsb (str_eqb x) acc) eqn:E.
    + destruct (IH acc Hacc) as [N M]. split; [exact N|].
      intros m. rewrite M.
      apply List.existsb_exists in E as (y & Hy & Exy).
      unfold str_eqb in Exy. apply bool_decide_eq_true in Exy. subst y.
      split; [tauto|]. intros [H|[<-|H]]; auto.
    + assert (Hx : ~ In x acc).
      { intros Hin. assert (X : existsb (str_eqb x) acc = true).
        { apply List.existsb_exists. exists x. split; [exact Hin|].
          unfold str_eqb. now apply bool_decide_eq_true. }
        congruence. }
      assert (Hnd : NoDup (acc ++ [x])).
      { apply NoDup_ListNoDup. apply List.NoDup_app_remove_l with (l := []).
        simpl. apply List.NoDup_app; [now apply NoDup_ListNoDup| |].
        - repeat constructor. intros [].
        - intros y Hy [<-|[]]. contradiction. }
      destruct (IH (acc ++ [x]) Hnd) as [N M]. split; [exact N|].
      intros m. rewrite M, List.in_app_iff. simpl. tauto.
Qed.

(** X4. In every connection of the answer, [verkehrsmittel] lists each
    transport mode of the itinerary's legs exactly once and never ["WALK"],
    and [stationen] has one entry per leg, walking legs included. *)
Theorem transform_verkehrsmittel (formatTime : jsstring -> jsstring) (it : MotisItinerary) :
  NoDup (verkehrsmittel (transform formatTime it))
  /\ (forall m, In m (verkehrsmittel (transform formatTime it))
                <-> m <> js "WALK" /\ exists l, In l (it_legs it) /\ leg_mode l = m)
  /\ length (stationen (transform formatTime it)) = length (it_legs it).
Proof.
  unfold transform. simpl. unfold spread_set.
  destruct (spread_set_acc
              (List.map leg_mode
                 (List.filter (fun l => negb (str_eqb (leg_mode l) (js "WALK"))) (it_legs it)))
              [] NoDup_nil_2) as [N M].
  split; [exact N|]. split; [|apply List.length_map].
  intros m. rewrite M. simpl. rewrite List.in_map_iff. split.
  - intros [[]|(l & <- & Hl)]. apply List.filter_In in Hl as [Hl Hw].
    apply negb_true_iff in Hw. unfold str_eqb in Hw. apply bool_decide_eq_false in Hw.
    split; [exact Hw|]. now exists l.
  - intros (Hw & l & Hl & <-). right. exists l. split; [reflexivity|].
    apply List.filter_In. split; [exact Hl|].
    apply negb_true_iff. unfold str_eqb. now apply bool_decide_eq_false.
Qed.

(** When [from] or [to] is missing or empty the answer is HTTP 400 with
    the fixed message, whatever the other parameters are, and nothing is
    fetched. *)
Theorem GET_missing_parameter
    (formatTime : jsstring -> jsstring) (today : jsstring)
    (network : jsstring -> fetched MotisData) (p : params) :
  missing (p_from p) = true \/ missing (p_to p) = true ->
  GET formatTime today network p
  = ({| status := 400; headers := json_headers;
        body := ErrorBody (js "Parameter " ++ quoted (js "from") ++ js " und "
                             ++ quoted (js "to") ++ js " sind erforderlich") |}, []).
Proof.
  unfold GET, missing.
  destruct (p_from p) as [[|f fr]|], (p_to p) as [[|t tr]|]; intros [H|H];
    first [discriminate H | reflexivity].
Qed.

Lemma GET_missing_parameter_witness :
  (GET (fun s => s) (js "2026-03-01") empty_plan
       {| p_from := Some (js "Berlin"); p_to := Some []; p_date := None; p_time := None |}).2
  = [].
Proof.
  rewrite (GET_missing_parameter (fun s => s) (js "2026-03-01") empty_plan
             {| p_from := Some (js "Berlin"); p_to := Some [];
                p_date := None; p_time := None |} (or_intror eq_refl)).
  reflexivity.
Defined.

(** X5. A request causes at most one outbound call, and the status is 200,
    400 or 500. A 200 answer comes from exactly one call that the planner
    answered with a parsed body; it repeats [from] and [to] as they were
    sent, gives the [date] parameter or, without one, today, and holds at most
    five connections, [anzahl] being their number. *)
Theorem GET_success_document
    (formatTime : jsstring -> jsstring) (today : jsstring)
    (network : jsstring -> fetched MotisData) (p : params) :
  let r := GET formatTime today network p in
  (length r.2 <= 1)%nat
  /\ (status r.1 = 200%Z \/ status r.1 = 400%Z \/ status r.1 = 500%Z)
  /\ (status r.1 = 200%Z ->
      exists url st txt data conns,
        r.2 = [Fetch url]
        /\ network url = Replied true st txt (Ok data)
        /\ body r.1 = ConnectionsBody (default [] (p_from p)) (default [] (p_to p))
                        (or_default (p_date p) today)
                        (Z.of_nat (length conns)) conns
        /\ (length conns <= 5)%nat
        /\ length conns = Nat.min 5 (length (default [] (itineraries data)))).
Proof.
  unfold GET.
  destruct (p_from p) as [[|f fr]|]; try (simpl; repeat split; auto; discriminate).
  destruct (p_to p) as [[|t tr]|]; try (simpl; repeat split; auto; discriminate).
  destruct (resolveLocation (f :: fr)) as [fc|m];
    [|simpl; repeat split; auto; discriminate].
  destruct (resolveLocation (t :: tr)) as [tc|m];
    [|simpl; repeat split; auto; discriminate].
  set (url := MOTIS_BASE_URL ++ _).
  destruct (network url) as [m|[|] st txt [data|m]] eqn:E;
    try (simpl; repeat split; auto; discriminate).
  split; [simpl; lia|]. split; [simpl; auto|]. intros _.
  exists url, st, txt, data.
  eexists. split; [reflexivity|]. split; [exact E|]. split; [reflexivity|].
  destruct (itineraries data) as [its|].
  - rewrite List.length_map, List.length_firstn.
    change (default [] (Some its)) with its. split; lia.
  - simpl. split; lia.
Qed.

Lemma GET_success_document_witness :
  let r := GET (fun s => s) (js "2026-03-01") empty_plan
               {| p_from := Some (js "Hamburg"); p_to := Some (js "München");
                  p_date := None; p_time := None |} in
  exists url conns,
    r.2 = [Fetch url]
    /\ body r.1 = ConnectionsBody (js "Hamburg") (js "München") (js "2026-03-01")
                    (Z.of_nat (length conns)) conns
    /\ (length conns <= 5)%nat.
Proof.
  intros r.
  destruct (GET_success_document (fun s => s) (js "2026-03-01") empty_plan
              {| p_from := Some (js "Hamburg"); p_to := Some (js "München");
                 p_date := None; p_time := None |}) as (_ & _ & H).
  destruct H as (url & st & txt & data & conns & A & _ & B & C & _);
    [vm_compute; reflexivity|].
  exists url, conns. repeat split; assumption.
Defined.

(** X6. When both places resolve, every failure of the upstream call gives
    HTTP 500 after exactly one request, and the body carries the failure's own
    message: the rejection's, ["MOTIS API Fehler: <status>"] for a response
    that is not [ok], or that of the body that did not parse. *)
Theorem GET_upstream_failure
    (formatTime : jsstring -> jsstring) (today : jsstring)
    (network : jsstring -> fetched MotisData) (p : params)
    (from to : jsstring) (fromCoords toCoords : value) :
  p_from p = Some from -> from <> [] -> p_to p = Some to -> to <> [] ->
  resolveLocation from = Ok fromCoords -> resolveLocation to = Ok toCoords ->
  let url := MOTIS_BASE_URL ++ js "/plan?fromPlace=" ++ to_string fromCoords
               ++ js "&toPlace=" ++ to_string toCoords
               ++ js "&time=" ++ (or_default (p_date p) today ++ js "T"
                                  ++ or_default (p_time p) (js "10:00") ++ js ":00Z")
               ++ js "&arriveBy=false" in
  let r := GET formatTime today network p in
  r.2 = [Fetch url]
  /\ (forall m, network url = Rejected m ->
                r.1 = {| status := 500; headers := json_headers; body := ErrorBody m |})
  /\ (forall st txt json, network url = Replied false st txt json ->
                r.1 = {| status := 500; headers := json_headers;
                         body := ErrorBody (js "MOTIS API Fehler: " ++ Z_to_js st) |})
  /\ (forall st txt m, network url = Replied true st txt (Throw m) ->
                r.1 = {| status := 500; headers := json_headers; body := ErrorBody m |}).
Proof.
  intros Hf Hfne Ht Htne Rf Rt url r. subst r. unfold GET.
  rewrite Hf, Ht.
  destruct from as [|f fr]; [congruence|]. destruct to as [|t tr]; [congruence|].
  rewrite Rf, Rt. fold url.
  destruct (network url) as [m|[|] st txt [data|m]];
    cbn [fst snd negb]; unfold on_error;
    (split; [reflexivity|]); repeat split; intros; try discriminate; congruence.
Qed.

Lemma GET_upstream_failure_witness :
  (GET (fun s => s) (js "2026-03-01")
       (fun _ => Replied false 502 (js "Bad Gateway") (Throw []))
       {| p_from := Some (js "Hamburg"); p_to := Some (js "53.0793,8.8017");
          p_date := Some (js "2026-04-02"); p_time := None |}).1
  = {| status := 500; headers := json_headers;
       body := ErrorBody (js "MOTIS API Fehler: 502") |}.
Proof.
  destruct (GET_upstream_failure (fun s => s) (js "2026-03-01")
              (fun _ => Replied false 502 (js "Bad Gateway") (Throw []))
              {| p_from := Some (js "Hamburg"); p_to := Some (js "53.0793,8.8017");
                 p_date := Some (js "2026-04-02"); p_time := None |}
              (js "Hamburg") (js "53.0793,8.8017")
              (Str (js "53.5511,9.9937")) (Str (js "53.0793,8.8017")))
    as (_ & _ & H & _);
    [ reflexivity | vm_compute; discriminate | reflexivity | vm_compute; discriminate
    | vm_compute; reflexivity | vm_compute; reflexivity | ].
  exact (H 502%Z (js "Bad Gateway") (Throw []) eq_refl).
Defined.

End ConnectionsMore.

(** ** [GET /api/flights/search]: validation, provider failures, mock prices *)

Module FlightSearchMore.

Import FlightSearch.

Section Handler.

Context {FlightOffer Carriers Flight : Type}.
Variable transformFlightOffer : FlightOffer -> option Carriers -> outcome Flight.
Variable searchFlights : SearchOptions -> outcome (FlightSearchResponse FlightOffer Carriers).
Variable env : Env.
Variable random150 : Z.

(** X7. Validation comes before every lookup and call, in this order: a
    missing or empty [from], [to] or [date] gives HTTP 400 with the fixed
    message; else an origin that does not resolve gives HTTP 400 that names
    [from], also when the destination does not resolve either; else a
    destination that does not resolve gives HTTP 400 that names [to]. None of
    the three calls the provider, credentials or not. *)
Theorem GET_validation (p : params) :
  let r := GET transformFlightOffer searchFlights env random150 p in
  (missing (p_from p) = true \/ missing (p_to p) = true \/ missing (p_date p) = true ->
   r = (bad_request Flight
          (js "Parameters " ++ quoted (js "from") ++ js ", " ++ quoted (js "to")
             ++ js ", and " ++ quoted (js "date") ++ js " are required"), []))
  /\ (forall from to date,
        p_from p = Some from -> from <> [] -> p_to p = Some to -> to <> [] ->
        p_date p = Some date -> date <> [] ->
        (as_truthy (getAirportCode from) = None ->
         r = (bad_request Flight
                (js "Unknown origin airport: " ++ from
                   ++ js ". Use IATA code (e.g., FRA, MUC)."), []))
        /\ (as_truthy (getAirportCode from) <> None ->
            as_truthy (getAirportCode to) = None ->
            r = (bad_request Flight
                   (js "Unknown destination airport: " ++ to
                      ++ js ". Use IATA code (e.g., FRA, MUC)."), []))).
Proof.
  unfold GET. split.
  - unfold missing.
    destruct (p_from p) as [[|f fr]|], (p_to p) as [[|t tr]|],
             (p_date p) as [[|d dr]|];
      intros [H|[H|H]]; first [discriminate H | reflexivity].
  - intros from to date Hf Hfne Ht Htne Hd Hdne. rewrite Hf, Ht, Hd.
    destruct from as [|f fr]; [congruence|].
    destruct to as [|t tr]; [congruence|].
    destruct date as [|d dr]; [congruence|].
    split.
    + intros ->. reflexivity.
    + intros Ho ->. destruct (as_truthy (getAirportCode (f :: fr))); [reflexivity|congruence].
Qed.

(** X8. With credentials, a request that passes validation calls the provider
    exactly once, for at most 10 offers. When the call throws, or an offer
    cannot be transformed, the error's message decides: a message that
    contains ["credentials"] gives HTTP 200 with the mock document, any other
    message gives HTTP 500 with the fixed text ["Failed to search flights"],
    which does not repeat the message. *)
Theorem GET_provider_failure (p : params) (from to date : jsstring) (o dst : value) :
  isAmadeusConfigured env = true ->
  p_from p = Some from -> from <> [] -> p_to p = Some to -> to <> [] ->
  p_date p = Some date -> date <> [] ->
  as_truthy (getAirportCode from) = Some o ->
  as_truthy (getAirportCode to) = Some dst ->
  let r := GET transformFlightOffer searchFlights env random150 p in
  exists options,
    r.2 = [SearchFlights options]
    /\ so_origin options = o /\ so_destination options = dst
    /\ so_departureDate options = date /\ so_maxResults options = 10%Z
    /\ forall m,
         (searchFlights options = Throw m
          \/ exists response, searchFlights options = Ok response
                              /\ map_offers _ _ _ transformFlightOffer
                                            (carriers _ _ response)
                                            (data _ _ response) = Throw m) ->
         (includes m (js "credentials") = true ->
          r.1 = {| status := 200; headers := json_headers;
                   body := MockBody (getMockFlights random150 o dst date) |})
         /\ (includes m (js "credentials") = false ->
             r.1 = {| status := 500; headers := json_headers;
                      body := ErrorBody (js "Failed to search flights") |}).
Proof.
  intros Henv Hf Hfne Ht Htne Hd Hdne Ho Hdst. unfold GET.
  rewrite Hf, Ht, Hd.
  destruct from as [|f fr]; [congruence|].
  destruct to as [|t tr]; [congruence|].
  destruct date as [|d dr]; [congruence|].
  rewrite Ho, Hdst, Henv. cbn [negb].
  eexists. split.
  - destruct (searchFlights _) as [response|m] eqn:E; [|reflexivity].
    destruct (map_offers _ _ _ _ _ _) as [fl|m]; reflexivity.
  - repeat (split; [reflexivity|]).
    intros m [E|(response & E & E')]; rewrite E; [|rewrite E'];
      cbn [fst]; unfold on_error;
      (split; intros ->; reflexivity).
Qed.

End Handler.

Lemma GET_validation_witness :
  (GET (FlightOffer := unit) (Carriers := unit) (Flight := unit)
       (fun _ _ => Ok tt) (fun _ => Ok {| data := []; carriers := None |})
       {| AMADEUS_CLIENT_ID := Some (js "id"); AMADEUS_CLIENT_SECRET := Some (js "secret") |}
       0
       {| p_from := Some (js "Atlantis"); p_to := Some (js "El Dorado");
          p_date := Some (js "2026-03-01"); p_return := None;
          p_adults := None; p_class := None |}).1
  = {| status := 400; headers := json_headers;
       body := ErrorBody
                 (js "Unknown origin airport: Atlantis. Use IATA code (e.g., FRA, MUC).") |}.
Proof.
  destruct (GET_validation (FlightOffer := unit) (Carriers := unit) (Flight := unit)
              (fun _ _ => Ok tt) (fun _ => Ok {| data := []; carriers := None |})
              {| AMADEUS_CLIENT_ID := Some (js "id");
                 AMADEUS_CLIENT_SECRET := Some (js "secret") |}
              0
              {| p_from := Some (js "Atlantis"); p_to := Some (js "El Dorado");
                 p_date := Some (js "2026-03-01"); p_return := None;
                 p_adults := None; p_class := None |}) as [_ H].
  destruct (H (js "Atlantis") (js "El Dorado") (js "2026-03-01")) as [A _];
    [ reflexivity | vm_compute; discriminate | reflexivity | vm_compute; discriminate
    | reflexivity | vm_compute; discriminate | ].
  rewrite A; vm_compute; reflexivity.
Defined.

Lemma GET_provider_failure_witness :
  (GET (FlightOffer := unit) (Carriers := unit) (Flight := unit)
       (fun _ _ => Ok tt) (fun _ => Throw (js "Invalid client credentials"))
       {| AMADEUS_CLIENT_ID := Some (js "id"); AMADEUS_CLIENT_SECRET := Some (js "secret") |}
       17
       {| p_from := Some (js "FRA"); p_to := Some (js "Hamburg");
          p_date := Some (js "2026-03-01"); p_return := None;
          p_adults := None; p_class := None |}).1
  = {| status := 200; headers := json_headers;
       body := MockBody (getMockFlights 17 (Str (js "FRA")) (Str (js "HAM"))
                           (js "2026-03-01")) |}.
Proof.
  destruct (GET_provider_failure (FlightOffer := unit) (Carriers := unit) (Flight := unit)
              (fun _ _ => Ok tt) (fun _ => Throw (js "Invalid client credentials"))
              {| AMADEUS_CLIENT_ID := Some (js "id");
                 AMADEUS_CLIENT_SECRET := Some (js "secret") |}
              17
              {| p_from := Some (js "FRA"); p_to := Some (js "Hamburg");
                 p_date := Some (js "2026-03-01"); p_return := None;
                 p_adults := None; p_class := None |}
              (js "FRA") (js "Hamburg") (js "2026-03-01")
              (Str (js "FRA")) (Str (js "HAM")))
    as (options & _ & _ & _ & _ & _ & H);
    [ reflexivity | reflexivity | vm_compute; discriminate | reflexivity
    | vm_compute; discriminate | reflexivity | vm_compute; discriminate
    | vm_compute; reflexivity | vm_compute; reflexivity | ].
  destruct (H (js "Invalid client credentials") (or_introl eq_refl)) as [A _].
  apply A. vm_compute. reflexivity.
Defined.

(** X9. For a random draw [0 <= random150 < 150] the three mock offers cost
    between 30 and 229 EUR: the first between 50 and 199, the second 20 less,
    the third 30 more. Every offer leaves from [from] and arrives at [to] on
    the day [date], and the document is flagged [mock]. *)
Theorem getMockFlights_prices (random150 : Z) (from to : value) (date : jsstring) :
  (0 <= random150 < 150)%Z ->
  let doc := getMockFlights random150 from to date in
  md_mock doc = true
  /\ (exists p1, List.map mf_price (md_flights doc) = [p1; p1 - 20; p1 + 30]%Z
                 /\ (50 <= p1 <= 199)%Z)
  /\ Forall (fun f => (30 <= mf_price f <= 229)%Z
                      /\ ep_airport (mf_departure f) = from
                      /\ ep_airport (mf_arrival f) = to
                      /\ startsWith (ep_time (mf_departure f)) date = true
                      /\ startsWith (ep_time (mf_arrival f)) date = true)
            (md_flights doc).
Proof.
  intros Hr doc. subst doc. unfold getMockFlights. cbn [md_mock md_flights List.map mf_price].
  split; [reflexivity|]. split.
  - exists (random150 + 50)%Z. split; [reflexivity|lia].
  - assert (S : forall x, startsWith (date ++ x) date = true)
      by (intros x; apply JsProps.startsWith_spec; now exists x).
    repeat constructor; cbn; try lia; apply S.
Qed.

Lemma getMockFlights_prices_witness :
  List.map mf_price
    (md_flights (getMockFlights 149 (Str (js "FRA")) (Str (js "MUC")) (js "2026-03-01")))
  = [199; 179; 229]%Z.
Proof.
  destruct (getMockFlights_prices 149 (Str (js "FRA")) (Str (js "MUC")) (js "2026-03-01"))
    as (_ & (p1 & E & _) & _); [lia|].
  vm_compute. reflexivity.
Defined.

End FlightSearchMore.

(** ** [GET /api/transport/departures]: station ids, limits, errors, delays *)

Module DeparturesMore.

Import Departures Spec.

Section Handler.

Variable searchLocations : jsstring -> Z -> outcome (list Stop).
Variable getDepartures : jsstring -> option Z -> option Z -> outcome DeparturesResponse.

(** X10. A [station] of 7 or 8 digits is used as the station id as it is: no
    station search is made, the only call is the one for the departures of
    that id, and a success response names the station by the id itself. *)
Theorem GET_numeric_station (p : params) (station : jsstring) :
  p_station p = Some station ->
  is_station_id station = true ->
  let r := GET searchLocations getDepartures p in
  (exists d n, r.2 = [GetDepartures station d n])
  /\ forall id name deps upd,
       body r.1 = DeparturesBody id name deps upd -> id = station /\ name = station.
Proof.
  intros Hs Hid. unfold GET. rewrite Hs.
  destruct station as [|c cs]; [discriminate Hid|].
  rewrite Hid. cbn [negb]. unfold fetch_departures.
  destruct (getDepartures _ _ _) as [response|m]; cbn [fst snd app body].
  - split; [eauto|]. intros id name deps upd H. injection H as <- <- _ _. now split.
  - split; [eauto|]. intros id name deps upd H. discriminate H.
Qed.

Lemma Math_min_le (a : option Z) (b x : Z) : Math_min a b = Some x -> (x <= b)%Z.
Proof. destruct a as [y|]; simpl; [|discriminate]. intros H. injection H as <-. lia. Qed.

(** X11. Whatever [duration] and [results] the request carries, a call for
    departures asks for a window of at most 720 minutes and for at most 50
    results; without the parameters it asks for 60 minutes and 20 results.
    A parameter that is no number is passed on as [NaN]. *)
Theorem GET_limits (p : params) :
  let r := GET searchLocations getDepartures p in
  forall id d n,
    In (GetDepartures id d n) r.2 ->
    d = Math_min (parseInt (or_default (p_duration p) (js "60"))) 720
    /\ n = Math_min (parseInt (or_default (p_results p) (js "20"))) 50
    /\ (forall x, d = Some x -> (x <= 720)%Z)
    /\ (forall y, n = Some y -> (y <= 50)%Z)
    /\ (missing (p_duration p) = true -> d = Some 60%Z)
    /\ (missing (p_results p) = true -> n = Some 20%Z).
Proof.
  intros r id d n Hin.
  assert (E : d = Math_min (parseInt (or_default (p_duration p) (js "60"))) 720
              /\ n = Math_min (parseInt (or_default (p_results p) (js "20"))) 50).
  { subst r. unfold GET, fetch_departures in Hin.
    destruct (p_station p) as [[|c cs]|]; try (destruct Hin).
    destruct (is_station_id (c :: cs)); cbn [negb] in Hin.
    - destruct (getDepartures _ _ _); cbn [snd app] in Hin;
        destruct Hin as [H|[]]; injection H as _ <- <-; now split.
    - destruct (searchLocations _ _) as [[|top rest]|m]; cbn [snd] in Hin.
      + destruct Hin as [H|[]]; discriminate H.
      + destruct (getDepartures _ _ _); cbn [snd app] in Hin;
          destruct Hin as [H|[H|[]]]; try discriminate H;
          injection H as _ <- <-; now split.
      + destruct Hin as [H|[]]; discriminate H. }
  destruct E as [Ed En]. split; [exact Ed|]. split; [exact En|].
  split; [|split; [|split]].
  - intros x Hx. rewrite Hx in Ed. symmetry in Ed. now apply Math_min_le in Ed.
  - intros y Hy. rewrite Hy in En. symmetry in En. now apply Math_min_le in En.
  - intros Hm. rewrite Ed. unfold missing in Hm.
    destruct (p_duration p) as [[|? ?]|]; try discriminate Hm; vm_compute; reflexivity.
  - intros Hm. rewrite En. unfold missing in Hm.
    destruct (p_results p) as [[|? ?]|]; try discriminate Hm; vm_compute; reflexivity.
Qed.

(** X12. The status is 200, 400, 404 or 500 and at most two calls are made.
    A missing or empty [station] gives 400 before any call. When the station
    search throws, or the departures call that the handler makes throws, the
    answer is HTTP 500 with the fixed text ["Failed to fetch departures"],
    and nothing is called after it: the message of the error is not passed
    on. Every HTTP 500 comes from such an exception of the last call. *)
Theorem GET_errors (p : params) :
  let r := GET searchLocations getDepartures p in
  (status r.1 = 200%Z \/ status r.1 = 400%Z \/ status r.1 = 404%Z \/ status r.1 = 500%Z)
  /\ (length r.2 <= 2)%nat
  /\ (missing (p_station p) = true -> status r.1 = 400%Z /\ r.2 = [])
  /\ (forall station m,
        p_station p = Some station -> station <> [] ->
        is_station_id station = false ->
        searchLocations station 1%Z = Throw m ->
        r = ({| status := 500; headers := json_headers;
                body := ErrorBody (js "Failed to fetch departures") |},
             [SearchLocations station 1]))
  /\ (forall id d n m,
        In (GetDepartures id d n) r.2 ->
        getDepartures id d n = Throw m ->
        r.1 = {| status := 500; headers := json_headers;
                 body := ErrorBody (js "Failed to fetch departures") |}
        /\ last r.2 = Some (GetDepartures id d n))
  /\ (status r.1 = 500%Z ->
      r.1 = {| status := 500; headers := json_headers;
               body := ErrorBody (js "Failed to fetch departures") |}
      /\ exists m,
           (exists q, last r.2 = Some (SearchLocations q 1)
                      /\ searchLocations q 1%Z = Throw m)
           \/ (exists id d n, last r.2 = Some (GetDepartures id d n)
                              /\ getDepartures id d n = Throw m)).
Proof.
  unfold GET, fetch_departures, missing.
  destruct (p_station p) as [[|c cs]|].
  - cbn [fst snd status length]. split; [auto|]. split; [lia|].
    split; [intros _; split; reflexivity|].
    split; [intros station m H; injection H as <-; congruence|].
    split; [intros id d n m []|discriminate].
  - destruct (is_station_id (c :: cs)) eqn:Hid; cbn [negb].
    + destruct (getDepartures _ _ _) as [response|m] eqn:E;
        cbn [fst snd status length app].
      * split; [auto|]. split; [lia|]. split; [discriminate|].
        split; [intros station m H; injection H as <-; congruence|].
        split; [|discriminate].
        intros id d n m [H|[]]. injection H as <- <- <-. congruence.
      * split; [auto|]. split; [lia|]. split; [discriminate|].
        split; [intros station m' H; injection H as <-; congruence|].
        split.
        -- intros id d n m' [H|[]]. injection H as <- <- <-. intros _.
           split; reflexivity.
        -- intros _. split; [reflexivity|].
           exists m. right. do 3 eexists. split; [reflexivity|exact E].
    + destruct (searchLocations _ _) as [[|top rest]|m] eqn:E; cbn [fst snd].
      * cbn [fst snd status length]. split; [auto|]. split; [lia|].
        split; [discriminate|].
        split; [intros station m H; injection H as <-; congruence|].
        split; [|discriminate].
        intros id d n m [H|[]]. discriminate H.
      * destruct (getDepartures _ _ _) as [response|m] eqn:E';
          cbn [fst snd status length app].
        -- split; [auto|]. split; [lia|]. split; [discriminate|].
           split; [intros station m H; injection H as <-; congruence|].
           split; [|discriminate].
           intros id d n m [H|[H|[]]]; [discriminate H|].
           injection H as <- <- <-. congruence.
        -- split; [auto|]. split; [lia|]. split; [discriminate|].
           split; [intros station m' H; injection H as <-; congruence|].
           split.
           ++ intros id d n m' [H|[H|[]]]; [discriminate H|].
              injection H as <- <- <-. intros _. split; reflexivity.
           ++ intros _. split; [reflexivity|].
              exists m. right. do 3 eexists. split; [reflexivity|exact E'].
      * cbn [fst snd status length]. split; [auto 6|]. split; [lia|].
        split; [discriminate|].
        split; [intros station m' H _ _ _; injection H as <-; reflexivity|].
        split.
        -- intros id d n m' [H|[]]. discriminate H.
        -- intros _. split; [reflexivity|].
           exists m. left. eexists. split; [reflexivity|exact E].
  - cbn [fst snd status length]. split; [auto|]. split; [lia|].
    split; [intros _; split; reflexivity|].
    split; [intros station m H; discriminate H|].
    split; [intros id d n m []|discriminate].
Qed.

End Handler.

(** X13. In a departure of the answer, [cancelled] is true exactly when the
    provider gives no actual time. The delay text is empty and
    [delayMinutes] is 0 when the delay is 0, [null] or [undefined]; for any
    other delay the text is [delayMinutes], the delay in minutes rounded to
    the nearest, followed by [" min"], with a ['+'] when it is positive. *)
Theorem transform_delay (dep : Departure) :
  (cancelled (transform dep) = true <-> time (transform dep) = None)
  /\ time (transform dep) = dep_when dep
  /\ (dep_delay dep = Null \/ dep_delay dep = Undefined \/ dep_delay dep = Num 0 ->
      delay (transform dep) = [] /\ delayMinutes (transform dep) = 0%Z)
  /\ (forall n, dep_delay dep = Num n -> n <> 0%Z ->
      nearest (delayMinutes (transform dep)) n 60
      /\ delay (transform dep)
         = (if (0 <? delayMinutes (transform dep))%Z then js "+" else [])
             ++ Z_to_js (delayMinutes (transform dep)) ++ js " min").
Proof.
  unfold transform. cbn [cancelled time delay delayMinutes].
  split; [apply bool_decide_eq_true|]. split; [reflexivity|]. split.
  - intros [->|[->| ->]]; split; reflexivity.
  - intros n -> Hn.
    destruct (Z.eqb_spec n 0); [contradiction|].
    split; [apply TransportProps.round_div_nearest; lia|].
    now apply TransportProps.formatDelay_nonzero.
Qed.

Lemma GET_numeric_station_witness :
  (GET (fun _ _ => Throw (js "not asked"))
       (fun _ _ _ => Ok {| departures := [sample_departure];
                           realtimeDataUpdatedAt := None |})
       {| p_station := Some (js "8011160"); p_duration := Some (js "9999");
          p_results := None |}).2
  = [GetDepartures (js "8011160") (Some 720%Z) (Some 20%Z)].
Proof.
  destruct (GET_numeric_station (fun _ _ => Throw (js "not asked"))
              (fun _ _ _ => Ok {| departures := [sample_departure];
                                  realtimeDataUpdatedAt := None |})
              {| p_station := Some (js "8011160"); p_duration := Some (js "9999");
                 p_results := None |}
              (js "8011160") eq_refl ltac:(vm_compute; reflexivity))
    as [(d & n & E) _].
  vm_compute. reflexivity.
Defined.

Lemma GET_limits_witness :
  In (GetDepartures (js "8011160") (Some 720%Z) (Some 20%Z))
     (GET (fun _ _ => Throw (js "not asked"))
          (fun _ _ _ => Ok {| departures := []; realtimeDataUpdatedAt := None |})
          {| p_station := Some (js "8011160"); p_duration := Some (js "9999");
             p_results := None |}).2
  /\ forall x, Some 720%Z = Some x -> (x <= 720)%Z.
Proof.
  assert (Hin : In (GetDepartures (js "8011160") (Some 720%Z) (Some 20%Z))
                  (GET (fun _ _ => Throw (js "not asked"))
                       (fun _ _ _ => Ok {| departures := [];
                                           realtimeDataUpdatedAt := None |})
                       {| p_station := Some (js "8011160");
                          p_duration := Some (js "9999");
                          p_results := None |}).2)
    by (vm_compute; left; reflexivity).
  split; [exact Hin|].
  destruct (GET_limits (fun _ _ => Throw (js "not asked"))
              (fun _ _ _ => Ok {| departures := []; realtimeDataUpdatedAt := None |})
              {| p_station := Some (js "8011160"); p_duration := Some (js "9999");
                 p_results := None |}
              (js "8011160") (Some 720%Z) (Some 20%Z) Hin)
    as (_ & _ & H & _).
  exact H.
Defined.

Lemma GET_errors_witness :
  GET (fun _ _ => Throw (js "DB API Error: 503 Service Unavailable"))
      (fun _ _ _ => Throw (js "not asked"))
      {| p_station := Some (js "Berlin"); p_duration := None; p_results := None |}
  = ({| status := 500; headers := json_headers;
        body := ErrorBody (js "Failed to fetch departures") |},
     [SearchLocations (js "Berlin") 1]).
Proof.
  destruct (GET_errors (fun _ _ => Throw (js "DB API Error: 503 Service Unavailable"))
              (fun _ _ _ => Throw (js "not asked"))
              {| p_station := Some (js "Berlin"); p_duration := None; p_results := None |})
    as (_ & _ & _ & H & _).
  apply (H (js "Berlin") (js "DB API Error: 503 Service Unavailable"));
    [ reflexivity | vm_compute; discriminate | vm_compute; reflexivity | reflexivity ].
Defined.

Lemma transform_delay_witness :
  delay (transform sample_departure) = js "+5 min"
  /\ delayMinutes (transform sample_departure) = 5%Z.
Proof.
  destruct (transform_delay sample_departure) as (_ & _ & _ & H).
  destruct (H 300%Z eq_refl ltac:(lia)) as [_ E].
  split; [rewrite E|]; vm_compute; reflexivity.
Defined.

End DeparturesMore.

(** ** Decimal numerals *)

Module DecimalProps.

Import Connections.

(** The code units of the digits of a decimal numeral. *)
Lemma js_ascii (a : ascii) (s : string) :
  (N_of_ascii a <? 128) = true -> js (String a s) = N_of_ascii a :: js s.
Proof. intros H. unfold js. simpl. now rewrite H. Qed.

Lemma digits_of_uint (d : Decimal.uint) :
  forallb is_digit (js (NilEmpty.string_of_uint d)) = true.
Proof.
  induction d; simpl NilEmpty.string_of_uint; [reflexivity| ..];
    (rewrite js_ascii by reflexivity; simpl; exact IHd).
Qed.

Lemma parse_digits_uint_acc (d : Decimal.uint) (acc : positive) (rest : jsstring) :
  parse_digits false (Some (Z.pos acc)) (js (NilEmpty.string_of_uint d) ++ rest)
  = parse_digits false (Some (Z.pos (Pos.of_uint_acc d acc))) rest.
Proof.
  revert acc. induction d; intros acc; simpl NilEmpty.string_of_uint;
    [reflexivity| ..];
    (rewrite js_ascii by reflexivity; simpl app; simpl parse_digits;
     simpl Pos.of_uint_acc; rewrite <- IHd; do 2 f_equal; simpl default; lia).
Qed.

Lemma parse_digits_uint_zero (d : Decimal.uint) (rest : jsstring) :
  parse_digits false (Some 0%Z) (js (NilEmpty.string_of_uint d) ++ rest)
  = parse_digits false (Some (Z.of_N (Pos.of_uint d))) rest.
Proof.
  induction d; simpl NilEmpty.string_of_uint; [reflexivity| ..];
    rewrite js_ascii by reflexivity; simpl app; simpl parse_digits; simpl Pos.of_uint;
    first [ exact IHd | apply parse_digits_uint_acc ].
Qed.

Lemma parse_digits_uint (d : Decimal.uint) (rest : jsstring) :
  d <> Decimal.Nil ->
  parse_digits false None (js (NilEmpty.string_of_uint d) ++ rest)
  = parse_digits false (Some (Z.of_N (Pos.of_uint d))) rest.
Proof.
  intros Hd. destruct d; [congruence| ..]; simpl NilEmpty.string_of_uint;
    rewrite js_ascii by reflexivity; simpl app; simpl parse_digits; simpl Pos.of_uint;
    first [ apply parse_digits_uint_zero | apply parse_digits_uint_acc ].
Qed.

Lemma to_uint_not_Nil (p : positive) : Pos.to_uint p <> Decimal.Nil.
Proof.
  intros E. pose proof (DecimalPos.Unsigned.of_to p) as H. rewrite E in H. discriminate H.
Qed.

Lemma Z_to_js_pos (p : positive) :
  Z_to_js (Z.pos p) = js (NilEmpty.string_of_uint (Pos.to_uint p)).
Proof.
  unfold Z_to_js. simpl. unfold NilZero.string_of_uint.
  destruct (Pos.to_uint p) eqn:E; try reflexivity.
  now apply to_uint_not_Nil in E.
Qed.

(** [String(n)] for [n >= 0] is a non-empty run of digits. *)
Lemma Z_to_js_digits (n : Z) :
  (0 <= n)%Z -> forallb is_digit (Z_to_js n) = true /\ Z_to_js n <> [].
Proof.
  intros Hn. destruct n as [|p|p]; [split; [reflexivity|discriminate]| |lia].
  rewrite Z_to_js_pos. split; [apply digits_of_uint|].
  pose proof (to_uint_not_Nil p) as Hp.
  destruct (Pos.to_uint p); try congruence;
    simpl NilEmpty.string_of_uint; rewrite js_ascii by reflexivity; discriminate.
Qed.

(** Reading back, in base 10, the digits of [String(n)]. *)
Lemma parse_digits_Z_to_js (n : Z) (rest : jsstring) :
  (0 <= n)%Z ->
  parse_digits false None (Z_to_js n ++ rest) = parse_digits false (Some n) rest.
Proof.
  intros Hn. destruct n as [|p|p]; [reflexivity| |lia].
  rewrite Z_to_js_pos, parse_digits_uint by apply to_uint_not_Nil.
  now rewrite DecimalPos.Unsigned.of_to.
Qed.

Lemma parse_digits_stop (acc : option Z) (rest : jsstring) :
  match rest with [] => True | c :: _ => is_digit c = false end ->
  parse_digits false acc rest = acc.
Proof.
  destruct rest as [|c r]; [reflexivity|]. intros H. simpl.
  unfold digit_value. now rewrite H.
Qed.

Lemma is_digit_not_space (c : N) : is_digit c = true -> is_space c = false.
Proof.
  intros Hc. destruct (is_space c) eqn:E; [|reflexivity]. exfalso.
  unfold is_digit in Hc. unfold is_space in E. unit_arith Hc. unit_arith E. lia.
Qed.

Lemma sign_match {A} (f g h : jsstring -> A) (c : N) (r : jsstring) :
  c <> 45 -> c <> 43 ->
  match c :: r with
  | 45 :: r' => f r'
  | 43 :: r' => g r'
  | l => h l
  end = h (c :: r).
Proof.
  intros H45 H43. destruct c as [|p]; [reflexivity|].
  do 6 (destruct p as [p|p|]; try reflexivity); congruence.
Qed.

Lemma zero_x_match {A} (F : N -> jsstring -> A) (D : A) (s : jsstring) :
  (forall x r, s = 48 :: x :: r -> F x r = D) ->
  match s with
  | 48 :: x :: r => F x r
  | _ => D
  end = D.
Proof.
  intros H. destruct s as [|c [|x r]]; try reflexivity.
  - destruct c as [|p]; [reflexivity|].
    do 6 (destruct p as [p|p|]; try reflexivity).
  - destruct c as [|p]; [reflexivity|].
    do 6 (destruct p as [p|p|]; try reflexivity).
    now apply H.
Qed.

(** A run of digits starts with no sign, no white space and no [0x]. *)
Lemma parseInt_digits (s : jsstring) :
  forallb is_digit s = true -> parseInt s = parse_digits false None s.
Proof.
  intros H. destruct s as [|c r]; [reflexivity|].
  pose proof H as Hall.
  simpl in H. apply andb_true_iff in H as [Hc Hr].
  assert (c <> 45 /\ c <> 43) as [H45 H43]
    by (unfold is_digit in Hc; unit_arith Hc; lia).
  unfold parseInt. simpl trimStart. rewrite (is_digit_not_space c Hc).
  rewrite (sign_match (fun r => Z.opp <$> parse_unsigned r) parse_unsigned parse_unsigned
             c r H45 H43).
  unfold parse_unsigned.
  apply (zero_x_match
           (fun x r0 => if (x =? 120) || (x =? 88) then parse_digits true None r0
                        else parse_digits false None (c :: r))
           (parse_digits false None (c :: r)) (c :: r)).
  intros x r' E. injection E as -> ->.
  simpl in Hr. apply andb_true_iff in Hr as [Hx _].
  unfold is_digit in Hx. unit_arith Hx.
  destruct (N.eqb_spec x 120); [lia|]. destruct (N.eqb_spec x 88); [lia|]. reflexivity.
Qed.

(** [parseInt(String(n)) = n] for [n >= 0]. *)
Lemma parseInt_Z_to_js (n : Z) : (0 <= n)%Z -> parseInt (Z_to_js n) = Some n.
Proof.
  intros Hn. destruct (Z_to_js_digits n Hn) as [Hd _].
  rewrite (parseInt_digits _ Hd).
  rewrite <- (app_nil_r (Z_to_js n)), parse_digits_Z_to_js by exact Hn.
  reflexivity.
Qed.

(** The longest run of digits of a numeral followed by something else. *)
Lemma span_digits_app (ds rest : jsstring) :
  forallb is_digit ds = true ->
  match rest with [] => True | c :: _ => is_digit c = false end ->
  span_digits (ds ++ rest) = (ds, rest).
Proof.
  intros Hd Hr. induction ds as [|c ds IH]; simpl.
  - destruct rest as [|c r]; [reflexivity|]. simpl. now rewrite Hr.
  - simpl in Hd. apply andb_true_iff in Hd as [Hc Hd].
    now rewrite Hc, (IH Hd).
Qed.

End DecimalProps.

(** ** Durations of the flight provider *)

Module DurationProps.

Import Connections Offers DecimalProps.

Lemma digits_before_numeral (n : Z) (letter : N) (rest : jsstring) :
  (0 <= n)%Z -> is_digit letter = false ->
  digits_before letter (Z_to_js n ++ letter :: rest) = Some (Z_to_js n, rest).
Proof.
  intros Hn Hl. destruct (Z_to_js_digits n Hn) as [Hd Hne].
  unfold digits_before. rewrite (span_digits_app _ (letter :: rest) Hd Hl).
  destruct (Z_to_js n) as [|d ds]; [congruence|].
  now rewrite N.eqb_refl.
Qed.

Lemma digits_before_other (n : Z) (letter c : N) (rest : jsstring) :
  (0 <= n)%Z -> is_digit c = false -> c <> letter ->
  digits_before letter (Z_to_js n ++ c :: rest) = None.
Proof.
  intros Hn Hc Hne. destruct (Z_to_js_digits n Hn) as [Hd Hnn].
  unfold digits_before. rewrite (span_digits_app _ (c :: rest) Hd Hc).
  destruct (Z_to_js n) as [|d ds]; [congruence|].
  destruct (N.eqb_spec c letter); [contradiction|reflexivity].
Qed.

Lemma digits_before_end (n : Z) (letter : N) :
  (0 <= n)%Z -> digits_before letter (Z_to_js n) = None.
Proof.
  intros Hn. destruct (Z_to_js_digits n Hn) as [Hd Hnn].
  unfold digits_before. rewrite <- (app_nil_r (Z_to_js n)).
  rewrite (span_digits_app _ [] Hd I).
  now destruct (Z_to_js n).
Qed.

Lemma join_two (a b : jsstring) :
  a <> [] -> b <> [] -> join_space [a; b] = a ++ js " " ++ b.
Proof.
  intros Ha Hb. unfold join_space. simpl.
  destruct a; [congruence|]. destruct b; [congruence|]. simpl.
  now rewrite app_nil_r.
Qed.

Lemma join_left (a : jsstring) : a <> [] -> join_space [a; []] = a.
Proof. intros Ha. unfold join_space. simpl. destruct a; [congruence|]. simpl. now rewrite app_nil_r. Qed.

Lemma join_right (b : jsstring) : b <> [] -> join_space [[]; b] = b.
Proof. intros Hb. unfold join_space. simpl. destruct b; [congruence|]. simpl. now rewrite app_nil_r. Qed.

Lemma numeral_then (n : Z) (x : jsstring) : (0 <= n)%Z -> Z_to_js n ++ x <> [].
Proof.
  intros Hn E. apply app_eq_nil in E as [E _].
  now destruct (Z_to_js_digits n Hn) as [_ H].
Qed.

(** X14. Round trip of the provider's duration encoding. For whole numbers
    [h] and [m] that are not negative, [getDurationMinutes] reads
    ["PT<h>H<m>M"] as [60 h + m], ["PT<h>H"] as [60 h] and ["PT<m>M"] as [m],
    and [parseDuration] shows them as ["<h>h <m>m"], ["<h>h"] and ["<m>m"]. *)
Theorem duration_round_trip (h m : Z) :
  (0 <= h)%Z -> (0 <= m)%Z ->
  let H := Z_to_js h in
  let M := Z_to_js m in
  (getDurationMinutes (js "PT" ++ H ++ js "H" ++ M ++ js "M") = Some (60 * h + m)%Z
   /\ parseDuration (js "PT" ++ H ++ js "H" ++ M ++ js "M") = H ++ js "h " ++ M ++ js "m")
  /\ (getDurationMinutes (js "PT" ++ H ++ js "H") = Some (60 * h)%Z
      /\ parseDuration (js "PT" ++ H ++ js "H") = H ++ js "h")
  /\ (getDurationMinutes (js "PT" ++ M ++ js "M") = Some m
      /\ parseDuration (js "PT" ++ M ++ js "M") = M ++ js "m").
Proof.
  intros Hh Hm H M. subst H M.
  unfold getDurationMinutes, parseDuration, match_duration.
  change (js "PT") with [80; 84]. change (js "H") with [72]. change (js "M") with [77].
  cbn [app after_PT].
  split; [|split].
  - rewrite (digits_before_numeral h 72 _ Hh eq_refl).
    rewrite (digits_before_numeral m 77 [] Hm eq_refl).
    cbn [fmap option_fmap option_map fst default from_option id].
    rewrite !parseInt_Z_to_js by assumption. split.
    + simpl. f_equal. lia.
    + rewrite join_two by (apply numeral_then; assumption).
      rewrite <- !app_assoc. reflexivity.
  - rewrite (digits_before_numeral h 72 [] Hh eq_refl).
    cbn [digits_before span_digits fmap option_fmap option_map fst default from_option id].
    rewrite parseInt_Z_to_js by assumption. split.
    + simpl. f_equal. lia.
    + apply join_left. apply numeral_then; assumption.
  - rewrite (digits_before_other m 72 77 [] Hm eq_refl) by discriminate.
    rewrite (digits_before_numeral m 77 [] Hm eq_refl).
    cbn [fmap option_fmap option_map fst default from_option id].
    rewrite parseInt_Z_to_js by assumption. split.
    + reflexivity.
    + apply join_right. apply numeral_then; assumption.
Qed.

Lemma duration_round_trip_witness :
  getDurationMinutes (js "PT10H30M") = Some 630%Z
  /\ parseDuration (js "PT10H30M") = js "10h 30m".
Proof.
  destruct (duration_round_trip 10 30) as [[A B] _]; [lia|lia|].
  split; [exact A|exact B].
Defined.

Lemma after_PT_includes (s : jsstring) :
  includes s (js "PT") = false -> after_PT s = None.
Proof.
  change (js "PT") with [80; 84].
  induction s as [|c s IH]; [reflexivity|].
  intros H. simpl includes in H. apply orb_false_iff in H as [H1 H2].
  assert (E : after_PT (c :: s) = after_PT s \/ exists r, s = 84 :: r /\ c = 80).
  { destruct s as [|x r].
    - left. simpl. destruct c as [|p]; [reflexivity|].
      do 7 (destruct p as [p|p|]; try reflexivity).
    - destruct (N.eq_dec c 80) as [->|Hc].
      + destruct (N.eq_dec x 84) as [->|Hx]; [right; now exists r|].
        left. simpl. destruct x as [|p]; [reflexivity|].
        do 7 (destruct p as [p|p|]; try reflexivity); congruence.
      + left. simpl. destruct c as [|p]; [reflexivity|].
        do 7 (destruct p as [p|p|]; try reflexivity); congruence. }
  destruct E as [->|(r & -> & ->)]; [now apply IH|].
  simpl in H1. discriminate H1.
Qed.

(** X15. A duration that contains no ["PT"], for example one with a day part
    such as ["P1DT2H"], is not parsed: [parseDuration] returns the text
    unchanged and [getDurationMinutes] returns 0. A duration of seconds only,
    ["PT<s>S"], is shown as the empty text and counts 0 minutes. *)
Theorem duration_not_parsed (duration : jsstring) (s : Z) :
  (includes duration (js "PT") = false ->
   parseDuration duration = duration /\ getDurationMinutes duration = Some 0%Z)
  /\ ((0 <= s)%Z ->
      parseDuration (js "PT" ++ Z_to_js s ++ js "S") = []
      /\ getDurationMinutes (js "PT" ++ Z_to_js s ++ js "S") = Some 0%Z).
Proof.
  split.
  - intros H. apply after_PT_includes in H.
    unfold parseDuration, getDurationMinutes, match_duration. now rewrite H.
  - intros Hs. unfold parseDuration, getDurationMinutes, match_duration.
    change (js "PT") with [80; 84]. change (js "S") with [83].
    cbn [app after_PT].
    rewrite (digits_before_other s 72 83 [] Hs eq_refl) by discriminate.
    rewrite (digits_before_other s 77 83 [] Hs eq_refl) by discriminate.
    split; reflexivity.
Qed.

Lemma duration_not_parsed_witness :
  parseDuration (js "P1DT2H") = js "P1DT2H"
  /\ getDurationMinutes (js "P1DT2H") = Some 0%Z
  /\ parseDuration (js "PT45S") = [].
Proof.
  destruct (duration_not_parsed (js "P1DT2H") 45) as [A B].
  destruct A as [A1 A2]; [vm_compute; reflexivity|].
  destruct B as [B1 _]; [lia|].
  repeat split; assumption.
Defined.

Lemma PT_digits_numeral (n : Z) (rest : jsstring) :
  (0 <= n)%Z ->
  match rest with [] => True | c :: _ => is_digit c = false end ->
  find_PT_digits (80 :: 84 :: Z_to_js n ++ rest) = Some ([], Z_to_js n, rest).
Proof.
  intros Hn Hr. destruct (Z_to_js_digits n Hn) as [Hd Hne].
  unfold find_PT_digits, PT_digits. rewrite (span_digits_app _ rest Hd Hr).
  destruct (Z_to_js n); [congruence|reflexivity].
Qed.

(** X16. The minutes that [transformFlightOffer] adds up for a segment. For
    whole numbers [h] and [m] that are not negative, a segment of
    ["PT<h>H<m>M"] counts [60 h + m] minutes and one of ["PT<h>H"] counts
    [60 h], as [getDurationMinutes] has them; a segment of ["PT<m>M"], without
    hours, counts [60 m] minutes, where [getDurationMinutes] has [m]: the
    minutes are read as hours. *)
Theorem segment_minutes_forms (seg : Segment) (h m : Z) :
  (0 <= h)%Z -> (0 <= m)%Z ->
  (seg_duration seg = js "PT" ++ Z_to_js h ++ js "H" ++ Z_to_js m ++ js "M" ->
   segment_minutes seg = Some (60 * h + m)%Z)
  /\ (seg_duration seg = js "PT" ++ Z_to_js h ++ js "H" ->
      segment_minutes seg = Some (60 * h)%Z)
  /\ (seg_duration seg = js "PT" ++ Z_to_js m ++ js "M" ->
      segment_minutes seg = Some (60 * m)%Z
      /\ getDurationMinutes (seg_duration seg) = Some m).
Proof.
  intros Hh Hm. unfold segment_minutes, replace_duration.
  change (js "PT") with [80; 84]. change (js "H") with [72]. change (js "M") with [77].
  destruct (Z_to_js_digits h Hh) as [Dh Nh].
  destruct (Z_to_js_digits m Hm) as [Dm Nm].
  split; [|split]; intros ->; cbn [app].
  - rewrite (PT_digits_numeral h (72 :: Z_to_js m ++ [77]) Hh eq_refl). cbn [skip N.eqb Pos.eqb].
    rewrite (span_digits_app (Z_to_js m) [77] Dm eq_refl).
    cbn [skip N.eqb Pos.eqb app or_default].
    destruct (Z_to_js h) as [|a ha] eqn:Eh; [congruence|].
    destruct (Z_to_js m) as [|b mb] eqn:Em; [congruence|].
    cbn [or_default]. rewrite <- Eh, <- Em.
    rewrite !parseInt_Z_to_js by assumption. cbn [num_mul num_add num_to_js].
    rewrite app_nil_r. rewrite parseInt_Z_to_js by lia. f_equal. lia.
  - rewrite (PT_digits_numeral h [72] Hh eq_refl). cbn [skip N.eqb Pos.eqb span_digits].
    destruct (Z_to_js h) as [|a ha] eqn:Eh; [congruence|].
    cbn [or_default skip]. rewrite <- Eh.
    rewrite parseInt_Z_to_js by assumption.
    change (parseInt (js "0")) with (Some 0%Z). cbn [num_mul num_add num_to_js app].
    rewrite app_nil_r. rewrite parseInt_Z_to_js by lia. f_equal. lia.
  - split.
    + rewrite (PT_digits_numeral m [77] Hm eq_refl).
      change (span_digits (skip 72 [77])) with (@nil N, [77]).
      change (skip 77 [77]) with (@nil N).
      destruct (Z_to_js m) as [|b mb] eqn:Em; [congruence|].
      cbn [or_default]. rewrite <- Em.
      rewrite parseInt_Z_to_js by assumption.
      change (parseInt (js "0")) with (Some 0%Z). cbn [num_mul num_add num_to_js app].
      rewrite app_nil_r. rewrite parseInt_Z_to_js by lia. f_equal. lia.
    + unfold getDurationMinutes, match_duration. cbn [app after_PT].
      rewrite (digits_before_other m 72 77 [] Hm eq_refl) by discriminate.
      rewrite (digits_before_numeral m 77 [] Hm eq_refl).
      cbn [fmap option_fmap option_map fst default from_option id].
      now rewrite parseInt_Z_to_js by assumption.
Qed.

Lemma segment_minutes_forms_witness :
  let seg := {| seg_departure := {| iataCode := js "FRA"; terminal := None;
                                    at_ := js "2026-03-01T08:30:00" |};
                seg_arrival := {| iataCode := js "MUC"; terminal := None;
                                  at_ := js "2026-03-01T09:25:00" |};
                carrierCode := js "LH"; number := js "98";
                seg_duration := js "PT55M" |} in
  segment_minutes seg = Some 3300%Z
  /\ getDurationMinutes (seg_duration seg) = Some 55%Z.
Proof.
  intros seg.
  destruct (segment_minutes_forms seg 0 55) as (_ & _ & A); [lia|lia|].
  apply A. reflexivity.
Defined.

End DurationProps.

(** ** The client of the flight provider *)

Module AmadeusProps.

Import FlightSearch Amadeus.

Lemma getAccessToken_valid (env : Env) (w : auth_world) (st : TokenState) :
  isAmadeusConfigured env = true ->
  FlightStack.token_valid st (auth_now w) = true ->
  getAccessToken env w st = (Ok (accessToken st), st, []).
Proof.
  unfold isAmadeusConfigured, FlightStack.token_valid, getAccessToken, missing.
  destruct (AMADEUS_CLIENT_ID env) as [[|c cs]|]; try discriminate.
  destruct (AMADEUS_CLIENT_SECRET env) as [[|x xs]|]; try discriminate.
  intros _ ->. reflexivity.
Qed.

Lemma getAccessToken_asks (env : Env) (w : auth_world) (st : TokenState) :
  isAmadeusConfigured env = true ->
  FlightStack.token_valid st (auth_now w) = false ->
  exists id secret,
    AMADEUS_CLIENT_ID env = Some id /\ AMADEUS_CLIENT_SECRET env = Some secret
    /\ getAccessToken env w st =
       match auth_reply w with
       | Rejected m => (Throw m, st, [TokenRequest id secret])
       | Replied ok code _ json =>
           if negb ok then
             (Throw (js "Amadeus auth failed: " ++ Z_to_js code), st,
              [TokenRequest id secret])
           else
             match json with
             | Throw m => (Throw m, st, [TokenRequest id secret])
             | Ok data =>
                 (Ok (access_token data),
                  {| accessToken := access_token data;
                     tokenExpiry :=
                       (fun seconds => auth_now_stored w + seconds * 1000)%Z
                         <$> expires_in data |},
                  [TokenRequest id secret])
             end
       end.
Proof.
  unfold isAmadeusConfigured, FlightStack.token_valid, getAccessToken, missing.
  destruct (AMADEUS_CLIENT_ID env) as [[|c cs]|]; try discriminate.
  destruct (AMADEUS_CLIENT_SECRET env) as [[|x xs]|]; try discriminate.
  intros _ ->. exists (c :: cs), (x :: xs). repeat split.
Qed.

(** X17. Without both credentials the client asks nobody: [getAccessToken]
    and [searchFlights] throw the fixed message, whatever the cached token,
    send no request and leave the token state as it was; and the handler's
    [catch] block takes that message for a credentials error and answers
    HTTP 200 with the mock document. *)
Theorem client_not_configured {T Flight : Type}
    (params_toString : list (jsstring * jsstring) -> jsstring)
    (env : Env) (aw : auth_world) (reply : api_reply T) (st : TokenState)
    (options : FlightQuery) (random150 : Z) (o dst : value) (date : jsstring) :
  isAmadeusConfigured env = false ->
  getAccessToken env aw st = (Throw credentials_message, st, [])
  /\ searchFlights params_toString env aw reply st options
     = (Throw credentials_message, st, [])
  /\ on_error Flight random150 o dst date credentials_message
     = {| status := 200; headers := json_headers;
          body := MockBody (getMockFlights random150 o dst date) |}.
Proof.
  intros H.
  assert (A : getAccessToken env aw st = (Throw credentials_message, st, [])).
  { revert H. unfold isAmadeusConfigured, getAccessToken, missing.
    destruct (AMADEUS_CLIENT_ID env) as [[|c cs]|];
      destruct (AMADEUS_CLIENT_SECRET env) as [[|x xs]|];
      first [discriminate | reflexivity]. }
  split; [exact A|]. split.
  - unfold searchFlights, amadeusRequest. now rewrite A.
  - unfold on_error.
    replace (includes credentials_message (js "credentials")) with true
      by (vm_compute; reflexivity).
    reflexivity.
Qed.

Lemma client_not_configured_witness :
  getAccessToken {| AMADEUS_CLIENT_ID := Some (js "id"); AMADEUS_CLIENT_SECRET := None |}
                 {| auth_now := 0; auth_reply := Rejected (js "offline");
                    auth_now_stored := 0 |}
                 {| accessToken := Some (js "token"); tokenExpiry := Some 3600000%Z |}
  = (Throw credentials_message,
     {| accessToken := Some (js "token"); tokenExpiry := Some 3600000%Z |}, []).
Proof.
  apply (client_not_configured (T := unit) (Flight := unit) (fun _ => [])
           {| AMADEUS_CLIENT_ID := Some (js "id"); AMADEUS_CLIENT_SECRET := None |}
           {| auth_now := 0; auth_reply := Rejected (js "offline"); auth_now_stored := 0 |}
           (ApiRejected (js "offline"))
           {| accessToken := Some (js "token"); tokenExpiry := Some 3600000%Z |}
           {| q_origin := Str (js "FRA"); q_destination := Str (js "MUC");
              q_departureDate := js "2026-03-01"; q_returnDate := None;
              q_adults := None; q_children := None; q_travelClass := None;
              q_nonStop := None; q_maxResults := None |}
           0 (Str (js "FRA")) (Str (js "MUC")) (js "2026-03-01")).
  reflexivity.
Defined.

(** X18. The token cache. When [getAccessToken] has fetched a token that is
    not empty and that expires in [seconds] seconds, a later call reuses it
    without a request as long as the clock is more than one minute before
    the expiry, and asks the token endpoint again from then on. *)
Theorem token_reuse (env : Env) (w w' : auth_world) (st : TokenState)
    (data : TokenData) (code : Z) (text token : jsstring) (seconds : Z) :
  isAmadeusConfigured env = true ->
  FlightStack.token_valid st (auth_now w) = false ->
  auth_reply w = Replied true code text (Ok data) ->
  access_token data = Some token -> token <> [] ->
  expires_in data = Some seconds ->
  let st1 := (getAccessToken env w st).1.2 in
  ((auth_now w' < auth_now_stored w + seconds * 1000 - 60000)%Z ->
   getAccessToken env w' st1 = (Ok (Some token), st1, []))
  /\ ((auth_now_stored w + seconds * 1000 - 60000 <= auth_now w')%Z ->
      exists id secret, (getAccessToken env w' st1).2 = [TokenRequest id secret]).
Proof.
  intros Henv Hst Hr Ht Hne Hs st1.
  destruct (getAccessToken_asks env w st Henv Hst) as (id & secret & _ & _ & E).
  rewrite Hr in E. cbn [negb] in E. rewrite Ht, Hs in E.
  assert (E1 : st1 = {| accessToken := Some token;
                        tokenExpiry := Some (auth_now_stored w + seconds * 1000)%Z |})
    by (subst st1; now rewrite E).
  clearbody st1. subst st1. split.
  - intros Hlt. rewrite getAccessToken_valid; [reflexivity|exact Henv|].
    unfold FlightStack.token_valid, missing. cbn [accessToken tokenExpiry].
    destruct token; [congruence|]. apply andb_true_intro. split; [reflexivity|].
    apply Z.ltb_lt. exact Hlt.
  - intros Hge.
    destruct (getAccessToken_asks env w'
                {| accessToken := Some token;
                   tokenExpiry := Some (auth_now_stored w + seconds * 1000)%Z |} Henv)
      as (id' & secret' & _ & _ & E').
    + unfold FlightStack.token_valid. cbn [accessToken tokenExpiry].
      apply andb_false_intro2. apply Z.ltb_ge. exact Hge.
    + exists id', secret'. rewrite E'.
      destruct (auth_reply w') as [m|ok c t [d|m]]; [reflexivity| |];
        destruct ok; reflexivity.
Qed.

Lemma token_reuse_witness :
  getAccessToken
    {| AMADEUS_CLIENT_ID := Some (js "id"); AMADEUS_CLIENT_SECRET := Some (js "secret") |}
    {| auth_now := 1739000; auth_reply := Rejected (js "offline"); auth_now_stored := 1739000 |}
    {| accessToken := Some (js "abc"); tokenExpiry := Some 1800000%Z |}
  = (Ok (Some (js "abc")),
     {| accessToken := Some (js "abc"); tokenExpiry := Some 1800000%Z |}, []).
Proof.
  destruct (token_reuse
              {| AMADEUS_CLIENT_ID := Some (js "id");
                 AMADEUS_CLIENT_SECRET := Some (js "secret") |}
              {| auth_now := 0;
                 auth_reply :=
                   Replied true 200 (js "OK")
                     (Ok {| access_token := Some (js "abc"); expires_in := Some 1799%Z |});
                 auth_now_stored := 1000 |}
              {| auth_now := 1739000; auth_reply := Rejected (js "offline");
                 auth_now_stored := 1739000 |}
              no_token
              {| access_token := Some (js "abc"); expires_in := Some 1799%Z |}
              200 (js "OK") (js "abc") 1799) as [A _];
    [ reflexivity | reflexivity | reflexivity | reflexivity
    | vm_compute; discriminate | reflexivity | ].
  apply A. vm_compute. reflexivity.
Defined.

(** X19. A token answer that cannot be reused. When the token endpoint's
    answer has no [expires_in], or has no token or an empty one, the state
    that [getAccessToken] stores never passes the validity test: every later
    call asks the token endpoint again. *)
Theorem token_without_expiry (env : Env) (w w' : auth_world) (st : TokenState)
    (data : TokenData) (code : Z) (text : jsstring) :
  isAmadeusConfigured env = true ->
  FlightStack.token_valid st (auth_now w) = false ->
  auth_reply w = Replied true code text (Ok data) ->
  missing (access_token data) = true \/ expires_in data = None ->
  let st1 := (getAccessToken env w st).1.2 in
  exists id secret, (getAccessToken env w' st1).2 = [TokenRequest id secret].
Proof.
  intros Henv Hst Hr Hd st1.
  destruct (getAccessToken_asks env w st Henv Hst) as (id & secret & _ & _ & E).
  rewrite Hr in E. cbn [negb] in E.
  assert (E1 : st1 = {| accessToken := access_token data;
                        tokenExpiry :=
                          (fun seconds => auth_now_stored w + seconds * 1000)%Z
                            <$> expires_in data |})
    by (subst st1; now rewrite E).
  clearbody st1. subst st1.
  destruct (getAccessToken_asks env w'
              {| accessToken := access_token data;
                 tokenExpiry :=
                   (fun seconds => auth_now_stored w + seconds * 1000)%Z
                     <$> expires_in data |} Henv)
    as (id' & secret' & _ & _ & E').
  - unfold FlightStack.token_valid. cbn [accessToken tokenExpiry].
    destruct Hd as [-> | ->]; [reflexivity|].
    apply andb_false_intro2. reflexivity.
  - exists id', secret'. rewrite E'.
    destruct (auth_reply w') as [m|ok c t [d|m]]; [reflexivity| |];
      destruct ok; reflexivity.
Qed.

Lemma token_without_expiry_witness :
  exists id secret,
    (getAccessToken
       {| AMADEUS_CLIENT_ID := Some (js "id"); AMADEUS_CLIENT_SECRET := Some (js "secret") |}
       {| auth_now := 2000; auth_reply := Rejected (js "offline"); auth_now_stored := 2000 |}
       (getAccessToken
          {| AMADEUS_CLIENT_ID := Some (js "id");
             AMADEUS_CLIENT_SECRET := Some (js "secret") |}
          {| auth_now := 0;
             auth_reply :=
               Replied true 200 (js "OK")
                 (Ok {| access_token := Some (js "abc"); expires_in := None |});
             auth_now_stored := 1000 |}
          no_token).1.2).2
    = [TokenRequest id secret].
Proof.
  apply (token_without_expiry
           {| AMADEUS_CLIENT_ID := Some (js "id");
              AMADEUS_CLIENT_SECRET := Some (js "secret") |}
           {| auth_now := 0;
              auth_reply :=
                Replied true 200 (js "OK")
                  (Ok {| access_token := Some (js "abc"); expires_in := None |});
              auth_now_stored := 1000 |}
           {| auth_now := 2000; auth_reply := Rejected (js "offline");
              auth_now_stored := 2000 |}
           no_token
           {| access_token := Some (js "abc"); expires_in := None |}
           200 (js "OK"));
    [ reflexivity | reflexivity | reflexivity | right; reflexivity ].
Defined.

(** X20. Only a token answer changes the token state. A call of
    [getAccessToken] that throws leaves the state as it was, and
    [amadeusRequest] leaves the state as its [getAccessToken] left it,
    whatever the API answers: an error of the API, an HTTP 401 included,
    does not discard the cached token. *)
Theorem token_state_kept {T : Type} (env : Env) (aw : auth_world)
    (reply : api_reply T) (st : TokenState) (endpoint : jsstring) :
  (forall m, (getAccessToken env aw st).1.1 = Throw m ->
             (getAccessToken env aw st).1.2 = st)
  /\ (amadeusRequest env aw reply st endpoint).1.2 = (getAccessToken env aw st).1.2
  /\ ((getAccessToken env aw st).2 = [] ->
      (amadeusRequest env aw reply st endpoint).1.2 = st).
Proof.
  assert (A : forall m, (getAccessToken env aw st).1.1 = Throw m ->
                        (getAccessToken env aw st).1.2 = st).
  { unfold getAccessToken.
    destruct (AMADEUS_CLIENT_ID env) as [[|c cs]|];
      destruct (AMADEUS_CLIENT_SECRET env) as [[|x xs]|]; try reflexivity.
    destruct (_ && _); [reflexivity|].
    destruct (auth_reply aw) as [m0|ok c0 t [d|m0]]; try reflexivity;
      destruct ok; try reflexivity.
    cbn [negb fst snd]. intros m H. discriminate H. }
  assert (B : (amadeusRequest env aw reply st endpoint).1.2
              = (getAccessToken env aw st).1.2).
  { unfold amadeusRequest.
    destruct (getAccessToken env aw st) as [[[token|m] st'] trace]; [|reflexivity].
    destruct reply as [m|[d|m]|c description]; reflexivity. }
  split; [exact A|]. split; [exact B|].
  intros H. rewrite B. revert H. unfold getAccessToken.
  destruct (AMADEUS_CLIENT_ID env) as [[|c cs]|];
    destruct (AMADEUS_CLIENT_SECRET env) as [[|x xs]|]; try reflexivity.
  destruct (_ && _); [reflexivity|].
  destruct (auth_reply aw) as [m0|ok c0 t [d|m0]]; try discriminate;
    destruct ok; discriminate.
Qed.

Lemma token_state_kept_witness :
  (amadeusRequest (T := unit)
     {| AMADEUS_CLIENT_ID := Some (js "id"); AMADEUS_CLIENT_SECRET := Some (js "secret") |}
     {| auth_now := 0; auth_reply := Rejected (js "offline"); auth_now_stored := 0 |}
     (ApiError 401 None)
     {| accessToken := Some (js "abc"); tokenExpiry := Some 1800000%Z |}
     (js "/v1/reference-data/locations")).1.2
  = {| accessToken := Some (js "abc"); tokenExpiry := Some 1800000%Z |}.
Proof.
  apply (token_state_kept (T := unit)
           {| AMADEUS_CLIENT_ID := Some (js "id");
              AMADEUS_CLIENT_SECRET := Some (js "secret") |}
           {| auth_now := 0; auth_reply := Rejected (js "offline"); auth_now_stored := 0 |}
           (ApiError 401 None)
           {| accessToken := Some (js "abc"); tokenExpiry := Some 1800000%Z |}
           (js "/v1/reference-data/locations")).
  reflexivity.
Defined.

End AmadeusProps.

(** ** The flight search over its client *)

Module FlightStackProps.

Import FlightSearch Amadeus Offers.

Lemma includes_absent (c : N) (s p : jsstring) :
  forallb (fun x => negb (x =? c)) s = true -> includes s (c :: p) = false.
Proof.
  induction s as [|b s IH]; intros H; [reflexivity|].
  simpl in H. apply andb_true_iff in H as [H1 H2].
  simpl. rewrite (IH H2). apply negb_true_iff in H1.
  rewrite N.eqb_sym, H1. reflexivity.
Qed.

Lemma Z_to_js_neg (p : positive) :
  Z_to_js (Z.neg p) = 45 :: js (NilEmpty.string_of_uint (Pos.to_uint p)).
Proof.
  unfold Z_to_js. simpl. rewrite DecimalProps.js_ascii by reflexivity.
  unfold NilZero.string_of_uint.
  destruct (Pos.to_uint p) eqn:E; try reflexivity.
  now apply DecimalProps.to_uint_not_Nil in E.
Qed.

Lemma digits_without (c : N) (s : jsstring) :
  is_digit c = false -> forallb is_digit s = true ->
  forallb (fun x => negb (x =? c)) s = true.
Proof.
  intros Hc. induction s as [|b s IH]; [reflexivity|].
  simpl. intros H. apply andb_true_iff in H as [H1 H2].
  rewrite (IH H2), andb_true_r. apply negb_true_iff.
  destruct (N.eqb_spec b c); [congruence|reflexivity].
Qed.

Lemma Z_to_js_without (c : N) (n : Z) :
  is_digit c = false -> c <> 45 ->
  forallb (fun x => negb (x =? c)) (Z_to_js n) = true.
Proof.
  intros Hc Hm. destruct n as [|p|p].
  - apply digits_without; [exact Hc|reflexivity].
  - apply digits_without; [exact Hc|]. now apply DecimalProps.Z_to_js_digits.
  - rewrite Z_to_js_neg. cbn [forallb].
    rewrite (digits_without c _ Hc (DecimalProps.digits_of_uint _)), andb_true_r.
    apply negb_true_iff, N.eqb_neq. congruence.
Qed.

Lemma last_cons_default {A : Type} (l : list A) (x d : A) :
  last (x :: l) = Some (List.last (x :: l) d).
Proof.
  revert x. induction l as [|y l IH]; intros x; [reflexivity|].
  change (last (x :: y :: l)) with (last (y :: l)).
  change (List.last (x :: y :: l) d) with (List.last (y :: l) d).
  apply IH.
Qed.

Lemma fold_NaN (l : list Segment) :
  fold_left (fun sum seg => num_add sum (segment_minutes seg)) l None = None.
Proof. induction l as [|s l IH]; [reflexivity|]. exact IH. Qed.

Lemma fold_NaN_in (l : list Segment) (seg : Segment) (start : option Z) :
  In seg l -> segment_minutes seg = None ->
  fold_left (fun sum seg => num_add sum (segment_minutes seg)) l start = None.
Proof.
  intros Hin Hs. revert start. induction l as [|s l IH]; intros start; [destruct Hin|].
  simpl. destruct Hin as [->|Hin].
  - rewrite Hs. destruct start; apply fold_NaN.
  - now apply IH.
Qed.

Section Stack.

Context {Price : Type}.
Variable parseFloat : jsstring -> Price.
Variable params_toString : list (jsstring * jsstring) -> jsstring.

(** X21. A token endpoint that refuses the credentials does not lead to the
    mock document. With both credentials set and no valid cached token, when
    the token endpoint answers with a status that is not [ok], the handler
    over the client answers HTTP 400 without a call, where validation fails,
    and HTTP 500 with ["Failed to search flights"] otherwise: the error's
    message ["Amadeus auth failed: <status>"] does not contain
    ["credentials"]. *)
Theorem GET_auth_failure (env : Env) (random150 : Z) (aw : auth_world)
    (reply : api_reply (FlightSearchResponse FlightOffer (list (jsstring * jsstring))))
    (st : TokenState) (p : params) (code : Z) (text : jsstring)
    (json : outcome TokenData) :
  isAmadeusConfigured env = true ->
  FlightStack.token_valid st (auth_now aw) = false ->
  auth_reply aw = Replied false code text json ->
  let r := FlightStack.GET parseFloat params_toString env random150 aw reply st p in
  (status r.1 = 400%Z /\ r.2 = [])
  \/ r.1 = {| status := 500; headers := json_headers;
              body := ErrorBody (js "Failed to search flights") |}.
Proof.
  intros Henv Hst Hr r. subst r.
  assert (S : forall q,
             (searchFlights params_toString env aw reply st q).1.1
             = Throw (js "Amadeus auth failed: " ++ Z_to_js code)).
  { intros q. unfold searchFlights, amadeusRequest.
    destruct (AmadeusProps.getAccessToken_asks env aw st Henv Hst)
      as (id & secret & _ & _ & E).
    rewrite E, Hr. reflexivity. }
  unfold FlightStack.GET, FlightSearch.GET.
  destruct (p_from p) as [[|f fr]|]; try (left; split; reflexivity).
  destruct (p_to p) as [[|t tr]|]; try (left; split; reflexivity).
  destruct (p_date p) as [[|d dr]|]; try (left; split; reflexivity).
  destruct (as_truthy (getAirportCode (f :: fr))) as [o|]; [|left; split; reflexivity].
  destruct (as_truthy (getAirportCode (t :: tr))) as [dst|]; [|left; split; reflexivity].
  rewrite Henv. cbn [negb]. rewrite S. right. cbn [fst]. unfold on_error.
  change (js "credentials") with (99 :: js "redentials").
  rewrite includes_absent; [reflexivity|].
  rewrite forallb_app. apply andb_true_intro. split; [vm_compute; reflexivity|].
  apply Z_to_js_without; [reflexivity|discriminate].
Qed.

Lemma transformFlightOffer_throws (offer : FlightOffer)
    (carriers : option (list (jsstring * jsstring))) (m : jsstring) :
  transformFlightOffer parseFloat offer carriers = Throw m ->
  includes m (js "credentials") = false.
Proof.
  unfold transformFlightOffer.
  destruct (itineraries offer) as [|outbound rest].
  - intros H. injection H as <-. vm_compute. reflexivity.
  - destruct (segments outbound) as [|s more]; [|discriminate].
    intros H. injection H as <-. vm_compute. reflexivity.
Qed.

Lemma map_offers_malformed (c : option (list (jsstring * jsstring)))
    (l : list FlightOffer) (offer : FlightOffer) :
  In offer l ->
  (forall outbound rest, itineraries offer = outbound :: rest -> segments outbound = []) ->
  exists m, map_offers _ _ _ (transformFlightOffer parseFloat) c l = Throw m
            /\ includes m (js "credentials") = false.
Proof.
  intros Hin Hbad. induction l as [|o l IH]; [destruct Hin|].
  simpl. destruct (transformFlightOffer parseFloat o c) as [f|m] eqn:E.
  - destruct Hin as [->|Hin].
    + exfalso. revert E. unfold transformFlightOffer.
      destruct (itineraries offer) as [|outbound rest]; [discriminate|].
      rewrite (Hbad outbound rest eq_refl). discriminate.
    + destruct (IH Hin) as (m & -> & Hm). now exists m.
  - exists m. split; [reflexivity|]. now apply transformFlightOffer_throws in E.
Qed.

(** X22. One malformed offer fails the whole search. When the provider's
    answer holds an offer without an itinerary, or whose first itinerary has
    no segment, [transformFlightOffer] throws a [TypeError] and the handler
    answers HTTP 500 with ["Failed to search flights"], whatever the other
    offers are. *)
Theorem GET_malformed_offer
    (searchFlights : SearchOptions
                     -> outcome (FlightSearchResponse FlightOffer
                                   (list (jsstring * jsstring))))
    (env : Env) (random150 : Z) (p : params) (options : SearchOptions)
    (response : FlightSearchResponse FlightOffer (list (jsstring * jsstring)))
    (offer : FlightOffer) :
  let r := FlightSearch.GET (transformFlightOffer parseFloat) searchFlights
                            env random150 p in
  r.2 = [SearchFlights options] ->
  searchFlights options = Ok response ->
  In offer (data _ _ response) ->
  (forall outbound rest, itineraries offer = outbound :: rest -> segments outbound = []) ->
  r.1 = {| status := 500; headers := json_headers;
           body := ErrorBody (js "Failed to search flights") |}.
Proof.
  intros r Ht Hs Hin Hbad. subst r. revert Ht. unfold FlightSearch.GET.
  destruct (p_from p) as [[|f fr]|]; try discriminate.
  destruct (p_to p) as [[|t tr]|]; try discriminate.
  destruct (p_date p) as [[|d dr]|]; try discriminate.
  destruct (as_truthy (getAirportCode (f :: fr))) as [o|]; [|discriminate].
  destruct (as_truthy (getAirportCode (t :: tr))) as [dst|]; [|discriminate].
  destruct (negb (isAmadeusConfigured env)); [discriminate|].
  match goal with |- context [searchFlights ?x] => set (opts := x) end.
  intros Ht.
  assert (E : opts = options).
  { destruct (searchFlights opts) as [resp|m];
      [destruct (map_offers _ _ _ _ _ _)|]; cbn [snd] in Ht; congruence. }
  rewrite E, Hs.
  destruct (map_offers_malformed (carriers _ _ response) _ offer Hin Hbad)
    as (m & -> & Hm).
  cbn [fst]. unfold on_error. rewrite Hm. reflexivity.
Qed.

(** X23. What [transformFlightOffer] reports of an offer whose first
    itinerary has a segment: the number of stops is the number of output
    segments less one, the flight departs where and when its first output
    segment departs, and arrives where and when its last output segment
    arrives. *)
Theorem transformFlightOffer_ends (offer : FlightOffer)
    (carriers : option (list (jsstring * jsstring)))
    (outbound : Itinerary) (rest : list Itinerary)
    (firstSegment : Segment) (more : list Segment) :
  itineraries offer = outbound :: rest ->
  segments outbound = firstSegment :: more ->
  exists f first last_,
    transformFlightOffer parseFloat offer carriers = Ok f
    /\ head (f_segments f) = Some first
    /\ last (f_segments f) = Some last_
    /\ f_stops f = (Z.of_nat (length (f_segments f)) - 1)%Z
    /\ (0 <= f_stops f)%Z
    /\ eo_airport (f_departure f) = iataCode (so_departure first)
    /\ eo_time (f_departure f) = at_ (so_departure first)
    /\ eo_airport (f_arrival f) = iataCode (so_arrival last_)
    /\ eo_time (f_arrival f) = at_ (so_arrival last_).
Proof.
  intros Hi Hs. unfold transformFlightOffer. rewrite Hi, Hs.
  eexists. eexists. eexists. split; [reflexivity|].
  cbn [f_segments f_stops f_departure f_arrival eo_airport eo_time].
  split; [reflexivity|]. split.
  - rewrite <- Hs at 1. rewrite fmap_last, Hs.
    rewrite (last_cons_default more firstSegment firstSegment). reflexivity.
  - unfold getStops. rewrite Hs, length_map. cbn [length so_departure so_arrival].
    repeat split; try reflexivity; lia.
Qed.

(** X24. The minutes of a flight are not a number once one segment's are
    not: when a segment's duration gives [NaN], as a duration with a day part
    does, [durationMinutes] of the flight is [NaN]. *)
Theorem durationMinutes_NaN (offer : FlightOffer)
    (carriers : option (list (jsstring * jsstring)))
    (outbound : Itinerary) (rest : list Itinerary) (seg : Segment) :
  itineraries offer = outbound :: rest ->
  In seg (segments outbound) ->
  segment_minutes seg = None ->
  exists f, transformFlightOffer parseFloat offer carriers = Ok f
            /\ f_durationMinutes f = None.
Proof.
  intros Hi Hin Hs. unfold transformFlightOffer. rewrite Hi.
  destruct (segments outbound) as [|s more] eqn:E; [destruct Hin|].
  eexists. split; [reflexivity|]. cbn [f_durationMinutes].
  now apply fold_NaN_in with seg.
Qed.

End Stack.

Lemma GET_auth_failure_witness :
  (FlightStack.GET (fun _ => 0%Z) (fun _ => [])
     {| AMADEUS_CLIENT_ID := Some (js "id"); AMADEUS_CLIENT_SECRET := Some (js "wrong") |}
     0
     {| auth_now := 0;
        auth_reply := Replied false 401 (js "Unauthorized") (Throw (js "no body"));
        auth_now_stored := 0 |}
     (ApiRejected (js "offline")) no_token
     {| p_from := Some (js "FRA"); p_to := Some (js "Hamburg");
        p_date := Some (js "2026-03-01"); p_return := None;
        p_adults := None; p_class := None |}).1
  = {| status := 500; headers := json_headers;
       body := ErrorBody (js "Failed to search flights") |}.
Proof.
  destruct (GET_auth_failure (fun _ => 0%Z) (fun _ => [])
              {| AMADEUS_CLIENT_ID := Some (js "id");
                 AMADEUS_CLIENT_SECRET := Some (js "wrong") |}
              0
              {| auth_now := 0;
                 auth_reply := Replied false 401 (js "Unauthorized") (Throw (js "no body"));
                 auth_now_stored := 0 |}
              (ApiRejected (js "offline")) no_token
              {| p_from := Some (js "FRA"); p_to := Some (js "Hamburg");
                 p_date := Some (js "2026-03-01"); p_return := None;
                 p_adults := None; p_class := None |}
              401 (js "Unauthorized") (Throw (js "no body"))) as [[A _]|A];
    [ reflexivity | reflexivity | reflexivity | vm_compute in A; discriminate A | exact A ].
Defined.

Lemma GET_malformed_offer_witness :
  (FlightSearch.GET (transformFlightOffer (fun _ => 0%Z))
     (fun _ => Ok {| data := [ {| offer_id := js "1"; price_grandTotal := js "99.00";
                                   price_currency := js "EUR"; itineraries := [] |} ];
                     carriers := None |})
     {| AMADEUS_CLIENT_ID := Some (js "id"); AMADEUS_CLIENT_SECRET := Some (js "secret") |}
     0
     {| p_from := Some (js "FRA"); p_to := Some (js "Hamburg");
        p_date := Some (js "2026-03-01"); p_return := None;
        p_adults := None; p_class := None |}).1
  = {| status := 500; headers := json_headers;
       body := ErrorBody (js "Failed to search flights") |}.
Proof.
  apply (GET_malformed_offer (fun _ => 0%Z)
           (fun _ => Ok {| data := [ {| offer_id := js "1"; price_grandTotal := js "99.00";
                                         price_currency := js "EUR"; itineraries := [] |} ];
                           carriers := None |})
           {| AMADEUS_CLIENT_ID := Some (js "id"); AMADEUS_CLIENT_SECRET := Some (js "secret") |}
           0
           {| p_from := Some (js "FRA"); p_to := Some (js "Hamburg");
              p_date := Some (js "2026-03-01"); p_return := None;
              p_adults := None; p_class := None |}
           {| so_origin := Str (js "FRA"); so_destination := Str (js "HAM");
              so_departureDate := js "2026-03-01"; so_returnDate := None;
              so_adults := Some 1%Z; so_travelClass := js "ECONOMY";
              so_maxResults := 10 |}
           {| data := [ {| offer_id := js "1"; price_grandTotal := js "99.00";
                           price_currency := js "EUR"; itineraries := [] |} ];
              carriers := None |}
           {| offer_id := js "1"; price_grandTotal := js "99.00";
              price_currency := js "EUR"; itineraries := [] |});
    [ vm_compute; reflexivity | reflexivity | left; reflexivity
    | intros outbound rest H; discriminate H ].
Defined.

Lemma transformFlightOffer_ends_witness :
  exists f,
    transformFlightOffer (fun _ => 0%Z)
      {| offer_id := js "1"; price_grandTotal := js "99.00"; price_currency := js "EUR";
         itineraries :=
           [ {| it_duration := js "PT3H10M";
                segments :=
                  [ {| seg_departure := {| iataCode := js "FRA"; terminal := None;
                                           at_ := js "2026-03-01T08:30:00" |};
                       seg_arrival := {| iataCode := js "MUC"; terminal := None;
                                         at_ := js "2026-03-01T09:25:00" |};
                       carrierCode := js "LH"; number := js "98";
                       seg_duration := js "PT55M" |};
                    {| seg_departure := {| iataCode := js "MUC"; terminal := None;
                                           at_ := js "2026-03-01T10:30:00" |};
                       seg_arrival := {| iataCode := js "BER"; terminal := None;
                                         at_ := js "2026-03-01T11:40:00" |};
                       carrierCode := js "LH"; number := js "1930";
                       seg_duration := js "PT1H10M" |} ] |} ] |}
      None = Ok f
    /\ (0 <= f_stops f)%Z.
Proof.
  destruct (transformFlightOffer_ends (fun _ => 0%Z)
              {| offer_id := js "1"; price_grandTotal := js "99.00";
                 price_currency := js "EUR";
                 itineraries :=
                   [ {| it_duration := js "PT3H10M";
                        segments :=
                          [ {| seg_departure := {| iataCode := js "FRA"; terminal := None;
                                                   at_ := js "2026-03-01T08:30:00" |};
                               seg_arrival := {| iataCode := js "MUC"; terminal := None;
                                                 at_ := js "2026-03-01T09:25:00" |};
                               carrierCode := js "LH"; number := js "98";
                               seg_duration := js "PT55M" |};
                            {| seg_departure := {| iataCode := js "MUC"; terminal := None;
                                                   at_ := js "2026-03-01T10:30:00" |};
                               seg_arrival := {| iataCode := js "BER"; terminal := None;
                                                 at_ := js "2026-03-01T11:40:00" |};
                               carrierCode := js "LH"; number := js "1930";
                               seg_duration := js "PT1H10M" |} ] |} ] |}
              None _ _ _ _ eq_refl eq_refl)
    as (f & first & last_ & E & _ & _ & _ & S & _).
  exists f. split; [exact E|exact S].
Defined.

Lemma durationMinutes_NaN_witness :
  exists f,
    transformFlightOffer (fun _ => 0%Z)
      {| offer_id := js "1"; price_grandTotal := js "640.00"; price_currency := js "EUR";
         itineraries :=
           [ {| it_duration := js "P1DT2H";
                segments :=
                  [ {| seg_departure := {| iataCode := js "FRA"; terminal := None;
                                           at_ := js "2026-03-01T08:30:00" |};
                       seg_arrival := {| iataCode := js "SYD"; terminal := None;
                                         at_ := js "2026-03-02T19:30:00" |};
                       carrierCode := js "QF"; number := js "6";
                       seg_duration := js "P1DT2H" |} ] |} ] |}
      None = Ok f
    /\ f_durationMinutes f = None.
Proof.
  eapply (durationMinutes_NaN (fun _ => 0%Z) _ None _ []
           {| seg_departure := {| iataCode := js "FRA"; terminal := None;
                                  at_ := js "2026-03-01T08:30:00" |};
              seg_arrival := {| iataCode := js "SYD"; terminal := None;
                                at_ := js "2026-03-02T19:30:00" |};
              carrierCode := js "QF"; number := js "6";
              seg_duration := js "P1DT2H" |});
    [ reflexivity | left; reflexivity | vm_compute; reflexivity ].
Defined.

End FlightStackProps.

(** ** The airport search *)

Module AirportsProps.

Import Flights FlightSearch Airports.

(** X25. The local airport search returns at most ten airports, and a query
    that is the IATA code of an airport of its two tables, in whatever case,
    finds that airport. *)
Theorem searchLocalAirports_by_code :
  (forall query, (length (searchLocalAirports query) <= 10)%nat)
  /\ (forall query code,
        In code (List.map snd GERMAN_AIRPORTS
                 ++ List.map la_iataCode internationalAirports) ->
        toLowerCase query = toLowerCase code ->
        exists airport,
          In airport (searchLocalAirports query) /\ la_iataCode airport = code).
Proof.
  split.
  - intros query. unfold searchLocalAirports. rewrite length_take. lia.
  - intros query code Hin Hq.
    assert (E : searchLocalAirports query = searchLocalAirports code)
      by (unfold searchLocalAirports; now rewrite Hq).
    rewrite E.
    assert (A : forallb (fun c =>
                  existsb (fun a => str_eqb (la_iataCode a) c) (searchLocalAirports c))
                  (List.map snd GERMAN_AIRPORTS
                   ++ List.map la_iataCode internationalAirports) = true)
      by (vm_compute; reflexivity).
    pose proof (proj1 (List.forallb_forall _ _) A code Hin) as B.
    apply existsb_exists in B as (airport & Ha & Hb).
    exists airport. split; [exact Ha|].
    unfold str_eqb in Hb. now apply bool_decide_eq_true in Hb.
Qed.

Lemma searchLocalAirports_by_code_witness :
  exists airport,
    In airport (searchLocalAirports (js "muc")) /\ la_iataCode airport = js "MUC".
Proof.
  apply (proj2 searchLocalAirports_by_code (js "muc") (js "MUC"));
    [ vm_compute; tauto | vm_compute; reflexivity ].
Defined.

Section Client.

Variable params_toString : list (jsstring * jsstring) -> jsstring.

(** X26. The airport search never answers with an error of the server. Over
    the provider's client, the handler answers HTTP 400 exactly when [q] is
    missing or shorter than two code units, and HTTP 200 otherwise; and
    unless the credentials are set and the provider answers with a body that
    parses, the body is the result of the local search. *)
Theorem GET_never_fails (env : Env) (aw : Amadeus.auth_world)
    (reply : Amadeus.api_reply LocationsResponse) (st : Amadeus.TokenState)
    (q : option jsstring) :
  let r := GET (fun keyword =>
                  (searchAirports params_toString env aw reply st keyword).1.1)
               env q in
  (status r.1 = 400%Z \/ status r.1 = 200%Z)
  /\ (status r.1 = 400%Z
      <-> q = None \/ exists query, q = Some query /\ (length query < 2)%nat)
  /\ (forall query,
        q = Some query -> (2 <= length query)%nat ->
        isAmadeusConfigured env = false
        \/ (forall response, reply <> Amadeus.ApiOk (Ok response)) ->
        body r.1 = LocalBody (searchLocalAirports query)).
Proof.
  intros r. subst r. unfold GET.
  destruct q as [query|].
  - destruct (Nat.ltb_spec (length query) 2) as [Hlt|Hge].
    + cbn [fst status]. split; [now left|]. split.
      * split; [intros _; right; now exists query|reflexivity].
      * intros q' [= <-] H. lia.
    + assert (S : status
                    (if negb (isAmadeusConfigured env)
                     then ({| status := 200; headers := cached_headers;
                              body := LocalBody (searchLocalAirports query) |},
                           @nil event)
                     else
                       match (searchAirports params_toString env aw reply st query).1.1
                       with
                       | Ok airports =>
                           ({| status := 200; headers := cached_headers;
                               body :=
                                 ProviderBody
                                   (List.map (fun a =>
                                      {| ao_name := al_name a;
                                         ao_iataCode := al_iataCode a;
                                         ao_city := cityName <$> al_address a;
                                         ao_country := countryName <$> al_address a |})
                                      airports) |},
                            [SearchAirports query])
                       | Throw _ =>
                           ({| status := 200; headers := json_headers;
                               body := LocalBody (searchLocalAirports query) |},
                            [SearchAirports query])
                       end).1 = 200%Z).
      { destruct (negb (isAmadeusConfigured env)); [reflexivity|].
        destruct (searchAirports params_toString env aw reply st query).1.1;
          reflexivity. }
      split; [now right|]. split.
      * rewrite S. split; [discriminate|].
        intros [H|(q' & [= <-] & H)]; [discriminate H|lia].
      * intros q' [= <-] _ H.
        destruct (isAmadeusConfigured env) eqn:Henv; cbn [negb]; [|reflexivity].
        destruct H as [H|H]; [discriminate H|].
        unfold searchAirports, Amadeus.amadeusRequest.
        destruct (Amadeus.getAccessToken env aw st) as [[[token|m] st'] trace];
          [|reflexivity].
        destruct reply as [m|[response|m]|code description]; try reflexivity.
        now destruct (H response).
  - cbn [fst status]. split; [now left|]. split.
    + split; [intros _; now left|reflexivity].
    + intros query H. discriminate H.
Qed.

End Client.

Lemma GET_never_fails_witness :
  body (GET (fun keyword =>
               (searchAirports (fun _ => [])
                  {| AMADEUS_CLIENT_ID := Some (js "id");
                     AMADEUS_CLIENT_SECRET := Some (js "secret") |}
                  {| Amadeus.auth_now := 0;
                     Amadeus.auth_reply :=
                       Replied false 401 (js "Unauthorized") (Throw (js "no body"));
                     Amadeus.auth_now_stored := 0 |}
                  (Amadeus.ApiRejected (js "offline")) Amadeus.no_token keyword).1.1)
            {| AMADEUS_CLIENT_ID := Some (js "id");
               AMADEUS_CLIENT_SECRET := Some (js "secret") |}
            (Some (js "Wien"))).1
  = LocalBody [].
Proof.
  destruct (GET_never_fails (fun _ => [])
              {| AMADEUS_CLIENT_ID := Some (js "id");
                 AMADEUS_CLIENT_SECRET := Some (js "secret") |}
              {| Amadeus.auth_now := 0;
                 Amadeus.auth_reply :=
                   Replied false 401 (js "Unauthorized") (Throw (js "no body"));
                 Amadeus.auth_now_stored := 0 |}
              (Amadeus.ApiRejected (js "offline")) Amadeus.no_token
              (Some (js "Wien"))) as (_ & _ & H).
  rewrite (H (js "Wien"));
    [ vm_compute; reflexivity | reflexivity | vm_compute; lia
    | right; intros response; discriminate ].
Defined.

End AirportsProps.

(** ** The station search *)

Module StationSearchProps.

Import StationSearch.

Section Handler.

Context {Coordinate Products : Type}.
Variable searchLocations :
  jsstring -> option Z
  -> outcome (list (Stop (Coordinate := Coordinate) (Products := Products))).


End Handler.


End StationSearchProps.

(** ** The journey search *)

Module JourneysProps.

Import Transport Journeys.

Lemma transport_legs_le {Distance : Type} (l : list (LegDetails (Distance := Distance))) :
  (length (List.filter transport_leg l)
   <= length (List.filter not_walking (List.map leg l)))%nat.
Proof.
  induction l as [|x l IH]; [reflexivity|].
  cbn [List.filter List.map]. unfold transport_leg at 1.
  destruct (not_walking (leg x)); cbn [andb]; [|exact IH].
  destruct (bool_decide _); cbn [length]; lia.
Qed.

Section Handler.

Context {Price Distance : Type}.
Variable getTime : jsstring -> option Z.
Variable searchLocations : list event -> jsstring -> Z -> outcome (list Stop).
Variable findJourneys :
  list event -> jsstring -> jsstring -> option jsstring -> option Z -> option (option Z)
  -> outcome (JourneysResponse (Price := Price) (Distance := Distance)).

(** X28. The order of the journey search. A missing or empty [from] or [to]
    gives HTTP 400 without a call. An origin that is not a station id is
    looked up first, and when it is not found the answer is HTTP 404 that
    names it, the destination not being looked up; the destination is looked
    up after an origin that was found, and HTTP 404 names it when it is not
    found. Two station ids are not looked up: the only call is the journey
    search between them, for at most 10 journeys. *)
Theorem GET_lookup_order (p : params) :
  let r := GET getTime searchLocations findJourneys p in
  (missing (p_from p) = true \/ missing (p_to p) = true ->
   status r.1 = 400%Z /\ r.2 = [])
  /\ (forall from to,
        p_from p = Some from -> from <> [] -> p_to p = Some to -> to <> [] ->
        (Departures.is_station_id from = false ->
         searchLocations [] from 1%Z = Ok [] ->
         r = (not_found from, [SearchLocations from 1]))
        /\ (forall top rest,
              Departures.is_station_id from = false ->
              searchLocations [] from 1%Z = Ok (top :: rest) ->
              Departures.is_station_id to = false ->
              searchLocations [SearchLocations from 1] to 1%Z = Ok [] ->
              r = (not_found to, [SearchLocations from 1; SearchLocations to 1]))
        /\ (Departures.is_station_id from = true ->
            Departures.is_station_id to = true ->
            exists departure results transfers,
              r.2 = [FindJourneys from to departure results transfers]
              /\ forall n, results = Some n -> (n <= 10)%Z)).
Proof.
  intros r. subst r. unfold GET. split.
  - unfold missing.
    destruct (p_from p) as [[|f fr]|], (p_to p) as [[|t tr]|];
      intros [H|H]; first [discriminate H | split; reflexivity].
  - intros from to Hf Hfne Ht Htne. rewrite Hf, Ht.
    destruct from as [|f fr]; [congruence|].
    destruct to as [|t tr]; [congruence|].
    split; [|split].
    + intros -> ->. reflexivity.
    + intros top rest -> ->. cbn [negb]. unfold resolve_to.
      intros -> ->. reflexivity.
    + intros -> Hto. cbn [negb]. unfold resolve_to. rewrite Hto. cbn [negb].
      unfold find.
      exists (if missing (p_when p) then None else p_when p),
             (Math_min (parseInt (or_default (p_results p) (js "5"))) 10),
             (if missing (p_transfers p) then None
              else Some (parseInt (default [] (p_transfers p)))).
      split.
      * destruct (findJourneys _ _ _ _ _ _) as [response|m]; [|reflexivity].
        destruct (map_journeys _ _); reflexivity.
      * unfold Math_min. destruct (parseInt _); [|discriminate].
        intros n [= <-]. lia.
Qed.

(** X29. What [transform] reports of a journey that has a leg: one output
    leg for each leg, a number of transfers that is not negative, and at most
    one product more than there are transfers; and where the departure of the
    first leg is not a date, the duration is not a number and is shown as
    ["NaN Std NaN Min"]. *)
Theorem transform_journey (journey : JourneyDetails (Price := Price) (Distance := Distance))
    (firstLeg : LegDetails) (more : list LegDetails) :
  jd_legs journey = firstLeg :: more ->
  exists out,
    transform getTime journey = Ok out
    /\ length (jo_legs out) = length (jd_legs journey)
    /\ (0 <= jo_transfers out)%Z
    /\ (Z.of_nat (length (jo_products out)) <= jo_transfers out + 1)%Z
    /\ (getTime (departure (leg firstLeg)) = None ->
        jo_durationMinutes out = None /\ jo_duration out = js "NaN Std NaN Min").
Proof.
  intros Hl. unfold transform. rewrite Hl. eexists. split; [reflexivity|].
  cbn [jo_legs jo_transfers jo_products jo_durationMinutes jo_duration].
  rewrite !length_map. split; [reflexivity|].
  unfold getTransferCount. split; [lia|]. split.
  - pose proof (transport_legs_le (firstLeg :: more)) as H.
    unfold journey_of. cbn [legs]. rewrite Hl. lia.
  - intros Ht. unfold getJourneyDuration, journey_of. cbn [legs]. rewrite Hl.
    cbn [List.map]. rewrite Ht. split; reflexivity.
Qed.

Lemma map_journeys_without_legs
    (l : list (JourneyDetails (Price := Price) (Distance := Distance)))
    (journey : JourneyDetails) :
  In journey l -> jd_legs journey = [] ->
  exists m, map_journeys getTime l = Throw m.
Proof.
  intros Hin Hl. induction l as [|j l IH]; [destruct Hin|].
  simpl. destruct (transform getTime j) as [o|m] eqn:E; [|now exists m].
  destruct Hin as [->|Hin].
  - unfold transform in E. rewrite Hl in E. discriminate E.
  - destruct (IH Hin) as (m & ->). now exists m.
Qed.

(** X30. One journey without a leg fails the whole search: when the answers
    of the journey search hold such a journey, [transform] throws a
    [TypeError] on it and the handler never answers HTTP 200. *)
Theorem GET_journey_without_legs (p : params) :
  (forall trace from to departure results transfers response,
     findJourneys trace from to departure results transfers = Ok response ->
     exists journey, In journey (journeys response) /\ jd_legs journey = []) ->
  status (GET getTime searchLocations findJourneys p).1 <> 200%Z.
Proof.
  intros H.
  assert (F : forall fromId toId trace,
             status (find getTime findJourneys p fromId toId trace).1 <> 200%Z).
  { intros fromId toId trace. unfold find.
    destruct (findJourneys _ _ _ _ _ _) as [response|m] eqn:E; [|discriminate].
    destruct (H _ _ _ _ _ _ _ E) as (journey & Hin & Hl).
    destruct (map_journeys_without_legs _ _ Hin Hl) as (m & ->). discriminate. }
  assert (R : forall fromId to trace,
             status (resolve_to getTime searchLocations findJourneys p fromId to trace).1
             <> 200%Z).
  { intros fromId to trace. unfold resolve_to.
    destruct (negb _); [|apply F].
    destruct (searchLocations _ _ _) as [[|top rest]|m];
      [discriminate|apply F|discriminate]. }
  unfold GET.
  destruct (p_from p) as [[|f fr]|]; try discriminate.
  destruct (p_to p) as [[|t tr]|]; try discriminate.
  destruct (negb _); [|apply R].
  destruct (searchLocations _ _ _) as [[|top rest]|m];
    [discriminate|apply R|discriminate].
Qed.

End Handler.

Lemma GET_lookup_order_witness :
  GET (Price := Z) (Distance := Z) (fun _ => None) (fun _ _ _ => Ok [])
      (fun _ _ _ _ _ _ => Throw [])
      {| p_from := Some (js "Atlantis"); p_to := Some (js "8000105");
         p_when := None; p_results := None; p_transfers := None |}
  = (not_found (js "Atlantis"), [SearchLocations (js "Atlantis") 1]).
Proof.
  destruct (GET_lookup_order (Price := Z) (Distance := Z) (fun _ => None)
              (fun _ _ _ => Ok []) (fun _ _ _ _ _ _ => Throw [])
              {| p_from := Some (js "Atlantis"); p_to := Some (js "8000105");
                 p_when := None; p_results := None; p_transfers := None |}) as [_ H].
  destruct (H (js "Atlantis") (js "8000105")) as [A _];
    [ reflexivity | vm_compute; discriminate | reflexivity | vm_compute; discriminate | ].
  apply A; [vm_compute; reflexivity|reflexivity].
Defined.

Lemma transform_journey_witness :
  exists out,
    transform (Price := Z) (Distance := Z) (fun _ => None)
      {| jd_legs := [ {| leg := Spec.train; direction := Some (js "München Hbf");
                         distance := None; departurePlatform := Some (js "5");
                         arrivalPlatform := None |} ];
         price := None; refreshToken := None |} = Ok out
    /\ jo_duration out = js "NaN Std NaN Min".
Proof.
  destruct (transform_journey (Price := Z) (Distance := Z) (fun _ => None)
              {| jd_legs := [ {| leg := Spec.train; direction := Some (js "München Hbf");
                                 distance := None; departurePlatform := Some (js "5");
                                 arrivalPlatform := None |} ];
                 price := None; refreshToken := None |}
              _ _ eq_refl) as (out & E & _ & _ & _ & H).
  exists out. split; [exact E|]. apply H. reflexivity.
Defined.

Lemma GET_journey_without_legs_witness :
  status (GET (Price := Z) (Distance := Z) (fun _ => None) (fun _ _ _ => Ok [])
            (fun _ _ _ _ _ _ =>
               Ok {| journeys := [ {| jd_legs := []; price := None;
                                      refreshToken := None |} ];
                     earlierRef := None; laterRef := None |})
            {| p_from := Some (js "8011160"); p_to := Some (js "8000105");
               p_when := None; p_results := None; p_transfers := None |}).1
  <> 200%Z.
Proof.
  apply (GET_journey_without_legs (Price := Z) (Distance := Z) (fun _ => None)
           (fun _ _ _ => Ok [])
           (fun _ _ _ _ _ _ =>
              Ok {| journeys := [ {| jd_legs := []; price := None;
                                     refreshToken := None |} ];
                    earlierRef := None; laterRef := None |})).
  intros trace from to departure results transfers response [= <-].
  eexists. split; [left; reflexivity|reflexivity].
Defined.

End JourneysProps.
